(** * A shallow embedding of the s5k3l6 camera sensor driver

    Source: [drivers/media/i2c/s5k3l6.c].

    The driver talks to three collaborators that live outside the file: the
    I2C core, the runtime power management core and the V4L2 control
    framework.  Each of them is modelled below by the part of its contract
    the driver relies on; everything the driver itself computes is
    translated from the C text, function by function, under the C names.

    C integers are values of [Z]; every conversion the C code performs
    (to [u32], to [int], to a byte) is written out. *)

From Stdlib Require Import ZArith List Lia Bool.
From Stdlib Require String.
Import String.StringSyntax.
Delimit Scope string_scope with string.
Import ListNotations.
Local Open Scope Z_scope.

(** ** Machine integers *)

Definition u8 (z : Z) : Z := z mod 2 ^ 8.
Definition u16 (z : Z) : Z := z mod 2 ^ 16.
Definition u32 (z : Z) : Z := z mod 2 ^ 32.

(** Conversion of a 32-bit pattern to [int] (two's complement). *)
Definition s32 (z : Z) : Z :=
  let w := z mod 2 ^ 32 in if w <? 2 ^ 31 then w else w - 2 ^ 32.

(** The kernel's [abs()] applied to an [unsigned int] or [int] expression:
    the argument is first stored in a [signed int], then negated when it is
    negative (the kernel is built with wrapping signed arithmetic). *)
Definition abs (x : Z) : Z :=
  let __x := s32 x in if __x <? 0 then s32 (- __x) else __x.

(** ** Error numbers *)

Definition EIO : Z := 5.
Definition EACCES : Z := 13.
Definition ENODEV : Z := 19.
Definition EINVAL : Z := 22.
Definition ENOTTY : Z := 25.
Definition ERANGE : Z := 34.

(** ** Register map *)

Definition CHIP_ID : Z := 0x30c6.
Definition S5K3L6_REG_CHIP_ID : Z := 0x0000.

Definition S5K3L6_REG_CTRL_MODE : Z := 0x0100.
Definition S5K3L6_MODE_SW_STANDBY : Z := 0x0.
Definition S5K3L6_MODE_STREAMING : Z := Z.shiftl 1 0.
Definition S5K3L6_REG_STREAM_ON : Z := 0x3C1E.

Definition S5K3L6_REG_EXPOSURE : Z := 0x0202.
Definition S5K3L6_EXPOSURE_MIN : Z := 1.
Definition S5K3L6_EXPOSURE_STEP : Z := 1.
Definition S5K3L6_VTS_MAX : Z := 0xfff7.

Definition S5K3L6_REG_ANALOG_GAIN : Z := 0x0204.
Definition S5K3L6_GAIN_MIN : Z := 0x20.
Definition S5K3L6_GAIN_MAX : Z := 0x200.
Definition S5K3L6_GAIN_STEP : Z := 1.
Definition S5K3L6_GAIN_DEFAULT : Z := 0x100.

Definition S5K3L6_REG_TEST_PATTERN : Z := 0x0601.
Definition S5K3L6_TEST_PATTERN_ENABLE : Z := 0x80.
Definition S5K3L6_TEST_PATTERN_DISABLE : Z := 0x0.

Definition S5K3L6_REG_VTS : Z := 0x0340.

Definition REG_NULL : Z := 0xFFFF.

Definition S5K3L6_REG_VALUE_08BIT : Z := 1.
Definition S5K3L6_REG_VALUE_16BIT : Z := 2.
Definition S5K3L6_REG_VALUE_24BIT : Z := 3.

Definition S5K3L6_LANES : Z := 4.
Definition S5K3L6_BITS_PER_SAMPLE : Z := 10.
Definition S5K3L6_CHIP_REVISION_REG : Z := 0x0002.

Definition S5K3L6_LINK_FREQ_600MHZ : Z := 600000000.
Definition S5K3L6_LINK_FREQ_284MHZ : Z := 284000000.
Definition S5K3L6_PIXEL_RATE : Z := S5K3L6_LINK_FREQ_600MHZ * 2 * 4 / 10.

(** ** The I2C link

    The adapter is the environment.  It decides, for the n-th transaction
    issued on the link, whether the transaction completes ([None]) or which
    value the I2C core returns instead ([Some r]), and which bytes the
    device answers when the transaction is a read.  The client records every
    transaction it issues, oldest first. *)

Record i2c_adapter := {
  xfer_result : nat -> option Z;
  rx_bytes : nat -> list Z
}.

Inductive i2c_event :=
| MasterSend (buf : list Z) (ret : Z)
| Transfer (reg_addr_be : list Z) (len : Z) (ret : Z).

Record i2c_client := {
  adapter : i2c_adapter;
  xfers : list i2c_event
}.

Definition xfer_index (c : i2c_client) : nat := length (xfers c).

Definition record_xfer (c : i2c_client) (e : i2c_event) : i2c_client :=
  {| adapter := adapter c; xfers := xfers c ++ [e] |}.

(** [i2c_master_send(client, buf, count)]: returns [count] when the message
    went out in full. *)
Definition i2c_master_send (c : i2c_client) (buf : list Z) : Z * i2c_client :=
  let ret := match xfer_result (adapter c) (xfer_index c) with
             | None => Z.of_nat (length buf)
             | Some r => r
             end in
  (ret, record_xfer c (MasterSend buf ret)).

(** [i2c_transfer(adapter, msgs, 2)] for an address write followed by a read
    of [len] bytes: returns the number of messages transferred and the bytes
    received. *)
Definition i2c_transfer (c : i2c_client) (reg_addr_be : list Z) (len : Z)
  : Z * list Z * i2c_client :=
  let ret := match xfer_result (adapter c) (xfer_index c) with
             | None => 2
             | Some r => r
             end in
  (ret, map u8 (rx_bytes (adapter c) (xfer_index c)),
   record_xfer c (Transfer reg_addr_be len ret)).

(** The four bytes of [cpu_to_be32(val)], most significant first. *)
Definition cpu_to_be32 (val : Z) : list Z :=
  [Z.land (Z.shiftr val 24) 0xff; Z.land (Z.shiftr val 16) 0xff;
   Z.land (Z.shiftr val 8) 0xff; Z.land val 0xff].

Definition cpu_to_be16 (reg : Z) : list Z :=
  [Z.land (Z.shiftr reg 8) 0xff; Z.land reg 0xff].

(** [be32_to_cpu] of a 4-byte buffer. *)
Definition be32_to_cpu (data : list Z) : Z :=
  fold_left (fun acc b => Z.lor (Z.shiftl acc 8) b) data 0.

(** Bytes [4 - len .. 3] of a zeroed 4-byte buffer receive the [len] bytes
    read; missing bytes stay zero. *)
Definition place_be (len : nat) (rx : list Z) : list Z :=
  repeat 0 (4 - len) ++ firstn len (rx ++ repeat 0 len).

(** ** Register access *)

(* Write registers up to 4 at a time *)
Definition s5k3l6_write_reg (client : i2c_client) (reg len val : Z)
  : Z * i2c_client :=
  if len >? 4 then (- EINVAL, client)
  else
    let buf := [Z.shiftr reg 8 mod 2 ^ 8; Z.land reg 0xff]
               ++ skipn (Z.to_nat (4 - len)) (cpu_to_be32 val) in
    let '(sent, client') := i2c_master_send client buf in
    if negb (sent =? len + 2) then (- EIO, client')
    else (0, client').

Record regval := { addr : Z; val : Z }.

(** The loop of [s5k3l6_write_array] walks the array until the sentinel
    address or the first failing write.  Every table of the driver ends with
    a [REG_NULL] entry, so the end of the list is never reached. *)
Fixpoint s5k3l6_write_array (client : i2c_client) (regs : list regval)
  : Z * i2c_client :=
  match regs with
  | [] => (0, client)
  | r :: regs' =>
      if addr r =? REG_NULL then (0, client)
      else
        let '(ret, client') :=
          s5k3l6_write_reg client (addr r) S5K3L6_REG_VALUE_16BIT (val r) in
        if ret =? 0 then s5k3l6_write_array client' regs'
        else (ret, client')
  end.

(* Read registers up to 4 at a time.  The third component is [*val]. *)
Definition s5k3l6_read_reg (client : i2c_client) (reg len : Z) (val : Z)
  : Z * Z * i2c_client :=
  if (len >? 4) || (len =? 0) then (- EINVAL, val, client)
  else
    let '(ret, rx, client') := i2c_transfer client (cpu_to_be16 reg) len in
    if negb (ret =? 2) then (- EIO, val, client')
    else (0, be32_to_cpu (place_be (Z.to_nat len) rx), client').

(** What [s5k3l6_check_sensor_id] prints on its way out. *)
Inductive sensor_id_msg :=
| Unexpected_sensor_id (id ret : Z)        (* dev_err *)
| Read_chip_revision_register_error        (* dev_err *)
| Detected_Samsung_sensor (id revision : Z). (* dev_info *)

Definition s5k3l6_check_sensor_id (client : i2c_client)
  : Z * i2c_client * sensor_id_msg :=
  let id := 0 in
  let '(ret, id, client1) :=
    s5k3l6_read_reg client S5K3L6_REG_CHIP_ID S5K3L6_REG_VALUE_16BIT id in
  if negb (id =? CHIP_ID) then
    (- ENODEV, client1, Unexpected_sensor_id id ret)
  else
    let '(ret, id, client2) :=
      s5k3l6_read_reg client1 S5K3L6_CHIP_REVISION_REG
                      S5K3L6_REG_VALUE_08BIT id in
    if negb (ret =? 0) then (ret, client2, Read_chip_revision_register_error)
    else (0, client2, Detected_Samsung_sensor CHIP_ID id).

(** ** Register programs and the mode catalog

    The tables are those of the default build (none of [S5K3L6_MIRROR],
    [S5K3L6_FLIP], [S5K3L6_FLIP_MIRROR] defined). *)

Definition rv (a v : Z) : regval := {| addr := a; val := v |}.

Definition s5k3l6_4208x3120_30fps_regs : list regval :=
  [rv 0x0100 0x0000; rv 0x0000 0x0060; rv 0x0000 0x30C6; rv 0x0A02 0x3400;
   rv 0x3084 0x1314; rv 0x3266 0x0001; rv 0x3242 0x2020; rv 0x306A 0x2F4C;
   rv 0x306C 0xCA01; rv 0x307A 0x0D20; rv 0x309E 0x002D; rv 0x3072 0x0013;
   rv 0x3074 0x0977; rv 0x3076 0x9411; rv 0x3024 0x0016; rv 0x3070 0x3D00;
   rv 0x3002 0x0E00; rv 0x3006 0x1000; rv 0x300A 0x0C00; rv 0x3010 0x0400;
   rv 0x3018 0xC500; rv 0x303A 0x0204; rv 0x3452 0x0001; rv 0x3454 0x0001;
   rv 0x3456 0x0001; rv 0x3458 0x0001; rv 0x345a 0x0002; rv 0x345C 0x0014;
   rv 0x345E 0x0002; rv 0x3460 0x0014; rv 0x3464 0x0006; rv 0x3466 0x0012;
   rv 0x3468 0x0012; rv 0x346A 0x0012; rv 0x346C 0x0012; rv 0x346E 0x0012;
   rv 0x3470 0x0012; rv 0x3472 0x0008; rv 0x3474 0x0004; rv 0x3476 0x0044;
   rv 0x3478 0x0004; rv 0x347A 0x0044; rv 0x347E 0x0006; rv 0x3480 0x0010;
   rv 0x3482 0x0010; rv 0x3484 0x0010; rv 0x3486 0x0010; rv 0x3488 0x0010;
   rv 0x348A 0x0010; rv 0x348E 0x000C; rv 0x3490 0x004C; rv 0x3492 0x000C;
   rv 0x3494 0x004C; rv 0x3496 0x0020; rv 0x3498 0x0006; rv 0x349A 0x0008;
   rv 0x349C 0x0008; rv 0x349E 0x0008; rv 0x34A0 0x0008; rv 0x34A2 0x0008;
   rv 0x34A4 0x0008; rv 0x34A8 0x001A; rv 0x34AA 0x002A; rv 0x34AC 0x001A;
   rv 0x34AE 0x002A; rv 0x34B0 0x0080; rv 0x34B2 0x0006; rv 0x32A2 0x0000;
   rv 0x32A4 0x0000; rv 0x32A6 0x0000; rv 0x32A8 0x0000; rv 0x0344 0x0008;
   rv 0x0346 0x0008; rv 0x0348 0x1077; rv 0x034A 0x0C37; rv 0x034C 0x1070;
   rv 0x034E 0x0C30; rv 0x0900 0x0000; rv 0x0380 0x0001; rv 0x0382 0x0001;
   rv 0x0384 0x0001; rv 0x0386 0x0001; rv 0x0114 0x0330; rv 0x0110 0x0002;
   rv 0x0136 0x1800; rv 0x0304 0x0004; rv 0x0306 0x0078; rv 0x3C1E 0x0000;
   rv 0x030C 0x0004; rv 0x030E 0x0064; rv 0x3C16 0x0000; rv 0x0300 0x0006;
   rv 0x0342 0x1320; rv 0x0340 0x0CBC; rv 0x38C4 0x0009; rv 0x38D8 0x002A;
   rv 0x38DA 0x000A; rv 0x38DC 0x000B; rv 0x38C2 0x000A; rv 0x38C0 0x000F;
   rv 0x38D6 0x000A; rv 0x38D4 0x0009; rv 0x38B0 0x000F; rv 0x3932 0x1000;
   rv 0x3934 0x0180; rv 0x3938 0x000C; rv 0x0820 0x04B0; rv 0x380C 0x0090;
   rv 0x3064 0xEFCF; rv 0x309C 0x0640; rv 0x3090 0x8800; rv 0x3238 0x000C;
   rv 0x314A 0x5F00; rv 0x32B2 0x0000; rv 0x32B4 0x0000; rv 0x32B6 0x0000;
   rv 0x32B8 0x0000; rv 0x3300 0x0000; rv 0x3400 0x0000; rv 0x3402 0x4E42;
   rv 0x32B2 0x0006; rv 0x32B4 0x0006; rv 0x32B6 0x0006; rv 0x32B8 0x0006;
   rv 0x3C34 0x0008; rv 0x3C36 0x0000; rv 0x3C38 0x0000; rv 0x393E 0x4000;
   rv REG_NULL 0x0000].

Definition s5k3l6_2104x1560_30fps_regs : list regval :=
  [rv 0x0100 0x0000; rv 0x0000 0x0050; rv 0x0000 0x30C6; rv 0x0A02 0x3400;
   rv 0x3084 0x1314; rv 0x3266 0x0001; rv 0x3242 0x2020; rv 0x306A 0x2F4C;
   rv 0x306C 0xCA01; rv 0x307A 0x0D20; rv 0x309E 0x002D; rv 0x3072 0x0013;
   rv 0x3074 0x0977; rv 0x3076 0x9411; rv 0x3024 0x0016; rv 0x3070 0x3D00;
   rv 0x3002 0x0E00; rv 0x3006 0x1000; rv 0x300A 0x0C00; rv 0x3010 0x0400;
   rv 0x3018 0xC500; rv 0x303A 0x0204; rv 0x3452 0x0001; rv 0x3454 0x0001;
   rv 0x3456 0x0001; rv 0x3458 0x0001; rv 0x345a 0x0002; rv 0x345C 0x0014;
   rv 0x345E 0x0002; rv 0x3460 0x0014; rv 0x3464 0x0006; rv 0x3466 0x0012;
   rv 0x3468 0x0012; rv 0x346A 0x0012; rv 0x346C 0x0012; rv 0x346E 0x0012;
   rv 0x3470 0x0012; rv 0x3472 0x0008; rv 0x3474 0x0004; rv 0x3476 0x0044;
   rv 0x3478 0x0004; rv 0x347A 0x0044; rv 0x347E 0x0006; rv 0x3480 0x0010;
   rv 0x3482 0x0010; rv 0x3484 0x0010; rv 0x3486 0x0010; rv 0x3488 0x0010;
   rv 0x348A 0x0010; rv 0x348E 0x000C; rv 0x3490 0x004C; rv 0x3492 0x000C;
   rv 0x3494 0x004C; rv 0x3496 0x0020; rv 0x3498 0x0006; rv 0x349A 0x0008;
   rv 0x349C 0x0008; rv 0x349E 0x0008; rv 0x34A0 0x0008; rv 0x34A2 0x0008;
   rv 0x34A4 0x0008; rv 0x34A8 0x001A; rv 0x34AA 0x002A; rv 0x34AC 0x001A;
   rv 0x34AE 0x002A; rv 0x34B0 0x0080; rv 0x34B2 0x0006; rv 0x32A2 0x0000;
   rv 0x32A4 0x0000; rv 0x32A6 0x0000; rv 0x32A8 0x0000; rv 0x3066 0x7E00;
   rv 0x3004 0x0800; rv 0x0344 0x0008; rv 0x0346 0x0008; rv 0x0348 0x1077;
   rv 0x034A 0x0C37; rv 0x034C 0x0838; rv 0x034E 0x0618; rv 0x0900 0x0122;
   rv 0x0380 0x0001; rv 0x0382 0x0001; rv 0x0384 0x0001; rv 0x0386 0x0003;
   rv 0x0114 0x0330; rv 0x0110 0x0002; rv 0x0136 0x1800; rv 0x0304 0x0004;
   rv 0x0306 0x0078; rv 0x3C1E 0x0000; rv 0x030C 0x0003; rv 0x030E 0x0047;
   rv 0x3C16 0x0001; rv 0x0300 0x0006; rv 0x0342 0x1320; rv 0x0340 0x0CBC;
   rv 0x38C4 0x0004; rv 0x38D8 0x0011; rv 0x38DA 0x0005; rv 0x38DC 0x0005;
   rv 0x38C2 0x0005; rv 0x38C0 0x0004; rv 0x38D6 0x0004; rv 0x38D4 0x0004;
   rv 0x38B0 0x0007; rv 0x3932 0x1000; rv 0x3934 0x0180; rv 0x3938 0x000C;
   rv 0x0820 0x0238; rv 0x380C 0x0049; rv 0x3064 0xFFCF; rv 0x309C 0x0640;
   rv 0x3090 0x8000; rv 0x3238 0x000B; rv 0x314A 0x5F02; rv 0x3300 0x0000;
   rv 0x3400 0x0000; rv 0x3402 0x4E46; rv 0x32B2 0x0008; rv 0x32B4 0x0008;
   rv 0x32B6 0x0008; rv 0x32B8 0x0008; rv 0x3C34 0x0048; rv 0x3C36 0x3000;
   rv 0x3C38 0x0020; rv 0x393E 0x4000; rv 0x303A 0x0204; rv 0x3034 0x4B01;
   rv 0x3036 0x0029; rv 0x3032 0x4800; rv 0x320E 0x049E; rv REG_NULL 0x0000].

Record v4l2_fract := { numerator : Z; denominator : Z }.

Record s5k3l6_mode := {
  width : Z;
  height : Z;
  max_fps : v4l2_fract;
  hts_def : Z;
  vts_def : Z;
  exp_def : Z;
  link_freq_idx : Z;
  bpp : Z;
  reg_list : list regval
}.

Definition mode_4208x3120 : s5k3l6_mode :=
  {| width := 4208;
     height := 3120;
     max_fps := {| numerator := 10000; denominator := 300000 |};
     hts_def := 0x1320;
     vts_def := 0x0cbc;
     exp_def := 0x0cb0;
     link_freq_idx := 0;
     bpp := 10;
     reg_list := s5k3l6_4208x3120_30fps_regs |}.

Definition mode_2104x1560 : s5k3l6_mode :=
  {| width := 2104;
     height := 1560;
     max_fps := {| numerator := 10000; denominator := 300000 |};
     hts_def := 0x1320;
     vts_def := 0x0cbc;
     exp_def := 0x0cb0;
     link_freq_idx := 1;
     bpp := 10;
     reg_list := s5k3l6_2104x1560_30fps_regs |}.

Definition supported_modes : list s5k3l6_mode :=
  [mode_4208x3120; mode_2104x1560].

Definition link_freq_items : list Z :=
  [S5K3L6_LINK_FREQ_600MHZ; S5K3L6_LINK_FREQ_284MHZ].

Definition s5k3l6_test_pattern_menu : list String.string :=
  ["Disabled"%string;
   "Vertical Color Bar Type 1"%string;
   "Vertical Color Bar Type 2"%string;
   "Vertical Color Bar Type 3"%string].

Definition ARRAY_SIZE {A : Type} (a : list A) : Z := Z.of_nat (length a).

(** ** Formats *)

Inductive mbus_code :=
| MEDIA_BUS_FMT_SRGGB10_1X10
| MEDIA_BUS_FMT_SBGGR10_1X10
| MEDIA_BUS_FMT_SGBRG10_1X10
| MEDIA_BUS_FMT_SGRBG10_1X10.

Definition S5K3L6_MEDIA_BUS_FMT : mbus_code := MEDIA_BUS_FMT_SGRBG10_1X10.

Inductive v4l2_field := V4L2_FIELD_ANY | V4L2_FIELD_NONE | V4L2_FIELD_OTHER (f : Z).

Record v4l2_mbus_framefmt := {
  fmt_width : Z;
  fmt_height : Z;
  fmt_code : option mbus_code;
  fmt_field : v4l2_field
}.

Inductive v4l2_subdev_format_whence :=
| V4L2_SUBDEV_FORMAT_TRY
| V4L2_SUBDEV_FORMAT_ACTIVE.

Record v4l2_subdev_format := {
  which : v4l2_subdev_format_whence;
  pad : Z;
  format : v4l2_mbus_framefmt
}.

(** ** Best-fit selection *)

(** [mode->width - framefmt->width] is a subtraction of two [u32]; [abs]
    reads the difference as an [int]; the sum of the two [int]s is the
    [int] result. *)
Definition s5k3l6_get_reso_dist (mode : s5k3l6_mode)
                                (framefmt : v4l2_mbus_framefmt) : Z :=
  s32 (abs (u32 (width mode - fmt_width framefmt)) +
       abs (u32 (height mode - fmt_height framefmt))).

(** The [for] loop of [s5k3l6_find_best_fit] over the entries from index
    [i] on, carrying [cur_best_fit] and [cur_best_fit_dist]. *)
Fixpoint best_fit_loop (modes : list s5k3l6_mode) (i : nat)
                       (framefmt : v4l2_mbus_framefmt)
                       (cur_best_fit : nat) (cur_best_fit_dist : Z) : nat :=
  match modes with
  | [] => cur_best_fit
  | m :: modes' =>
      let dist := s5k3l6_get_reso_dist m framefmt in
      if (cur_best_fit_dist =? -1) || (dist <? cur_best_fit_dist)
      then best_fit_loop modes' (S i) framefmt i dist
      else best_fit_loop modes' (S i) framefmt cur_best_fit cur_best_fit_dist
  end.

Definition best_fit_index (fmt : v4l2_subdev_format) : nat :=
  best_fit_loop supported_modes 0 (format fmt) 0 (-1).

Definition s5k3l6_find_best_fit (fmt : v4l2_subdev_format) : s5k3l6_mode :=
  nth (best_fit_index fmt) supported_modes mode_4208x3120.

(** The distance the specification speaks of, over the integers. *)
Definition manhattan (m : s5k3l6_mode) (w h : Z) : Z :=
  Z.abs (width m - w) + Z.abs (height m - h).

(** ** The V4L2 control framework

    The framework is not part of the driver.  What follows is the part of
    its contract the driver depends on, for the control types the driver
    creates: range checking, rounding of a new value into the range, and
    the rule that [ops->s_ctrl] is called only when the value changes and
    that the new value becomes current only when [s_ctrl] returned 0. *)

Inductive v4l2_ctrl_type :=
| V4L2_CTRL_TYPE_INTEGER
| V4L2_CTRL_TYPE_INTEGER64
| V4L2_CTRL_TYPE_MENU
| V4L2_CTRL_TYPE_INTEGER_MENU.

Record v4l2_ctrl := {
  ctrl_type : v4l2_ctrl_type;
  minimum : Z;
  maximum : Z;
  step : Z;
  default_value : Z;
  cur : Z
}.

Definition is_menu (t : v4l2_ctrl_type) : bool :=
  match t with
  | V4L2_CTRL_TYPE_MENU | V4L2_CTRL_TYPE_INTEGER_MENU => true
  | _ => false
  end.

Definition check_range (t : v4l2_ctrl_type) (min max step def : Z) : Z :=
  if is_menu t then
    if (min >? max) || (def <? min) || (def >? max) then - ERANGE
    else if negb (step =? 0) && Z.testbit step def
         then - EINVAL else 0
  else
    if (step =? 0) || (min >? max) || (def <? min) || (def >? max)
    then - ERANGE else 0.

(** [ROUND_TO_RANGE]: move the value to the nearest step inside
    [[minimum, maximum]]. *)
Definition round_to_range (c : v4l2_ctrl) (v : Z) : Z :=
  let v := if (maximum c >=? 0) && (v >=? maximum c - step c / 2)
           then maximum c else v + step c / 2 in
  let v := Z.min (Z.max v (minimum c)) (maximum c) in
  let offset := v - minimum c in
  let offset := step c * (offset / step c) in
  minimum c + offset.

(** [validate_new]: integer controls are rounded and always accepted, menu
    controls are range checked (the driver's menus skip no item). *)
Definition validate_new (c : v4l2_ctrl) (v : Z) : Z * Z :=
  if is_menu (ctrl_type c) then
    if (v <? minimum c) || (v >? maximum c) then (- ERANGE, v) else (0, v)
  else (0, round_to_range c v).

Definition set_range (c : v4l2_ctrl) (min max stp def : Z) : v4l2_ctrl :=
  {| ctrl_type := ctrl_type c; minimum := min; maximum := max; step := stp;
     default_value := def; cur := cur c |}.

Definition set_cur (c : v4l2_ctrl) (v : Z) : v4l2_ctrl :=
  {| ctrl_type := ctrl_type c; minimum := minimum c; maximum := maximum c;
     step := step c; default_value := default_value c; cur := v |}.

(** [v4l2_ctrl_new_std] and friends: the current value starts at the
    default. *)
Definition v4l2_ctrl_new (t : v4l2_ctrl_type) (min max stp def : Z)
  : v4l2_ctrl :=
  {| ctrl_type := t; minimum := min; maximum := max; step := stp;
     default_value := def; cur := def |}.

Section ControlOps.
(** A control lives in a driver state [S]; [s_ctrl] is the driver's
    callback for it, called with the new value in [ctrl->val], and
    [None] when the control was created with [ops == NULL]. *)
Context {S : Type}.
Variable get : S -> v4l2_ctrl.
Variable put : S -> v4l2_ctrl -> S.
Variable s_ctrl : option (S -> Z -> Z * S).

(** [try_or_set_cluster] for a cluster of one control. *)
Definition try_or_set_cluster (s : S) (new : Z) : Z * S :=
  if new =? cur (get s) then (0, s)
  else
    match s_ctrl with
    | None => (0, put s (set_cur (get s) new))
    | Some op =>
        let '(ret, s') := op s new in
        if negb (ret =? 0) then (ret, s')
        else (0, put s' (set_cur (get s') new))
    end.

Definition set_ctrl (s : S) (new : Z) : Z * S :=
  let '(ret, new) := validate_new (get s) new in
  if negb (ret =? 0) then (ret, s)
  else try_or_set_cluster s new.

Definition __v4l2_ctrl_s_ctrl (s : S) (v : Z) : Z * S := set_ctrl s v.
Definition __v4l2_ctrl_s_ctrl_int64 (s : S) (v : Z) : Z * S := set_ctrl s v.

Definition __v4l2_ctrl_modify_range (s : S) (min max stp def : Z) : Z * S :=
  let ret := check_range (ctrl_type (get s)) min max stp def in
  if negb (ret =? 0) then (ret, s)
  else
    let s1 := put s (set_range (get s) min max stp def) in
    let '(err, new) := validate_new (get s1) (cur (get s1)) in
    let new := if negb (err =? 0) then def else new in
    if negb (new =? cur (get s1)) then set_ctrl s1 new
    else (ret, s1).
End ControlOps.

(** ** Device context *)

Record s5k3l6_power_ctrl := {
  ctrl_logic : bool;        (* the INT3472 control logic device was found *)
  reset_gpio : bool;        (* the descriptor is not NULL *)
  pwren_gpio : bool;
  pled_gpio : bool;
  status : Z;
  clk_source_index : Z
}.

Inductive gpio_pin := GPIO_RESET | GPIO_PWREN | GPIO_PLED.

(** What the driver does to the platform, oldest first. *)
Inductive hw_event :=
| gpiod_set_value_cansleep (pin : gpio_pin) (value : Z)
| msleep (ms : Z)
| acpi_evaluate_dsm (clock_args : list Z).

(** Runtime power management of [client->dev]: the usage counter, whether
    runtime PM is disabled, and the environment's answer to a resume
    request. *)
Record dev_pm_info := {
  disabled : bool;
  usage_count : nat;
  resume_ret : Z
}.

Record s5k3l6 := {
  client : i2c_client;
  exposure : v4l2_ctrl;
  anal_gain : v4l2_ctrl;
  hblank : v4l2_ctrl;
  vblank : v4l2_ctrl;
  pixel_rate : v4l2_ctrl;
  link_freq : v4l2_ctrl;
  test_pattern : v4l2_ctrl;
  power : s5k3l6_power_ctrl;
  streaming : bool;
  power_on : bool;
  cur_mode : s5k3l6_mode;
  pm : dev_pm_info;
  hw : list hw_event
}.

Definition set_client (s : s5k3l6) (x : i2c_client) : s5k3l6 :=
  {| client := x; exposure := exposure s; anal_gain := anal_gain s;
     hblank := hblank s; vblank := vblank s; pixel_rate := pixel_rate s;
     link_freq := link_freq s; test_pattern := test_pattern s;
     power := power s; streaming := streaming s; power_on := power_on s;
     cur_mode := cur_mode s; pm := pm s; hw := hw s |}.

Definition set_exposure (s : s5k3l6) (x : v4l2_ctrl) : s5k3l6 :=
  {| client := client s; exposure := x; anal_gain := anal_gain s;
     hblank := hblank s; vblank := vblank s; pixel_rate := pixel_rate s;
     link_freq := link_freq s; test_pattern := test_pattern s;
     power := power s; streaming := streaming s; power_on := power_on s;
     cur_mode := cur_mode s; pm := pm s; hw := hw s |}.

Definition set_anal_gain (s : s5k3l6) (x : v4l2_ctrl) : s5k3l6 :=
  {| client := client s; exposure := exposure s; anal_gain := x;
     hblank := hblank s; vblank := vblank s; pixel_rate := pixel_rate s;
     link_freq := link_freq s; test_pattern := test_pattern s;
     power := power s; streaming := streaming s; power_on := power_on s;
     cur_mode := cur_mode s; pm := pm s; hw := hw s |}.

Definition set_hblank (s : s5k3l6) (x : v4l2_ctrl) : s5k3l6 :=
  {| client := client s; exposure := exposure s; anal_gain := anal_gain s;
     hblank := x; vblank := vblank s; pixel_rate := pixel_rate s;
     link_freq := link_freq s; test_pattern := test_pattern s;
     power := power s; streaming := streaming s; power_on := power_on s;
     cur_mode := cur_mode s; pm := pm s; hw := hw s |}.

Definition set_vblank (s : s5k3l6) (x : v4l2_ctrl) : s5k3l6 :=
  {| client := client s; exposure := exposure s; anal_gain := anal_gain s;
     hblank := hblank s; vblank := x; pixel_rate := pixel_rate s;
     link_freq := link_freq s; test_pattern := test_pattern s;
     power := power s; streaming := streaming s; power_on := power_on s;
     cur_mode := cur_mode s; pm := pm s; hw := hw s |}.

Definition set_pixel_rate (s : s5k3l6) (x : v4l2_ctrl) : s5k3l6 :=
  {| client := client s; exposure := exposure s; anal_gain := anal_gain s;
     hblank := hblank s; vblank := vblank s; pixel_rate := x;
     link_freq := link_freq s; test_pattern := test_pattern s;
     power := power s; streaming := streaming s; power_on := power_on s;
     cur_mode := cur_mode s; pm := pm s; hw := hw s |}.

Definition set_link_freq (s : s5k3l6) (x : v4l2_ctrl) : s5k3l6 :=
  {| client := client s; exposure := exposure s; anal_gain := anal_gain s;
     hblank := hblank s; vblank := vblank s; pixel_rate := pixel_rate s;
     link_freq := x; test_pattern := test_pattern s; power := power s;
     streaming := streaming s; power_on := power_on s;
     cur_mode := cur_mode s; pm := pm s; hw := hw s |}.

Definition set_test_pattern (s : s5k3l6) (x : v4l2_ctrl) : s5k3l6 :=
  {| client := client s; exposure := exposure s; anal_gain := anal_gain s;
     hblank := hblank s; vblank := vblank s; pixel_rate := pixel_rate s;
     link_freq := link_freq s; test_pattern := x; power := power s;
     streaming := streaming s; power_on := power_on s;
     cur_mode := cur_mode s; pm := pm s; hw := hw s |}.

Definition set_power (s : s5k3l6) (x : s5k3l6_power_ctrl) : s5k3l6 :=
  {| client := client s; exposure := exposure s; anal_gain := anal_gain s;
     hblank := hblank s; vblank := vblank s; pixel_rate := pixel_rate s;
     link_freq := link_freq s; test_pattern := test_pattern s; power := x;
     streaming := streaming s; power_on := power_on s;
     cur_mode := cur_mode s; pm := pm s; hw := hw s |}.

Definition set_streaming (s : s5k3l6) (x : bool) : s5k3l6 :=
  {| client := client s; exposure := exposure s; anal_gain := anal_gain s;
     hblank := hblank s; vblank := vblank s; pixel_rate := pixel_rate s;
     link_freq := link_freq s; test_pattern := test_pattern s;
     power := power s; streaming := x; power_on := power_on s;
     cur_mode := cur_mode s; pm := pm s; hw := hw s |}.

Definition set_power_on (s : s5k3l6) (x : bool) : s5k3l6 :=
  {| client := client s; exposure := exposure s; anal_gain := anal_gain s;
     hblank := hblank s; vblank := vblank s; pixel_rate := pixel_rate s;
     link_freq := link_freq s; test_pattern := test_pattern s;
     power := power s; streaming := streaming s; power_on := x;
     cur_mode := cur_mode s; pm := pm s; hw := hw s |}.

Definition set_cur_mode (s : s5k3l6) (x : s5k3l6_mode) : s5k3l6 :=
  {| client := client s; exposure := exposure s; anal_gain := anal_gain s;
     hblank := hblank s; vblank := vblank s; pixel_rate := pixel_rate s;
     link_freq := link_freq s; test_pattern := test_pattern s;
     power := power s; streaming := streaming s; power_on := power_on s;
     cur_mode := x; pm := pm s; hw := hw s |}.

Definition set_pm (s : s5k3l6) (x : dev_pm_info) : s5k3l6 :=
  {| client := client s; exposure := exposure s; anal_gain := anal_gain s;
     hblank := hblank s; vblank := vblank s; pixel_rate := pixel_rate s;
     link_freq := link_freq s; test_pattern := test_pattern s;
     power := power s; streaming := streaming s; power_on := power_on s;
     cur_mode := cur_mode s; pm := x; hw := hw s |}.

Definition set_hw (s : s5k3l6) (x : list hw_event) : s5k3l6 :=
  {| client := client s; exposure := exposure s; anal_gain := anal_gain s;
     hblank := hblank s; vblank := vblank s; pixel_rate := pixel_rate s;
     link_freq := link_freq s; test_pattern := test_pattern s;
     power := power s; streaming := streaming s; power_on := power_on s;
     cur_mode := cur_mode s; pm := pm s; hw := x |}.

(** ** Runtime power management

    Only the usage counter is modelled.  At the two places where the driver
    asks for a resume ([s5k3l6_s_stream] when it is not streaming and
    [s5k3l6_s_power]) the resume callback [s5k3l6_runtime_resume] has
    nothing to do, and the idle/suspend work queued by [pm_runtime_put] runs
    after the caller has returned. *)

Definition set_usage_count (p : dev_pm_info) (n : nat) : dev_pm_info :=
  {| disabled := disabled p; usage_count := n; resume_ret := resume_ret p |}.

Definition pm_runtime_get_sync (s : s5k3l6) : Z * s5k3l6 :=
  (if disabled (pm s) then - EACCES else resume_ret (pm s),
   set_pm s (set_usage_count (pm s) (S (usage_count (pm s))))).

Definition pm_runtime_put_noidle (s : s5k3l6) : s5k3l6 :=
  set_pm s (set_usage_count (pm s) (Nat.pred (usage_count (pm s)))).

Definition pm_runtime_put (s : s5k3l6) : s5k3l6 :=
  set_pm s (set_usage_count (pm s) (Nat.pred (usage_count (pm s)))).

Definition pm_runtime_get_if_in_use (s : s5k3l6) : Z * s5k3l6 :=
  if disabled (pm s) then (- EINVAL, s)
  else if (0 <? usage_count (pm s))%nat
       then (1, set_pm s (set_usage_count (pm s) (S (usage_count (pm s)))))
       else (0, s).

(** ** Power pins *)

Definition set_status (p : s5k3l6_power_ctrl) (on : Z) : s5k3l6_power_ctrl :=
  {| ctrl_logic := ctrl_logic p; reset_gpio := reset_gpio p;
     pwren_gpio := pwren_gpio p; pled_gpio := pled_gpio p;
     status := on; clk_source_index := clk_source_index p |}.

Definition s5k3l6_set_power (s : s5k3l6) (on : Z) : s5k3l6 :=
  let power := power s in
  let on := if negb (on =? 0) then 1 else 0 in
  if on =? status power then s
  else
    (* First, set reset pin as low *)
    let e1 := if reset_gpio power
              then [gpiod_set_value_cansleep GPIO_RESET 0; msleep 5] else [] in
    (* Use _DSM of INT3472 to enable clock *)
    let e2 := if ctrl_logic power
              then [acpi_evaluate_dsm [clk_source_index power; on; 0x01]]
              else [] in
    (* Set power pin and privacy LED pin *)
    let e3 := if pwren_gpio power
              then [gpiod_set_value_cansleep GPIO_PWREN on] else [] in
    let e4 := if pled_gpio power
              then [gpiod_set_value_cansleep GPIO_PLED on] else [] in
    (* If we need to power on, set reset pin to high at last *)
    let e5 := if negb (on =? 0) && reset_gpio power
              then [gpiod_set_value_cansleep GPIO_RESET 1; msleep 5] else [] in
    set_power (set_hw s (hw s ++ e1 ++ e2 ++ e3 ++ e4 ++ e5))
              (set_status power on).

(** ** Register access through the device context *)

Definition dev_write_reg (s : s5k3l6) (reg len val : Z) : Z * s5k3l6 :=
  let '(ret, c) := s5k3l6_write_reg (client s) reg len val in
  (ret, set_client s c).

Definition dev_write_array (s : s5k3l6) (regs : list regval) : Z * s5k3l6 :=
  let '(ret, c) := s5k3l6_write_array (client s) regs in
  (ret, set_client s c).

Definition s5k3l6_enable_test_pattern (s : s5k3l6) (pattern : Z)
  : Z * s5k3l6 :=
  let val := if negb (pattern =? 0)
             then Z.lor (u32 (pattern - 1)) S5K3L6_TEST_PATTERN_ENABLE
             else S5K3L6_TEST_PATTERN_DISABLE in
  dev_write_reg s S5K3L6_REG_TEST_PATTERN S5K3L6_REG_VALUE_08BIT val.

(** ** Control handler *)

Inductive v4l2_cid :=
| V4L2_CID_EXPOSURE
| V4L2_CID_ANALOGUE_GAIN
| V4L2_CID_VBLANK
| V4L2_CID_HBLANK
| V4L2_CID_PIXEL_RATE
| V4L2_CID_LINK_FREQ
| V4L2_CID_TEST_PATTERN.

(** [s5k3l6_set_ctrl] from [pm_runtime_get_if_in_use] to its end: the
    register write of the control, when the device is in use.  [val] is
    [ctrl->val], an [s32]; the registers take it as a [u32]. *)
Definition s5k3l6_set_ctrl_write (s : s5k3l6) (id : v4l2_cid) (val : Z)
  : Z * s5k3l6 :=
  let '(in_use, s) := pm_runtime_get_if_in_use s in
  if in_use =? 0 then (0, s)
  else
    let '(ret, s) :=
      match id with
      | V4L2_CID_EXPOSURE =>
          (* 4 least significant bits of expsoure are fractional part *)
          dev_write_reg s S5K3L6_REG_EXPOSURE S5K3L6_REG_VALUE_16BIT (u32 val)
      | V4L2_CID_ANALOGUE_GAIN =>
          dev_write_reg s S5K3L6_REG_ANALOG_GAIN S5K3L6_REG_VALUE_16BIT
                        (u32 val)
      | V4L2_CID_VBLANK =>
          dev_write_reg s S5K3L6_REG_VTS S5K3L6_REG_VALUE_16BIT
                        (u32 (val + height (cur_mode s)))
      | V4L2_CID_TEST_PATTERN => s5k3l6_enable_test_pattern s (u32 val)
      | _ => (0, s)
      end in
    (ret, pm_runtime_put s).

(** The exposure control was created with [s5k3l6_ctrl_ops]; when the
    framework changes its value it calls [s5k3l6_set_ctrl] for it, whose
    first [switch] has no case for the exposure. *)
Definition exposure_s_ctrl : option (s5k3l6 -> Z -> Z * s5k3l6) :=
  Some (fun s v => s5k3l6_set_ctrl_write s V4L2_CID_EXPOSURE v).

Definition s5k3l6_set_ctrl (s : s5k3l6) (id : v4l2_cid) (val : Z)
  : Z * s5k3l6 :=
  (* Propagate change of current control to all related controls *)
  let s :=
    match id with
    | V4L2_CID_VBLANK =>
        (* Update max exposure while meeting expected vblanking *)
        let max := u32 (height (cur_mode s) + val - 4) in
        snd (__v4l2_ctrl_modify_range exposure set_exposure exposure_s_ctrl s
               (minimum (exposure s)) max (step (exposure s))
               (default_value (exposure s)))
    | _ => s
    end in
  s5k3l6_set_ctrl_write s id val.

Definition s5k3l6_ctrl_ops (id : v4l2_cid)
  : option (s5k3l6 -> Z -> Z * s5k3l6) :=
  Some (fun s v => s5k3l6_set_ctrl s id v).

(** [v4l2_ctrl_handler_setup]: call [s_ctrl] with the current value of
    every control, in the order of creation, until one fails.  The link
    frequency, pixel rate and hblank controls have no [ops]. *)
Definition v4l2_ctrl_handler_setup (s : s5k3l6) : Z * s5k3l6 :=
  let '(ret, s) := s5k3l6_set_ctrl s V4L2_CID_VBLANK (cur (vblank s)) in
  if negb (ret =? 0) then (ret, s) else
  let '(ret, s) := s5k3l6_set_ctrl s V4L2_CID_EXPOSURE (cur (exposure s)) in
  if negb (ret =? 0) then (ret, s) else
  let '(ret, s) :=
    s5k3l6_set_ctrl s V4L2_CID_ANALOGUE_GAIN (cur (anal_gain s)) in
  if negb (ret =? 0) then (ret, s) else
  s5k3l6_set_ctrl s V4L2_CID_TEST_PATTERN (cur (test_pattern s)).

(** [VIDIOC_S_CTRL] on the vertical blanking control and on the exposure
    control. *)
Definition v4l2_s_ctrl_vblank (s : s5k3l6) (v : Z) : Z * s5k3l6 :=
  set_ctrl vblank set_vblank (s5k3l6_ctrl_ops V4L2_CID_VBLANK) s v.

Definition v4l2_s_ctrl_exposure (s : s5k3l6) (v : Z) : Z * s5k3l6 :=
  set_ctrl exposure set_exposure (s5k3l6_ctrl_ops V4L2_CID_EXPOSURE) s v.

(** ** Streaming *)

Definition __s5k3l6_start_stream (s : s5k3l6) : Z * s5k3l6 :=
  let s := s5k3l6_set_power s 1 in
  let '(ret, s) := dev_write_array s (reg_list (cur_mode s)) in
  if negb (ret =? 0) then (ret, s) else
  (* In case these controls are set before streaming *)
  let '(ret, s) := v4l2_ctrl_handler_setup s in
  if negb (ret =? 0) then (ret, s) else
  let '(_, s) := dev_write_reg s S5K3L6_REG_STREAM_ON S5K3L6_REG_VALUE_08BIT
                               S5K3L6_MODE_STREAMING in
  let '(_, s) := dev_write_reg s S5K3L6_REG_CTRL_MODE S5K3L6_REG_VALUE_08BIT
                               S5K3L6_MODE_STREAMING in
  let '(_, s) := dev_write_reg s S5K3L6_REG_STREAM_ON S5K3L6_REG_VALUE_08BIT
                               S5K3L6_MODE_SW_STANDBY in
  (0, s).

Definition __s5k3l6_stop_stream (s : s5k3l6) : s5k3l6 :=
  let '(_, s) := dev_write_reg s S5K3L6_REG_CTRL_MODE S5K3L6_REG_VALUE_08BIT
                               S5K3L6_MODE_SW_STANDBY in
  s5k3l6_set_power s 0.

Definition s5k3l6_s_stream (s : s5k3l6) (on : Z) : Z * s5k3l6 :=
  let on := negb (on =? 0) in
  if Bool.eqb on (streaming s) then (0, s)
  else if on then
    let '(ret, s) := pm_runtime_get_sync s in
    if ret <? 0 then (ret, pm_runtime_put_noidle s)
    else
      let '(ret, s) := __s5k3l6_start_stream s in
      if negb (ret =? 0) then (ret, pm_runtime_put s)
      else (ret, set_streaming s on)
  else
    let s := __s5k3l6_stop_stream s in
    let s := pm_runtime_put s in
    (0, set_streaming s on).

Definition s5k3l6_s_power (s : s5k3l6) (on : Z) : Z * s5k3l6 :=
  (* If the power state is not modified - no work to do. *)
  if Bool.eqb (power_on s) (negb (on =? 0)) then (0, s)
  else if negb (on =? 0) then
    let '(ret, s) := pm_runtime_get_sync s in
    if ret <? 0 then (ret, pm_runtime_put_noidle s)
    else (ret, set_power_on s true)
  else (0, set_power_on (pm_runtime_put s) false).

(** ** Format negotiation *)

(** The try format of the only pad, kept per file handle. *)
Record v4l2_subdev_state := { try_fmt : v4l2_mbus_framefmt }.

Definition vblank_s_ctrl : option (s5k3l6 -> Z -> Z * s5k3l6) :=
  s5k3l6_ctrl_ops V4L2_CID_VBLANK.

Section SetFmt.
(** Whether the kernel is built with [CONFIG_VIDEO_V4L2_SUBDEV_API]. *)
Variable CONFIG_VIDEO_V4L2_SUBDEV_API : bool.

(** Returns the result, the device, the try state and the caller's
    [fmt]. *)
Definition s5k3l6_set_fmt (s : s5k3l6) (sd_state : v4l2_subdev_state)
                          (fmt : v4l2_subdev_format)
  : Z * s5k3l6 * v4l2_subdev_state * v4l2_subdev_format :=
  let lane_num := S5K3L6_LANES in
  let mode := s5k3l6_find_best_fit fmt in
  let fmt := {| which := which fmt; pad := pad fmt;
                format := {| fmt_width := width mode;
                             fmt_height := height mode;
                             fmt_code := Some S5K3L6_MEDIA_BUS_FMT;
                             fmt_field := V4L2_FIELD_NONE |} |} in
  match which fmt with
  | V4L2_SUBDEV_FORMAT_TRY =>
      if CONFIG_VIDEO_V4L2_SUBDEV_API
      then (0, s, {| try_fmt := format fmt |}, fmt)
      else (- ENOTTY, s, sd_state, fmt)
  | V4L2_SUBDEV_FORMAT_ACTIVE =>
      let s := set_cur_mode s mode in
      let h_blank := u32 (hts_def mode - width mode) in
      let s := snd (__v4l2_ctrl_modify_range hblank set_hblank None s
                      h_blank h_blank 1 h_blank) in
      let vblank_def := u32 (vts_def mode - height mode) in
      let s := snd (__v4l2_ctrl_modify_range vblank set_vblank
                      vblank_s_ctrl s vblank_def
                      (u32 (S5K3L6_VTS_MAX - height mode)) 1 vblank_def) in
      let pixel_rate_ :=
        u32 (u32 (u32 (nth (Z.to_nat (link_freq_idx mode))
                           link_freq_items 0) / bpp mode * 2)
             * lane_num) in
      let s := snd (__v4l2_ctrl_s_ctrl_int64 pixel_rate set_pixel_rate None
                      s pixel_rate_) in
      let s := snd (__v4l2_ctrl_s_ctrl link_freq set_link_freq None
                      s (link_freq_idx mode)) in
      (0, s, sd_state, fmt)
  end.
End SetFmt.

(** ** Probe *)

Definition s5k3l6_initialize_controls (s : s5k3l6) : s5k3l6 :=
  let lane_num := S5K3L6_LANES in
  let mode := cur_mode s in
  let s := set_link_freq s
             (v4l2_ctrl_new V4L2_CTRL_TYPE_INTEGER_MENU 0 1 0 0) in
  let dst_pixel_rate :=
    u32 (u32 (u32 (nth (Z.to_nat (link_freq_idx mode)) link_freq_items 0)
              / bpp mode * 2) * lane_num) in
  let s := set_pixel_rate s
             (v4l2_ctrl_new V4L2_CTRL_TYPE_INTEGER64 0 S5K3L6_PIXEL_RATE 1
                            dst_pixel_rate) in
  let s := snd (__v4l2_ctrl_s_ctrl link_freq set_link_freq None s
                  (link_freq_idx mode)) in
  let h_blank := u32 (hts_def mode - width mode) in
  let s := set_hblank s
             (v4l2_ctrl_new V4L2_CTRL_TYPE_INTEGER h_blank h_blank 1
                            h_blank) in
  let vblank_def := u32 (vts_def mode - height mode) in
  let s := set_vblank s
             (v4l2_ctrl_new V4L2_CTRL_TYPE_INTEGER vblank_def
                            (u32 (S5K3L6_VTS_MAX - height mode)) 1
                            vblank_def) in
  let exposure_max := u32 (vts_def mode - 4) in
  let s := set_exposure s
             (v4l2_ctrl_new V4L2_CTRL_TYPE_INTEGER S5K3L6_EXPOSURE_MIN
                            exposure_max S5K3L6_EXPOSURE_STEP
                            (exp_def mode)) in
  let s := set_anal_gain s
             (v4l2_ctrl_new V4L2_CTRL_TYPE_INTEGER S5K3L6_GAIN_MIN
                            S5K3L6_GAIN_MAX S5K3L6_GAIN_STEP
                            S5K3L6_GAIN_DEFAULT) in
  set_test_pattern s
    (v4l2_ctrl_new V4L2_CTRL_TYPE_MENU 0
                   (ARRAY_SIZE s5k3l6_test_pattern_menu - 1) 0 0).

Definition no_ctrl : v4l2_ctrl := v4l2_ctrl_new V4L2_CTRL_TYPE_INTEGER 0 0 0 0.

(** The successful path of [s5k3l6_probe], for a given link, the power
    resources found by [s5k3l6_init_power_ctrl] and the answer runtime PM
    will give to resume requests. *)
Definition s5k3l6_probe (a : i2c_adapter) (pw : s5k3l6_power_ctrl)
                        (resume : Z) : s5k3l6 :=
  let s := {| client := {| adapter := a; xfers := [] |};
              exposure := no_ctrl; anal_gain := no_ctrl; hblank := no_ctrl;
              vblank := no_ctrl; pixel_rate := no_ctrl; link_freq := no_ctrl;
              test_pattern := no_ctrl;
              power := set_status pw 0;
              streaming := false; power_on := false;
              cur_mode := nth 0 supported_modes mode_4208x3120;
              pm := {| disabled := true; usage_count := 0;
                       resume_ret := resume |};
              hw := [] |} in
  let s := s5k3l6_set_power s 1 in
  let s := s5k3l6_initialize_controls s in
  (* pm_runtime_set_active, pm_runtime_enable, pm_runtime_idle *)
  let s := set_pm s {| disabled := false; usage_count := 0;
                       resume_ret := resume |} in
  s5k3l6_set_power s 0.

(** ** Vocabulary of the statements *)

(** The message [s5k3l6_write_reg] puts on the link. *)
Definition write_buf (reg len val : Z) : list Z :=
  [Z.shiftr reg 8 mod 2 ^ 8; Z.land reg 0xff]
  ++ skipn (Z.to_nat (4 - len)) (cpu_to_be32 val).

(** What the I2C core returns for the n-th transaction when it is a send of
    [count] bytes, and when it is a two-message transfer. *)
Definition send_ret (a : i2c_adapter) (n : nat) (count : Z) : Z :=
  match xfer_result a n with None => count | Some r => r end.

Definition transfer_ret (a : i2c_adapter) (n : nat) : Z :=
  match xfer_result a n with None => 2 | Some r => r end.

(** The n-th transaction of the link goes through as a send of [count]
    bytes. *)
Definition send_completes (a : i2c_adapter) (n : nat) (count : Z) : Prop :=
  send_ret a n count = count.

(** The transaction a 16-bit table entry causes. *)
Definition regval_xfer (r : regval) (ret : Z) : i2c_event :=
  MasterSend (write_buf (addr r) S5K3L6_REG_VALUE_16BIT (val r)) ret.

Definition extend (c : i2c_client) (es : list i2c_event) : i2c_client :=
  {| adapter := adapter c; xfers := xfers c ++ es |}.

(** The value [s5k3l6_read_reg] stores in [*val] when the n-th transaction
    is a completed read of [len] bytes. *)
Definition read_value (a : i2c_adapter) (n : nat) (len : Z) : Z :=
  be32_to_cpu (place_be (Z.to_nat len) (map u8 (rx_bytes a n))).

(** A write of the exposure register, or nothing. *)
Definition at_most_exposure_write (pre : list i2c_event) : Prop :=
  pre = [] \/
  exists x r, pre = [MasterSend (write_buf S5K3L6_REG_EXPOSURE
                                           S5K3L6_REG_VALUE_16BIT x) r].

(** A link on which every transaction goes through. *)
Definition all_ack (a : i2c_adapter) : Prop :=
  forall n : nat, xfer_result a n = None.

(** The entries of a register table in front of its first [REG_NULL]
    entry: the program [s5k3l6_write_array] writes. *)
Fixpoint until_null (regs : list regval) : list regval :=
  match regs with
  | [] => []
  | r :: regs' =>
      if addr r =? REG_NULL then [] else r :: until_null regs'
  end.

(** ** Sample environments

    Concrete links, boards and requests on which the statements below are
    exercised. *)

(** A link on which every transaction goes through; the device answers
    reads with [rx]. *)
Definition ack_all (rx : list Z) : i2c_adapter :=
  {| xfer_result := fun _ => None; rx_bytes := fun _ => rx |}.

(** A link whose transaction number [k] is not acknowledged: the I2C core
    returns [-EREMOTEIO]. *)
Definition nack_at (k : nat) : i2c_adapter :=
  {| xfer_result := fun n => if Nat.eqb n k then Some (-121) else None;
     rx_bytes := fun _ => [] |}.

(** A board with the INT3472 control logic, a reset pin and a power enable
    pin, and no privacy LED. *)
Definition board : s5k3l6_power_ctrl :=
  {| ctrl_logic := true; reset_gpio := true; pwren_gpio := true;
     pled_gpio := false; status := 0; clk_source_index := 3 |}.

Definition request (w h : Z) (wh : v4l2_subdev_format_whence)
  : v4l2_subdev_format :=
  {| which := wh; pad := 0;
     format := {| fmt_width := w; fmt_height := h; fmt_code := None;
                  fmt_field := V4L2_FIELD_ANY |} |}.

(** The format [s5k3l6_set_fmt] answers for a mode of the given size. *)
Definition request_answer (w h : Z) (wh : v4l2_subdev_format_whence)
  : v4l2_subdev_format :=
  {| which := wh; pad := 0;
     format := {| fmt_width := w; fmt_height := h;
                  fmt_code := Some S5K3L6_MEDIA_BUS_FMT;
                  fmt_field := V4L2_FIELD_NONE |} |}.

Definition no_try : v4l2_subdev_state :=
  {| try_fmt := {| fmt_width := 0; fmt_height := 0; fmt_code := None;
                   fmt_field := V4L2_FIELD_ANY |} |}.

(** ** Format queries and enumeration *)

Definition mbus_code_eqb (a b : mbus_code) : bool :=
  match a, b with
  | MEDIA_BUS_FMT_SRGGB10_1X10, MEDIA_BUS_FMT_SRGGB10_1X10
  | MEDIA_BUS_FMT_SBGGR10_1X10, MEDIA_BUS_FMT_SBGGR10_1X10
  | MEDIA_BUS_FMT_SGBRG10_1X10, MEDIA_BUS_FMT_SGBRG10_1X10
  | MEDIA_BUS_FMT_SGRBG10_1X10, MEDIA_BUS_FMT_SGRBG10_1X10 => true
  | _, _ => false
  end.

(** [code == S5K3L6_MEDIA_BUS_FMT] for a code given by the caller; [None]
    stands for a code that is none of the four Bayer orders. *)
Definition is_sensor_code (code : option mbus_code) : bool :=
  match code with
  | Some c => mbus_code_eqb c S5K3L6_MEDIA_BUS_FMT
  | None => false
  end.

Section GetFmt.
Variable CONFIG_VIDEO_V4L2_SUBDEV_API : bool.

(** Returns the result and the caller's [fmt]. *)
Definition s5k3l6_get_fmt (s : s5k3l6) (sd_state : v4l2_subdev_state)
                          (fmt : v4l2_subdev_format)
  : Z * v4l2_subdev_format :=
  let mode := cur_mode s in
  match which fmt with
  | V4L2_SUBDEV_FORMAT_TRY =>
      if CONFIG_VIDEO_V4L2_SUBDEV_API
      then (0, {| which := which fmt; pad := pad fmt;
                  format := try_fmt sd_state |})
      else (- ENOTTY, fmt)
  | V4L2_SUBDEV_FORMAT_ACTIVE =>
      (0, {| which := which fmt; pad := pad fmt;
             format := {| fmt_width := width mode;
                          fmt_height := height mode;
                          fmt_code := Some S5K3L6_MEDIA_BUS_FMT;
                          fmt_field := V4L2_FIELD_NONE |} |})
  end.
End GetFmt.

(** [s5k3l6_open], compiled with the subdev API only: the try format of a
    new file handle is that of the first mode. *)
Definition s5k3l6_open (s : s5k3l6) : Z * v4l2_subdev_state :=
  let def_mode := nth 0 supported_modes mode_4208x3120 in
  (0, {| try_fmt := {| fmt_width := width def_mode;
                       fmt_height := height def_mode;
                       fmt_code := Some S5K3L6_MEDIA_BUS_FMT;
                       fmt_field := V4L2_FIELD_NONE |} |}).

Record v4l2_subdev_mbus_code_enum := {
  mce_index : Z;
  mce_code : option mbus_code
}.

Definition s5k3l6_enum_mbus_code (code : v4l2_subdev_mbus_code_enum)
  : Z * v4l2_subdev_mbus_code_enum :=
  if negb (mce_index code =? 0) then (- EINVAL, code)
  else (0, {| mce_index := mce_index code;
              mce_code := Some S5K3L6_MEDIA_BUS_FMT |}).

Record v4l2_subdev_frame_size_enum := {
  fse_index : Z;
  fse_code : option mbus_code;
  min_width : Z;
  max_width : Z;
  min_height : Z;
  max_height : Z
}.

Definition s5k3l6_enum_frame_sizes (fse : v4l2_subdev_frame_size_enum)
  : Z * v4l2_subdev_frame_size_enum :=
  if fse_index fse >=? ARRAY_SIZE supported_modes then (- EINVAL, fse)
  else if negb (is_sensor_code (fse_code fse)) then (- EINVAL, fse)
  else
    let m := nth (Z.to_nat (fse_index fse)) supported_modes mode_4208x3120 in
    (0, {| fse_index := fse_index fse; fse_code := fse_code fse;
           min_width := width m; max_width := width m;
           min_height := height m; max_height := height m |}).

Record v4l2_subdev_frame_interval_enum := {
  fie_index : Z;
  fie_code : option mbus_code;
  fie_width : Z;
  fie_height : Z;
  fie_interval : v4l2_fract
}.

Definition s5k3l6_enum_frame_interval
             (fie : v4l2_subdev_frame_interval_enum)
  : Z * v4l2_subdev_frame_interval_enum :=
  if fie_index fie >=? ARRAY_SIZE supported_modes then (- EINVAL, fie)
  else if negb (is_sensor_code (fie_code fie)) then (- EINVAL, fie)
  else
    let m := nth (Z.to_nat (fie_index fie)) supported_modes mode_4208x3120 in
    (0, {| fie_index := fie_index fie; fie_code := fie_code fie;
           fie_width := width m; fie_height := height m;
           fie_interval := max_fps m |}).

(** Returns the result and [fi->interval]. *)
Definition s5k3l6_g_frame_interval (s : s5k3l6) : Z * v4l2_fract :=
  let mode := cur_mode s in
  (0, max_fps mode).

(** ** Crop bounds *)

Definition CROP_START (SRC DST : Z) : Z := u32 (u32 (SRC - DST) / 2 / 4 * 4).
Definition DST_WIDTH_2096 : Z := 2096.
Definition DST_HEIGHT_1560 : Z := 1560.

Record v4l2_rect := {
  left : Z;        (* __s32 *)
  top : Z;         (* __s32 *)
  r_width : Z;     (* __u32 *)
  r_height : Z     (* __u32 *)
}.

Inductive v4l2_sel_tgt :=
| V4L2_SEL_TGT_CROP_BOUNDS
| V4L2_SEL_TGT_OTHER (target : Z).

Record v4l2_subdev_selection := {
  target : v4l2_sel_tgt;
  r : v4l2_rect
}.

Definition s5k3l6_get_selection (s : s5k3l6) (sel : v4l2_subdev_selection)
  : Z * v4l2_subdev_selection :=
  match target sel with
  | V4L2_SEL_TGT_CROP_BOUNDS =>
      if width (cur_mode s) =? 2104 then
        (0, {| target := target sel;
               r := {| left := s32 (CROP_START (width (cur_mode s))
                                               DST_WIDTH_2096);
                       top := s32 (CROP_START (height (cur_mode s))
                                              DST_HEIGHT_1560);
                       r_width := DST_WIDTH_2096;
                       r_height := DST_HEIGHT_1560 |} |})
      else
        (0, {| target := target sel;
               r := {| left := s32 (CROP_START (width (cur_mode s))
                                               (width (cur_mode s)));
                       top := s32 (CROP_START (height (cur_mode s))
                                              (height (cur_mode s)));
                       r_width := width (cur_mode s);
                       r_height := height (cur_mode s) |} |})
  | V4L2_SEL_TGT_OTHER _ => (- EINVAL, sel)
  end.

(** ** Private ioctls *)

Definition ENOIOCTLCMD : Z := 515.

Inductive rkmodule_cmd :=
| RKMODULE_GET_MODULE_INFO
| RKMODULE_SET_QUICK_STREAM
| RKMODULE_OTHER (cmd : Z).

(** [s5k3l6_ioctl]; [stream] is the [u32] behind [arg] for
    [RKMODULE_SET_QUICK_STREAM].  [RKMODULE_GET_MODULE_INFO] fills the
    caller's buffer with names and leaves the device alone; the buffer is
    not part of this model. *)
Definition s5k3l6_ioctl (s : s5k3l6) (cmd : rkmodule_cmd) (stream : Z)
  : Z * s5k3l6 :=
  match cmd with
  | RKMODULE_GET_MODULE_INFO => (0, s)
  | RKMODULE_SET_QUICK_STREAM =>
      if negb (stream =? 0)
      then dev_write_reg s S5K3L6_REG_CTRL_MODE S5K3L6_REG_VALUE_08BIT
                         S5K3L6_MODE_STREAMING
      else dev_write_reg s S5K3L6_REG_CTRL_MODE S5K3L6_REG_VALUE_08BIT
                         S5K3L6_MODE_SW_STANDBY
  | RKMODULE_OTHER _ => (- ENOIOCTLCMD, s)
  end.

(** ** Runtime PM callbacks *)

Definition s5k3l6_runtime_resume (s : s5k3l6) : Z * s5k3l6 :=
  if streaming s then
    let '(ret, s) := __s5k3l6_start_stream s in
    if negb (ret =? 0) then
      let s := __s5k3l6_stop_stream s in
      (ret, set_streaming s false)
    else (0, s)
  else (0, s).

Definition s5k3l6_runtime_suspend (s : s5k3l6) : Z * s5k3l6 :=
  if streaming s then (0, __s5k3l6_stop_stream s)
  else (0, s).

(** ** The rail and clock sequences

    [__s5k3l6_power_on] and [__s5k3l6_power_off] work on the clock, the
    pins, the pin control states and the regulators of the device context.
    The context records which of these resources were obtained; the
    platform's answers to the calls that can fail are part of it, and every
    call is recorded, oldest first. *)

Module Rails.

Definition S5K3L6_XVCLK_FREQ : Z := 24000000.

Inductive pin := POWER | RESET | PWDN.
Inductive pin_state := PINS_DEFAULT | PINS_SLEEP.

Inductive call :=
| gpiod_set_value_cansleep (p : pin) (value : Z)
| usleep_range (min max : Z)
| pinctrl_select_state (st : pin_state)
| clk_set_rate (rate : Z)
| clk_prepare_enable
| clk_disable_unprepare
| regulator_bulk_enable
| regulator_bulk_disable.

Record s5k3l6 := {
  power_gpio : bool;             (* !IS_ERR(power_gpio) *)
  reset_gpio : bool;
  pwdn_gpio : bool;
  pins_default : bool;           (* !IS_ERR_OR_NULL(pins_default) *)
  pins_sleep : bool;
  clk_prepare_enable_ret : Z;    (* what the clock framework answers *)
  regulator_bulk_enable_ret : Z; (* what the regulator core answers *)
  calls : list call
}.

Definition do (s : s5k3l6) (cs : list call) : s5k3l6 :=
  {| power_gpio := power_gpio s; reset_gpio := reset_gpio s;
     pwdn_gpio := pwdn_gpio s; pins_default := pins_default s;
     pins_sleep := pins_sleep s;
     clk_prepare_enable_ret := clk_prepare_enable_ret s;
     regulator_bulk_enable_ret := regulator_bulk_enable_ret s;
     calls := calls s ++ cs |}.

(* Calculate the delay in us by clock rate and clock cycles *)
Definition s5k3l6_cal_delay (cycles : Z) : Z :=
  let d := S5K3L6_XVCLK_FREQ / 1000 / 1000 in
  u32 (u32 (cycles + d - 1) / d).

Definition __s5k3l6_power_on (s : s5k3l6) : Z * s5k3l6 :=
  let s := if power_gpio s then do s [gpiod_set_value_cansleep POWER 1]
           else s in
  let s := do s [usleep_range 1000 2000] in
  let s := if pins_default s then do s [pinctrl_select_state PINS_DEFAULT]
           else s in
  let s := do s [clk_set_rate S5K3L6_XVCLK_FREQ] in
  let ret := clk_prepare_enable_ret s in
  let s := do s [clk_prepare_enable] in
  if ret <? 0 then (ret, s)
  else
    let s := if reset_gpio s then do s [gpiod_set_value_cansleep RESET 0]
             else s in
    let ret := regulator_bulk_enable_ret s in
    let s := do s [regulator_bulk_enable] in
    if ret <? 0 then (ret, do s [clk_disable_unprepare])
    else
      let s := if reset_gpio s then do s [gpiod_set_value_cansleep RESET 1]
               else s in
      let s := do s [usleep_range 500 1000] in
      let s := if pwdn_gpio s then do s [gpiod_set_value_cansleep PWDN 1]
               else s in
      (* 8192 cycles prior to first SCCB transaction *)
      let delay_us := s5k3l6_cal_delay 8192 in
      let s := do s [usleep_range delay_us (u32 (delay_us * 2))] in
      (0, s).

Definition __s5k3l6_power_off (s : s5k3l6) : s5k3l6 :=
  let s := if pwdn_gpio s then do s [gpiod_set_value_cansleep PWDN 0]
           else s in
  let s := do s [clk_disable_unprepare] in
  let s := if reset_gpio s then do s [gpiod_set_value_cansleep RESET 0]
           else s in
  let s := if pins_sleep s then do s [pinctrl_select_state PINS_SLEEP]
           else s in
  let s := if power_gpio s then do s [gpiod_set_value_cansleep POWER 0]
           else s in
  do s [regulator_bulk_disable].

Definition is_clk_enable (c : call) : bool :=
  match c with clk_prepare_enable => true | _ => false end.
Definition is_clk_disable (c : call) : bool :=
  match c with clk_disable_unprepare => true | _ => false end.
Definition is_regulator_enable (c : call) : bool :=
  match c with regulator_bulk_enable => true | _ => false end.
Definition is_regulator_disable (c : call) : bool :=
  match c with regulator_bulk_disable => true | _ => false end.

(** The calls a function adds to the record. *)
Definition added (before after : s5k3l6) : list call :=
  skipn (length (calls before)) (calls after).

Definition pin_eqb (p q : pin) : bool :=
  match p, q with
  | POWER, POWER | RESET, RESET | PWDN, PWDN => true
  | _, _ => false
  end.

(** The level a pin was last driven to by a list of calls, if any. *)
Definition last_level (p : pin) (cs : list call) : option Z :=
  fold_left (fun acc c =>
               match c with
               | gpiod_set_value_cansleep q v =>
                   if pin_eqb p q then Some v else acc
               | _ => acc
               end) cs None.

End Rails.

(** A board with a power pin and a reset pin, no power-down pin and no pin
    control states, on which nothing has been called yet. *)
Definition quiet_board (clk reg : Z) : Rails.s5k3l6 :=
  {| Rails.power_gpio := true; Rails.reset_gpio := true;
     Rails.pwdn_gpio := false; Rails.pins_default := false;
     Rails.pins_sleep := false; Rails.clk_prepare_enable_ret := clk;
     Rails.regulator_bulk_enable_ret := reg; Rails.calls := [] |}.

(** ** What a control operation leaves alone

    Everything but the exposure control and the transactions on the link;
    the usage count is included when runtime PM is enabled. *)
Definition ctrl_frame (s s' : s5k3l6) : Prop :=
  cur_mode s' = cur_mode s /\
  anal_gain s' = anal_gain s /\ hblank s' = hblank s /\
  vblank s' = vblank s /\ pixel_rate s' = pixel_rate s /\
  link_freq s' = link_freq s /\ test_pattern s' = test_pattern s /\
  power s' = power s /\ streaming s' = streaming s /\
  power_on s' = power_on s /\ hw s' = hw s /\
  adapter (client s') = adapter (client s) /\
  disabled (pm s') = disabled (pm s) /\
  resume_ret (pm s') = resume_ret (pm s) /\
  (disabled (pm s) = false -> usage_count (pm s') = usage_count (pm s)) /\
  exists es, xfers (client s') = xfers (client s) ++ es.

(** Big-endian value of a list of bytes. *)
Definition be_value (bytes : list Z) : Z :=
  fold_left (fun acc b => acc * 256 + b) bytes 0.

(** The shape in which [s5k3l6_initialize_controls] creates the controls
    that follow the mode. *)
Definition mode_controls_ok (s : s5k3l6) : Prop :=
  is_menu (ctrl_type (hblank s)) = false /\
  is_menu (ctrl_type (vblank s)) = false /\
  (is_menu (ctrl_type (pixel_rate s)) = false /\
   minimum (pixel_rate s) = 0 /\
   maximum (pixel_rate s) = S5K3L6_PIXEL_RATE /\ step (pixel_rate s) = 1) /\
  (is_menu (ctrl_type (link_freq s)) = true /\
   minimum (link_freq s) = 0 /\
   maximum (link_freq s) = 1).

(** A projection of the device context has the same value in both
    states. *)
Definition keeps {A : Type} (f : s5k3l6 -> A) (s s' : s5k3l6) : Prop :=
  f s' = f s.

(** * Register access *)

Lemma extend_nil (c : i2c_client) : extend c [] = c.
Proof. destruct c; unfold extend; simpl; now rewrite app_nil_r. Qed.

Lemma extend_record (c : i2c_client) (e : i2c_event) (es : list i2c_event) :
  extend (record_xfer c e) es = extend c (e :: es).
Proof. unfold extend, record_xfer; simpl; now rewrite <- app_assoc. Qed.

Lemma xfer_index_record (c : i2c_client) (e : i2c_event) :
  xfer_index (record_xfer c e) = S (xfer_index c).
Proof.
  unfold xfer_index, record_xfer; simpl.
  rewrite length_app; simpl; lia.
Qed.

Lemma write_buf_length (reg len val : Z) :
  0 <= len <= 4 -> Z.of_nat (length (write_buf reg len val)) = len + 2.
Proof.
  intros H. unfold write_buf, cpu_to_be32.
  rewrite length_app, length_skipn; simpl length. lia.
Qed.

(** One write of at most four bytes: the message goes out once, and the
    result is 0 exactly when the core reports all [len + 2] bytes sent. *)
Lemma s5k3l6_write_reg_eq (c : i2c_client) (reg len val : Z) :
  0 <= len <= 4 ->
  s5k3l6_write_reg c reg len val =
  let sent := send_ret (adapter c) (xfer_index c) (len + 2) in
  (if sent =? len + 2 then 0 else - EIO,
   record_xfer c (MasterSend (write_buf reg len val) sent)).
Proof.
  intros H. unfold s5k3l6_write_reg, i2c_master_send, send_ret.
  destruct (len >? 4) eqn:E; [lia|].
  fold (write_buf reg len val). rewrite (write_buf_length reg len val H).
  destruct (xfer_result (adapter c) (xfer_index c)); simpl;
    match goal with |- context [?a =? ?b] => destruct (a =? b) end;
    reflexivity.
Qed.

Lemma write_array_adapter (regs : list regval) (c : i2c_client) :
  adapter (snd (s5k3l6_write_array c regs)) = adapter c.
Proof.
  revert c; induction regs as [|r regs IH]; intros c; simpl; [reflexivity|].
  destruct (addr r =? REG_NULL); [reflexivity|].
  rewrite s5k3l6_write_reg_eq by (unfold S5K3L6_REG_VALUE_16BIT; lia).
  cbv zeta.
  destruct (_ =? _); simpl; [rewrite IH|]; reflexivity.
Qed.

(** A run of entries that all go through is written in order, and the loop
    continues behind it. *)
Lemma write_array_prefix (pre rest : list regval) :
  forall c : i2c_client,
    Forall (fun r => addr r <> REG_NULL) pre ->
    (forall i, (i < length pre)%nat ->
               send_completes (adapter c) (xfer_index c + i) 4) ->
    s5k3l6_write_array c (pre ++ rest) =
    s5k3l6_write_array (extend c (map (fun r => regval_xfer r 4) pre)) rest.
Proof.
  induction pre as [|r pre IH]; intros c Hnn Hok; simpl.
  - now rewrite extend_nil.
  - inversion Hnn as [|? ? Hr Hpre]; subst.
    apply Z.eqb_neq in Hr; rewrite Hr.
    rewrite s5k3l6_write_reg_eq by (unfold S5K3L6_REG_VALUE_16BIT; lia).
    cbv zeta.
    assert (H0 : send_ret (adapter c) (xfer_index c)
                          (S5K3L6_REG_VALUE_16BIT + 2) = 4).
    { specialize (Hok 0%nat); rewrite Nat.add_0_r in Hok.
      apply Hok; simpl; lia. }
    rewrite H0; change (4 =? S5K3L6_REG_VALUE_16BIT + 2) with true; cbv iota.
    rewrite IH; [now rewrite extend_record|assumption|].
    intros i Hi. rewrite xfer_index_record. simpl adapter.
    replace (S (xfer_index c) + i)%nat with (xfer_index c + S i)%nat by lia.
    apply Hok; simpl; lia.
Qed.

(** C5. [s5k3l6_write_array] writes the entries in front of the first
    [REG_NULL] entry in table order and returns 0 when every one of them
    goes through; when an entry fails, the entries in front of it have been
    written, the failing transaction is the last one on the link, nothing
    behind it is written, and the error of that write, [-EIO], is
    returned. *)
Theorem s5k3l6_write_array_in_order :
  forall (c : i2c_client) (pre : list regval) (nul : regval)
         (post : list regval),
    Forall (fun r => addr r <> REG_NULL) pre ->
    addr nul = REG_NULL ->
    (* every entry goes through *)
    ((forall i, (i < length pre)%nat ->
                send_completes (adapter c) (xfer_index c + i) 4) ->
     s5k3l6_write_array c (pre ++ nul :: post) =
     (0, extend c (map (fun r => regval_xfer r 4) pre)))
    /\
    (* the entry at position [k] is the first that fails *)
    (forall (k : nat) (r : regval),
        nth_error pre k = Some r ->
        (forall i, (i < k)%nat ->
                   send_completes (adapter c) (xfer_index c + i) 4) ->
        ~ send_completes (adapter c) (xfer_index c + k) 4 ->
        s5k3l6_write_array c (pre ++ nul :: post) =
        (- EIO,
         extend c (map (fun r => regval_xfer r 4) (firstn k pre)
                   ++ [regval_xfer r (send_ret (adapter c)
                                               (xfer_index c + k) 4)]))).
Proof.
  intros c pre nul post Hnn Hnul; split.
  - intros Hok. rewrite write_array_prefix by assumption.
    simpl. apply Z.eqb_eq in Hnul; now rewrite Hnul.
  - intros k r Hk Hok Hfail.
    destruct (nth_error_split pre k Hk) as (p1 & p2 & Hpre & Hlen).
    subst pre. rewrite <- app_assoc. simpl app.
    apply Forall_app in Hnn; destruct Hnn as [Hp1 Hrp2].
    inversion Hrp2 as [|? ? Hr Hp2]; subst.
    rewrite write_array_prefix; [|assumption|intros i Hi; now apply Hok].
    rewrite firstn_app, Nat.sub_diag, firstn_O, app_nil_r, firstn_all.
    simpl. apply Z.eqb_neq in Hr; rewrite Hr.
    rewrite s5k3l6_write_reg_eq by (unfold S5K3L6_REG_VALUE_16BIT; lia).
    cbv zeta. simpl adapter.
    assert (Hidx : xfer_index (extend c (map (fun r => regval_xfer r 4) p1))
                   = (xfer_index c + length p1)%nat).
    { unfold xfer_index, extend; simpl.
      now rewrite length_app, length_map. }
    rewrite Hidx.
    change (S5K3L6_REG_VALUE_16BIT + 2) with 4.
    unfold send_completes in Hfail. apply Z.eqb_neq in Hfail.
    rewrite Hfail. f_equal.
    unfold extend, record_xfer; simpl. now rewrite <- app_assoc.
Qed.

Lemma s5k3l6_write_array_in_order_witness :
  let table := [rv 0x0100 0x0000; rv 0x0344 0x0008; rv 0x034C 0x1070]
                 ++ rv REG_NULL 0 :: [rv 0x3C1E 0x0001] in
  s5k3l6_write_array {| adapter := ack_all []; xfers := [] |} table =
  (0, {| adapter := ack_all [];
         xfers := [MasterSend [0x01; 0x00; 0x00; 0x00] 4;
                   MasterSend [0x03; 0x44; 0x00; 0x08] 4;
                   MasterSend [0x03; 0x4C; 0x10; 0x70] 4] |}) /\
  s5k3l6_write_array {| adapter := nack_at 1; xfers := [] |} table =
  (- EIO, {| adapter := nack_at 1;
             xfers := [MasterSend [0x01; 0x00; 0x00; 0x00] 4;
                       MasterSend [0x03; 0x44; 0x00; 0x08] (-121)] |}).
Proof.
  intros table. split.
  - refine (proj1 (s5k3l6_write_array_in_order
                     {| adapter := ack_all []; xfers := [] |}
                     [rv 0x0100 0x0000; rv 0x0344 0x0008; rv 0x034C 0x1070]
                     (rv REG_NULL 0) [rv 0x3C1E 0x0001] _ _) _).
    + repeat constructor; simpl; unfold REG_NULL; lia.
    + reflexivity.
    + intros i Hi. reflexivity.
  - refine (proj2 (s5k3l6_write_array_in_order
                     {| adapter := nack_at 1; xfers := [] |}
                     [rv 0x0100 0x0000; rv 0x0344 0x0008; rv 0x034C 0x1070]
                     (rv REG_NULL 0) [rv 0x3C1E 0x0001] _ _)
                  1%nat (rv 0x0344 0x0008) _ _ _).
    + repeat constructor; simpl; unfold REG_NULL; lia.
    + reflexivity.
    + reflexivity.
    + intros i Hi. assert (i = 0%nat) by lia. subst i. reflexivity.
    + vm_compute. discriminate.
Defined.

(** * Best-fit mode selection *)

Lemma s32_small (x : Z) : - 2 ^ 31 <= x < 2 ^ 31 -> s32 x = x.
Proof.
  intros H. unfold s32. cbv zeta.
  destruct (Z_lt_le_dec x 0) as [Hneg|Hpos].
  - assert (E : x mod 2 ^ 32 = x + 2 ^ 32).
    { symmetry. apply Z.mod_unique with (q := -1); lia. }
    rewrite E. destruct (x + 2 ^ 32 <? 2 ^ 31) eqn:C; lia.
  - rewrite Z.mod_small by lia.
    destruct (x <? 2 ^ 31) eqn:C; lia.
Qed.

Lemma s32_u32 (x : Z) : s32 (u32 x) = s32 x.
Proof. unfold s32, u32. now rewrite Z.mod_mod by lia. Qed.

Lemma abs_u32_small (x : Z) : - 2 ^ 31 < x < 2 ^ 31 -> abs (u32 x) = Z.abs x.
Proof.
  intros H. unfold abs. cbv zeta. rewrite s32_u32, s32_small by lia.
  destruct (x <? 0) eqn:C.
  - rewrite s32_small by lia. lia.
  - lia.
Qed.

(** Below 2^30 the 32-bit distance of the driver is the Manhattan
    distance. *)
Lemma s5k3l6_get_reso_dist_manhattan (m : s5k3l6_mode)
                                     (f : v4l2_mbus_framefmt) :
  0 <= width m < 2 ^ 30 -> 0 <= height m < 2 ^ 30 ->
  0 <= fmt_width f < 2 ^ 30 -> 0 <= fmt_height f < 2 ^ 30 ->
  s5k3l6_get_reso_dist m f = manhattan m (fmt_width f) (fmt_height f).
Proof.
  intros Hw Hh Hfw Hfh. unfold s5k3l6_get_reso_dist, manhattan.
  rewrite !abs_u32_small by lia. apply s32_small. lia.
Qed.

(** The loop keeps the first entry of least distance, given that no
    distance is negative (so that none is taken for the "nothing yet"
    mark -1). *)
Lemma best_fit_loop_first_min (f : v4l2_mbus_framefmt) :
  forall (modes : list s5k3l6_mode) (i b : nat) (bd : Z),
    Forall (fun m => 0 <= s5k3l6_get_reso_dist m f) modes ->
    bd = -1 \/ 0 <= bd ->
    (best_fit_loop modes i f b bd = b /\
     forall m, In m modes -> bd <> -1 /\ bd <= s5k3l6_get_reso_dist m f)
    \/
    (exists (j : nat) (m : s5k3l6_mode),
        best_fit_loop modes i f b bd = (i + j)%nat /\
        nth_error modes j = Some m /\
        (bd = -1 \/ s5k3l6_get_reso_dist m f < bd) /\
        (forall j' m', nth_error modes j' = Some m' ->
                       s5k3l6_get_reso_dist m f <= s5k3l6_get_reso_dist m' f)
        /\
        (forall j' m', (j' < j)%nat -> nth_error modes j' = Some m' ->
                       s5k3l6_get_reso_dist m f < s5k3l6_get_reso_dist m' f)).
Proof.
  induction modes as [|m modes IH]; intros i b bd Hpos Hbd.
  - left. simpl. split; [reflexivity|intros ? []].
  - inversion Hpos as [|? ? Hm Hrest]; subst. simpl.
    set (d := s5k3l6_get_reso_dist m f) in *.
    destruct ((bd =? -1) || (d <? bd)) eqn:Take.
    + assert (Hfirst : bd = -1 \/ d < bd).
      { apply orb_true_iff in Take. destruct Take as [T|T]; [left|right]; lia. }
      right.
      destruct (IH (S i) i d Hrest (or_intror Hm))
        as [(Hr & Hall)|(j & m2 & Hr & Hj & Hlt & Hmin & Hearly)].
      * exists 0%nat, m. rewrite Hr. repeat split.
        -- lia.
        -- exact Hfirst.
        -- intros [|j'] m' Hn; simpl in Hn.
           ++ injection Hn as <-. fold d. lia.
           ++ apply Hall. eapply nth_error_In; eassumption.
        -- intros j' m' Hlt; lia.
      * assert (Hd : s5k3l6_get_reso_dist m2 f < d) by lia.
        exists (S j), m2. rewrite Hr. repeat split.
        -- lia.
        -- exact Hj.
        -- destruct Hfirst; [now left|right; lia].
        -- intros [|j'] m' Hn; simpl in Hn.
           ++ injection Hn as <-. fold d. lia.
           ++ eapply Hmin; eassumption.
        -- intros [|j'] m' Hlt' Hn; simpl in Hn.
           ++ injection Hn as <-. fold d. lia.
           ++ eapply Hearly; [|eassumption]. lia.
    + apply orb_false_iff in Take. destruct Take as [T1 T2].
      assert (Hbd' : bd <> -1 /\ bd <= d) by lia.
      destruct (IH (S i) b bd Hrest Hbd)
        as [(Hr & Hall)|(j & m2 & Hr & Hj & Hlt & Hmin & Hearly)].
      * left. split; [exact Hr|].
        intros m' [<-|Hin]; [fold d; lia|now apply Hall].
      * assert (Hd : s5k3l6_get_reso_dist m2 f < bd) by lia.
        right. exists (S j), m2. rewrite Hr. repeat split.
        -- lia.
        -- exact Hj.
        -- now right.
        -- intros [|j'] m' Hn; simpl in Hn.
           ++ injection Hn as <-. fold d. lia.
           ++ eapply Hmin; eassumption.
        -- intros [|j'] m' Hlt' Hn; simpl in Hn.
           ++ injection Hn as <-. fold d. lia.
           ++ eapply Hearly; [|eassumption]. lia.
Qed.

Lemma best_fit_index_in_catalog (fmt : v4l2_subdev_format) :
  (best_fit_index fmt < length supported_modes)%nat.
Proof.
  unfold best_fit_index, supported_modes. simpl.
  repeat match goal with
         | |- context [if ?c then _ else _] => destruct c
         end; simpl; lia.
Qed.

Lemma supported_modes_dims (m : s5k3l6_mode) :
  In m supported_modes -> 0 <= width m < 2 ^ 30 /\ 0 <= height m < 2 ^ 30.
Proof.
  intros [<-|[<-|[]]]; simpl; lia.
Qed.

(** C2, as amended.  [s5k3l6_find_best_fit] returns an entry of
    [supported_modes] for every request; for a request whose width and
    height are below 2^30 that entry has the least Manhattan distance to the
    request among all entries, and every entry in front of it in the array
    is strictly farther away, so that of several nearest entries the one
    with the lowest index is returned. *)
Theorem s5k3l6_find_best_fit_nearest :
  forall fmt : v4l2_subdev_format,
    let w := fmt_width (format fmt) in
    let h := fmt_height (format fmt) in
    let best := s5k3l6_find_best_fit fmt in
    nth_error supported_modes (best_fit_index fmt) = Some best /\
    (0 <= w < 2 ^ 30 -> 0 <= h < 2 ^ 30 ->
     (forall j m, nth_error supported_modes j = Some m ->
                  manhattan best w h <= manhattan m w h) /\
     (forall j m, (j < best_fit_index fmt)%nat ->
                  nth_error supported_modes j = Some m ->
                  manhattan best w h < manhattan m w h)).
Proof.
  intros fmt w h best.
  assert (Hnth : nth_error supported_modes (best_fit_index fmt) = Some best).
  { apply nth_error_nth'. apply best_fit_index_in_catalog. }
  split; [exact Hnth|]. intros Hw Hh.
  assert (Hdist : forall m, In m supported_modes ->
            s5k3l6_get_reso_dist m (format fmt) = manhattan m w h).
  { intros m Hin. destruct (supported_modes_dims m Hin).
    now apply s5k3l6_get_reso_dist_manhattan. }
  assert (Hpos : Forall (fun m => 0 <= s5k3l6_get_reso_dist m (format fmt))
                        supported_modes).
  { apply Forall_forall. intros m Hin. rewrite (Hdist m Hin).
    unfold manhattan. lia. }
  destruct (best_fit_loop_first_min (format fmt) supported_modes 0 0 (-1)
              Hpos (or_introl eq_refl))
    as [(_ & Hall)|(j & m & Hr & Hj & _ & Hmin & Hearly)].
  - exfalso. destruct (Hall mode_4208x3120 (or_introl eq_refl)) as [Hne _].
    now apply Hne.
  - fold (best_fit_index fmt) in Hr. simpl in Hr. subst j.
    rewrite Hnth in Hj. injection Hj as <-.
    rewrite <- (Hdist best) by (eapply nth_error_In; exact Hnth).
    split.
    + intros j m Hm. rewrite <- (Hdist m) by (eapply nth_error_In; exact Hm).
      eapply Hmin; exact Hm.
    + intros j m Hlt Hm.
      rewrite <- (Hdist m) by (eapply nth_error_In; exact Hm).
      eapply Hearly; eassumption.
Qed.

Lemma s5k3l6_find_best_fit_nearest_witness :
  s5k3l6_find_best_fit (request 2200 1600 V4L2_SUBDEV_FORMAT_ACTIVE)
  = mode_2104x1560 /\
  manhattan (s5k3l6_find_best_fit (request 2200 1600 V4L2_SUBDEV_FORMAT_ACTIVE))
            2200 1600
  <= manhattan mode_4208x3120 2200 1600.
Proof.
  split; [reflexivity|].
  refine (proj1 (proj2 (s5k3l6_find_best_fit_nearest
                          (request 2200 1600 V4L2_SUBDEV_FORMAT_ACTIVE))
                       _ _) 0%nat mode_4208x3120 _).
  - simpl; lia.
  - simpl; lia.
  - reflexivity.
Defined.

(** C2 as stated fails for requests near the top of the [u32] range: the
    differences wrap around, and for the request 4294967295 x 0 the driver
    returns the 2104x1560 entry although the 4208x3120 entry is nearer. *)
Lemma s5k3l6_find_best_fit_wraps :
  s5k3l6_find_best_fit (request 4294967295 0 V4L2_SUBDEV_FORMAT_ACTIVE)
  = mode_2104x1560 /\
  In mode_4208x3120 supported_modes /\
  manhattan mode_4208x3120 4294967295 0
  < manhattan
      (s5k3l6_find_best_fit (request 4294967295 0 V4L2_SUBDEV_FORMAT_ACTIVE))
      4294967295 0.
Proof.
  split; [reflexivity|]. split; [now left|]. vm_compute. reflexivity.
Qed.

(** * Power requests *)

Lemma set_power_same_status (s : s5k3l6) (on : Z) :
  (if negb (on =? 0) then 1 else 0) = status (power s) ->
  s5k3l6_set_power s on = s.
Proof.
  intros H. unfold s5k3l6_set_power. cbv zeta.
  rewrite H, Z.eqb_refl. reflexivity.
Qed.

Lemma set_power_status (s : s5k3l6) (on : Z) :
  status (power (s5k3l6_set_power s on)) = if negb (on =? 0) then 1 else 0.
Proof.
  unfold s5k3l6_set_power. cbv zeta.
  destruct (_ =? status (power s)) eqn:E.
  - apply Z.eqb_eq in E. now rewrite E.
  - reflexivity.
Qed.

(** C7. A request for the power state the device is already in changes
    nothing, pins and ACPI calls included, and [s5k3l6_s_power] answers it
    with 0; in particular a second [s5k3l6_set_power] with the same
    argument leaves the state reached by the first, so that the hardware
    sequence ran once. *)
Theorem power_request_idempotent :
  forall (s : s5k3l6) (on : Z),
    ((if negb (on =? 0) then 1 else 0) = status (power s) ->
     s5k3l6_set_power s on = s) /\
    s5k3l6_set_power (s5k3l6_set_power s on) on = s5k3l6_set_power s on /\
    (power_on s = negb (on =? 0) -> s5k3l6_s_power s on = (0, s)).
Proof.
  intros s on. split; [apply set_power_same_status|]. split.
  - apply set_power_same_status. now rewrite set_power_status.
  - intros H. unfold s5k3l6_s_power. rewrite H.
    now rewrite Bool.eqb_reflx.
Qed.

Lemma power_request_idempotent_witness :
  let s := s5k3l6_set_power (s5k3l6_probe (ack_all []) board 0) 1 in
  hw s = hw (s5k3l6_probe (ack_all []) board 0)
         ++ [gpiod_set_value_cansleep GPIO_RESET 0; msleep 5;
             acpi_evaluate_dsm [3; 1; 1];
             gpiod_set_value_cansleep GPIO_PWREN 1;
             gpiod_set_value_cansleep GPIO_RESET 1; msleep 5] /\
  s5k3l6_set_power s 1 = s /\
  s5k3l6_s_power s 0 = (0, s).
Proof.
  intros s. split; [vm_compute; reflexivity|]. split.
  - apply (proj1 (power_request_idempotent s 1)). vm_compute. reflexivity.
  - apply (proj2 (proj2 (power_request_idempotent s 0))).
    vm_compute. reflexivity.
Defined.

(** * Sensor identity *)

(** C8, as amended.  [s5k3l6_check_sensor_id] issues the 2-byte read of the
    identifier register.  When that read fails on the link, or completes
    with a value other than [CHIP_ID], the function returns [-ENODEV] and
    reads nothing more: the bus error of the identifier read is not
    returned, the identifier is left at 0 and the failure comes out as a
    mismatch, the error number of the read showing only in the message.
    When the identifier matches, the 1-byte revision register is read and a
    bus error of that read, [-EIO], is returned; otherwise the result
    is 0. *)
Theorem s5k3l6_check_sensor_id_result :
  forall c : i2c_client,
    s5k3l6_check_sensor_id c =
    let a := adapter c in
    let n := xfer_index c in
    let r1 := transfer_ret a n in
    let c1 := record_xfer c (Transfer [0x00; 0x00] 2 r1) in
    if negb (r1 =? 2) then (- ENODEV, c1, Unexpected_sensor_id 0 (- EIO))
    else if negb (read_value a n 2 =? CHIP_ID)
    then (- ENODEV, c1, Unexpected_sensor_id (read_value a n 2) 0)
    else
      let r2 := transfer_ret a (S n) in
      let c2 := record_xfer c1 (Transfer [0x00; 0x02] 1 r2) in
      if r2 =? 2
      then (0, c2, Detected_Samsung_sensor CHIP_ID (read_value a (S n) 1))
      else (- EIO, c2, Read_chip_revision_register_error).
Proof.
  intros c. unfold s5k3l6_check_sensor_id, s5k3l6_read_reg, i2c_transfer.
  cbv zeta. fold (transfer_ret (adapter c) (xfer_index c)).
  change (cpu_to_be16 S5K3L6_REG_CHIP_ID) with [0x00; 0x00].
  change (cpu_to_be16 S5K3L6_CHIP_REVISION_REG) with [0x00; 0x02].
  change S5K3L6_REG_VALUE_16BIT with 2. change S5K3L6_REG_VALUE_08BIT with 1.
  change ((2 >? 4) || (2 =? 0)) with false.
  change ((1 >? 4) || (1 =? 0)) with false. cbv iota.
  destruct (transfer_ret (adapter c) (xfer_index c) =? 2) eqn:E1; simpl negb;
    cbv iota.
  - fold (read_value (adapter c) (xfer_index c) 2).
    destruct (read_value (adapter c) (xfer_index c) 2 =? CHIP_ID) eqn:E2;
      simpl negb; cbv iota; [|reflexivity].
    rewrite xfer_index_record. simpl adapter.
    fold (transfer_ret (adapter c) (S (xfer_index c))).
    destruct (transfer_ret (adapter c) (S (xfer_index c)) =? 2);
      reflexivity.
  - reflexivity.
Qed.

(** C8 as stated fails: on a link that does not acknowledge the identifier
    read, the read itself reports [-EIO], yet the check returns [-ENODEV],
    the very result it gives for a sensor that answers with a foreign
    identifier, and ends after that one transaction. *)
Lemma s5k3l6_check_sensor_id_bus_error_is_mismatch :
  let nack := {| adapter := nack_at 0; xfers := [] |} in
  let foreign := {| adapter := ack_all [0x12; 0x34]; xfers := [] |} in
  fst (fst (s5k3l6_read_reg nack S5K3L6_REG_CHIP_ID S5K3L6_REG_VALUE_16BIT 0))
  = - EIO /\
  fst (fst (s5k3l6_check_sensor_id nack)) = - ENODEV /\
  fst (fst (s5k3l6_check_sensor_id nack))
  = fst (fst (s5k3l6_check_sensor_id foreign)) /\
  xfers (snd (fst (s5k3l6_check_sensor_id nack)))
  = [Transfer [0x00; 0x00] 2 (-121)].
Proof. vm_compute. repeat split; reflexivity. Qed.

(** * Test pattern *)

Lemma lor_enable_byte (x : Z) :
  0 <= x <= 255 ->
  Z.land (Z.lor x S5K3L6_TEST_PATTERN_ENABLE) 0xff
  = Z.lor x S5K3L6_TEST_PATTERN_ENABLE.
Proof.
  intros H. unfold S5K3L6_TEST_PATTERN_ENABLE.
  change 0xff with (Z.ones 8). rewrite Z.land_ones by lia.
  assert (Hnn : 0 <= Z.lor x 0x80) by (apply Z.lor_nonneg; lia).
  apply Z.mod_small. split; [exact Hnn|].
  destruct (Z.eq_dec (Z.lor x 0x80) 0) as [E|E]; [rewrite E; lia|].
  apply Z.log2_lt_pow2; [lia|].
  rewrite Z.log2_lor by lia.
  assert (Z.log2 x <= Z.log2 255) by (apply Z.log2_le_mono; lia).
  change (Z.log2 255) with 7 in *. change (Z.log2 0x80) with 7. lia.
Qed.

(** C9. The test pattern goes to register 0x0601 in one byte: the disable
    constant for pattern 0, and [(k - 1) | 0x80] for a pattern [k > 0]
    (every value up to 256 fits the byte; the menu of the control ends
    at 3). *)
Theorem s5k3l6_enable_test_pattern_encoding :
  forall (s : s5k3l6) (k : Z),
    0 <= k <= 256 ->
    s5k3l6_enable_test_pattern s k =
    let sent := send_ret (adapter (client s)) (xfer_index (client s)) 3 in
    (if sent =? 3 then 0 else - EIO,
     set_client s
       (record_xfer (client s)
          (MasterSend
             [0x06; 0x01;
              if k =? 0 then S5K3L6_TEST_PATTERN_DISABLE
              else Z.lor (k - 1) S5K3L6_TEST_PATTERN_ENABLE]
             sent))).
Proof.
  intros s k Hk. unfold s5k3l6_enable_test_pattern, dev_write_reg.
  rewrite s5k3l6_write_reg_eq by (unfold S5K3L6_REG_VALUE_08BIT; lia).
  cbv zeta. change (S5K3L6_REG_VALUE_08BIT + 2) with 3.
  assert (Hbuf : forall v, write_buf S5K3L6_REG_TEST_PATTERN
                             S5K3L6_REG_VALUE_08BIT v
                           = [0x06; 0x01; Z.land v 0xff]) by reflexivity.
  rewrite Hbuf. destruct (k =? 0) eqn:E; simpl negb; cbv iota.
  - reflexivity.
  - apply Z.eqb_neq in E. unfold u32. rewrite Z.mod_small by lia.
    rewrite lor_enable_byte by lia. reflexivity.
Qed.

Lemma s5k3l6_enable_test_pattern_encoding_witness :
  xfers (client (snd (s5k3l6_enable_test_pattern
                        (s5k3l6_probe (ack_all []) board 0) 3)))
  = [MasterSend [0x06; 0x01; 0x82] 3].
Proof.
  rewrite (s5k3l6_enable_test_pattern_encoding
             (s5k3l6_probe (ack_all []) board 0) 3); [|lia].
  vm_compute. reflexivity.
Defined.

(** * Format negotiation *)

(** C10. A [V4L2_SUBDEV_FORMAT_TRY] request leaves the device context as it
    was, current mode and every control included.  What is written is the
    caller's format, remapped to the best-fit mode, and, in a kernel with
    the subdev API, the try format of the file handle (without that API the
    request ends with [-ENOTTY] and the try format is not written
    either). *)
Theorem s5k3l6_set_fmt_try_frame :
  forall (CONFIG_VIDEO_V4L2_SUBDEV_API : bool) (s : s5k3l6)
         (sd_state : v4l2_subdev_state) (fmt : v4l2_subdev_format),
    which fmt = V4L2_SUBDEV_FORMAT_TRY ->
    let mode := s5k3l6_find_best_fit fmt in
    let remapped := {| fmt_width := width mode; fmt_height := height mode;
                       fmt_code := Some S5K3L6_MEDIA_BUS_FMT;
                       fmt_field := V4L2_FIELD_NONE |} in
    s5k3l6_set_fmt CONFIG_VIDEO_V4L2_SUBDEV_API s sd_state fmt =
    (if CONFIG_VIDEO_V4L2_SUBDEV_API then 0 else - ENOTTY,
     s,
     if CONFIG_VIDEO_V4L2_SUBDEV_API then {| try_fmt := remapped |}
     else sd_state,
     {| which := V4L2_SUBDEV_FORMAT_TRY; pad := pad fmt;
        format := remapped |}).
Proof.
  intros cfg s st fmt Htry mode remapped.
  unfold s5k3l6_set_fmt. cbv zeta. simpl which. rewrite Htry.
  destruct cfg; reflexivity.
Qed.

Lemma s5k3l6_set_fmt_try_frame_witness :
  let s := snd (v4l2_s_ctrl_vblank (s5k3l6_probe (ack_all []) board 0) 5000) in
  s5k3l6_set_fmt true s no_try (request 2200 1600 V4L2_SUBDEV_FORMAT_TRY) =
  (0, s,
   {| try_fmt := {| fmt_width := 2104; fmt_height := 1560;
                    fmt_code := Some MEDIA_BUS_FMT_SGRBG10_1X10;
                    fmt_field := V4L2_FIELD_NONE |} |},
   {| which := V4L2_SUBDEV_FORMAT_TRY; pad := 0;
      format := {| fmt_width := 2104; fmt_height := 1560;
                   fmt_code := Some MEDIA_BUS_FMT_SGRBG10_1X10;
                   fmt_field := V4L2_FIELD_NONE |} |}).
Proof.
  intros s.
  exact (s5k3l6_set_fmt_try_frame true s no_try
           (request 2200 1600 V4L2_SUBDEV_FORMAT_TRY) eq_refl).
Defined.

(** * Streaming *)

Lemma set_power_frame (s : s5k3l6) (on : Z) :
  let s' := s5k3l6_set_power s on in
  client s' = client s /\ cur_mode s' = cur_mode s /\ pm s' = pm s /\
  streaming s' = streaming s /\ power_on s' = power_on s /\
  exposure s' = exposure s /\ vblank s' = vblank s /\
  anal_gain s' = anal_gain s /\ test_pattern s' = test_pattern s.
Proof.
  unfold s5k3l6_set_power. cbv zeta.
  destruct (_ =? status (power s)); repeat split; reflexivity.
Qed.

(** C3. When the register program of the current mode fails at some entry
    during stream start, [s5k3l6_s_stream] returns the error of that write,
    the streaming flag stays clear, the usage count taken at the beginning
    is given back, and nothing is written behind the failing entry. *)
Theorem s5k3l6_s_stream_program_failure :
  forall (s : s5k3l6) (on ret : Z) (c' : i2c_client),
    on <> 0 ->
    streaming s = false ->
    disabled (pm s) = false ->
    0 <= resume_ret (pm s) ->
    s5k3l6_write_array (client s) (reg_list (cur_mode s)) = (ret, c') ->
    ret <> 0 ->
    fst (s5k3l6_s_stream s on) = ret /\
    streaming (snd (s5k3l6_s_stream s on)) = false /\
    usage_count (pm (snd (s5k3l6_s_stream s on))) = usage_count (pm s) /\
    client (snd (s5k3l6_s_stream s on)) = c'.
Proof.
  intros s on ret c' Hon Hidle Hen Hres Hprog Hret.
  unfold s5k3l6_s_stream. cbv zeta.
  apply Z.eqb_neq in Hon. rewrite Hon, Hidle. simpl negb. simpl Bool.eqb.
  cbv iota. unfold pm_runtime_get_sync. rewrite Hen.
  destruct (resume_ret (pm s) <? 0) eqn:Eres; [lia|].
  unfold __s5k3l6_start_stream. cbv zeta.
  set (s1 := set_pm s _).
  destruct (set_power_frame s1 1) as (Hc & Hm & Hpm & Hst & _).
  cbv zeta in Hc, Hm, Hpm, Hst.
  unfold dev_write_array. rewrite Hc, Hm.
  change (client s1) with (client s). change (cur_mode s1) with (cur_mode s).
  rewrite Hprog. cbv beta iota. apply Z.eqb_neq in Hret.
  rewrite Hret. simpl negb. cbv beta iota.
  rewrite Hret. simpl negb. cbv beta iota.
  cbn [fst snd]. unfold pm_runtime_put.
  cbn [streaming pm client set_pm set_client usage_count set_usage_count].
  rewrite Hst, Hpm. subst s1.
  cbn [streaming pm set_pm usage_count set_usage_count Nat.pred].
  repeat split; solve [reflexivity | assumption].
Qed.

Lemma s5k3l6_s_stream_program_failure_witness :
  let s := s5k3l6_probe (nack_at 5) board 0 in
  fst (s5k3l6_s_stream s 1) = - EIO /\
  streaming (snd (s5k3l6_s_stream s 1)) = false /\
  usage_count (pm (snd (s5k3l6_s_stream s 1))) = 0%nat /\
  length (xfers (client (snd (s5k3l6_s_stream s 1)))) = 6%nat.
Proof.
  intros s.
  destruct (s5k3l6_s_stream_program_failure s 1 (- EIO)
              (snd (s5k3l6_write_array (client s) (reg_list (cur_mode s)))))
    as (H1 & H2 & H3 & H4).
  - lia.
  - reflexivity.
  - reflexivity.
  - vm_compute. discriminate.
  - vm_compute. reflexivity.
  - vm_compute. discriminate.
  - rewrite H1, H2, H3, H4. vm_compute. repeat split; reflexivity.
Defined.

(** * Controls *)

Lemma pm_runtime_put_after_get (s : s5k3l6) (c : i2c_client) :
  pm_runtime_put
    (set_client
       (set_pm s (set_usage_count (pm s) (S (usage_count (pm s))))) c)
  = set_client s c.
Proof. destruct s as [? ? ? ? ? ? ? ? ? ? ? ? [? ? ?] ?]. reflexivity. Qed.

Lemma pm_runtime_get_if_in_use_live (s : s5k3l6) :
  disabled (pm s) = false -> (0 < usage_count (pm s))%nat ->
  pm_runtime_get_if_in_use s =
  (1, set_pm s (set_usage_count (pm s) (S (usage_count (pm s))))).
Proof.
  intros Hen Huse. unfold pm_runtime_get_if_in_use. rewrite Hen.
  apply Nat.ltb_lt in Huse. now rewrite Huse.
Qed.

Lemma pm_runtime_get_if_in_use_idle (s : s5k3l6) :
  disabled (pm s) = false -> usage_count (pm s) = 0%nat ->
  pm_runtime_get_if_in_use s = (0, s).
Proof.
  intros Hen Huse. unfold pm_runtime_get_if_in_use. now rewrite Hen, Huse.
Qed.

(** While the device is not in use no control reaches the hardware. *)
Lemma s5k3l6_set_ctrl_write_idle (s : s5k3l6) (id : v4l2_cid) (v : Z) :
  disabled (pm s) = false -> usage_count (pm s) = 0%nat ->
  s5k3l6_set_ctrl_write s id v = (0, s).
Proof.
  intros Hen Huse. unfold s5k3l6_set_ctrl_write.
  now rewrite pm_runtime_get_if_in_use_idle.
Qed.

Lemma dev_write_reg_eq (s : s5k3l6) (reg len v : Z) :
  0 <= len <= 4 ->
  dev_write_reg s reg len v =
  let sent := send_ret (adapter (client s)) (xfer_index (client s))
                       (len + 2) in
  (if sent =? len + 2 then 0 else - EIO,
   set_client s (record_xfer (client s)
                             (MasterSend (write_buf reg len v) sent))).
Proof.
  intros H. unfold dev_write_reg. now rewrite s5k3l6_write_reg_eq.
Qed.

(** While it is in use, the exposure and the frame length go out as 16-bit
    writes, and the usage count is back where it was. *)
Lemma s5k3l6_set_ctrl_write_exposure (s : s5k3l6) (v : Z) :
  disabled (pm s) = false -> (0 < usage_count (pm s))%nat ->
  s5k3l6_set_ctrl_write s V4L2_CID_EXPOSURE v =
  let sent := send_ret (adapter (client s)) (xfer_index (client s)) 4 in
  (if sent =? 4 then 0 else - EIO,
   set_client s
     (record_xfer (client s)
        (MasterSend (write_buf S5K3L6_REG_EXPOSURE S5K3L6_REG_VALUE_16BIT
                               (u32 v)) sent))).
Proof.
  intros Hen Huse. unfold s5k3l6_set_ctrl_write.
  rewrite pm_runtime_get_if_in_use_live by assumption.
  change (1 =? 0) with false. cbv iota.
  rewrite dev_write_reg_eq by (unfold S5K3L6_REG_VALUE_16BIT; lia).
  cbv beta iota zeta. now rewrite pm_runtime_put_after_get.
Qed.

Lemma s5k3l6_set_ctrl_write_vblank (s : s5k3l6) (v : Z) :
  disabled (pm s) = false -> (0 < usage_count (pm s))%nat ->
  s5k3l6_set_ctrl_write s V4L2_CID_VBLANK v =
  let sent := send_ret (adapter (client s)) (xfer_index (client s)) 4 in
  (if sent =? 4 then 0 else - EIO,
   set_client s
     (record_xfer (client s)
        (MasterSend (write_buf S5K3L6_REG_VTS S5K3L6_REG_VALUE_16BIT
                               (u32 (v + height (cur_mode s)))) sent))).
Proof.
  intros Hen Huse. unfold s5k3l6_set_ctrl_write.
  rewrite pm_runtime_get_if_in_use_live by assumption.
  change (1 =? 0) with false. cbv iota.
  rewrite dev_write_reg_eq by (unfold S5K3L6_REG_VALUE_16BIT; lia).
  cbv beta iota zeta. now rewrite pm_runtime_put_after_get.
Qed.

(** Changing the maximum of the exposure control: the new maximum is
    advertised in every case; the exposure register is written at most
    once (when the current exposure had to move into the new range and the
    device is in use), and nothing else of the device changes. *)
Lemma modify_exposure_maximum (s : s5k3l6) (max : Z) :
  disabled (pm s) = false ->
  is_menu (ctrl_type (exposure s)) = false ->
  step (exposure s) <> 0 ->
  minimum (exposure s) <= default_value (exposure s) <= max ->
  exists (pre : list i2c_event) (e : v4l2_ctrl),
    snd (__v4l2_ctrl_modify_range exposure set_exposure exposure_s_ctrl s
           (minimum (exposure s)) max (step (exposure s))
           (default_value (exposure s)))
    = set_exposure (set_client s (extend (client s) pre)) e /\
    maximum e = max /\
    at_most_exposure_write pre /\
    (usage_count (pm s) = 0%nat -> pre = []).
Proof.
  intros Hen Htype Hstep Hdef.
  unfold __v4l2_ctrl_modify_range, check_range. rewrite Htype.
  apply Z.eqb_neq in Hstep. rewrite Hstep.
  assert (E1 : (minimum (exposure s) >? max) = false) by lia.
  assert (E2 : (default_value (exposure s) <? minimum (exposure s)) = false)
    by lia.
  assert (E3 : (default_value (exposure s) >? max) = false) by lia.
  rewrite E1, E2, E3. simpl orb. cbv iota. simpl negb. cbv iota zeta.
  set (e1 := set_range (exposure s) _ _ _ _).
  set (s1 := set_exposure s e1).
  assert (Hnil : s1 = set_exposure (set_client s (extend (client s) [])) e1).
  { rewrite extend_nil. subst s1. destruct s; reflexivity. }
  change (exposure s1) with e1.
  unfold validate_new at 1. change (ctrl_type e1) with (ctrl_type (exposure s)).
  rewrite Htype. change (0 =? 0) with true. simpl negb. cbv iota.
  change (cur e1) with (cur (exposure s)).
  destruct (round_to_range e1 (cur (exposure s)) =? cur (exposure s))
    eqn:Esame; simpl negb; cbv iota.
  - exists [], e1. cbn [snd]. repeat split; [exact Hnil|now left].
  - unfold set_ctrl. change (exposure s1) with e1.
    unfold validate_new. change (ctrl_type e1) with (ctrl_type (exposure s)).
    rewrite Htype. change (0 =? 0) with true. simpl negb. cbv iota.
    unfold try_or_set_cluster. change (exposure s1) with e1.
    change (cur e1) with (cur (exposure s)).
    set (new := round_to_range e1 (round_to_range e1 (cur (exposure s)))).
    destruct (new =? cur (exposure s)) eqn:Esame2.
    + exists [], e1. cbn [snd]. repeat split; [exact Hnil|now left].
    + unfold exposure_s_ctrl.
      destruct (Nat.eq_dec (usage_count (pm s)) 0) as [Hidle|Hlive].
      * rewrite s5k3l6_set_ctrl_write_idle by assumption.
        change (0 =? 0) with true. simpl negb. cbv iota. cbn [snd].
        change (exposure s1) with e1.
        eexists [], _. split; [|repeat split; [| now left]].
        -- rewrite extend_nil. subst s1. destruct s; reflexivity.
        -- reflexivity.
      * rewrite s5k3l6_set_ctrl_write_exposure by (assumption || (simpl; lia)).
        cbv zeta. change (client s1) with (client s).
        set (sent := send_ret _ _ _).
        set (ev := MasterSend _ sent).
        assert (Hrec : record_xfer (client s) ev = extend (client s) [ev])
          by reflexivity.
        destruct (sent =? 4); simpl negb; cbv iota; cbn [snd].
        -- eexists [ev], _. split; [|repeat split].
           ++ rewrite Hrec. subst s1. reflexivity.
           ++ reflexivity.
           ++ right. eexists _, _. reflexivity.
           ++ intros Hz. contradiction.
        -- change (- EIO =? 0) with false. simpl negb. cbv iota. cbn [snd].
           eexists [ev], e1. split; [|repeat split].
           ++ rewrite Hrec. subst s1. reflexivity.
           ++ right. eexists _, _. reflexivity.
           ++ intros Hz. contradiction.
Qed.

Lemma pm_runtime_get_if_in_use_disabled (s : s5k3l6) :
  disabled (pm s) = true -> pm_runtime_get_if_in_use s = (- EINVAL, s).
Proof. intros Hd. unfold pm_runtime_get_if_in_use. now rewrite Hd. Qed.

(** With runtime PM disabled [pm_runtime_get_if_in_use] answers [-EINVAL],
    which is not 0: the register is written whatever the usage count. *)
Lemma s5k3l6_set_ctrl_write_exposure_disabled (s : s5k3l6) (v : Z) :
  disabled (pm s) = true ->
  s5k3l6_set_ctrl_write s V4L2_CID_EXPOSURE v =
  let sent := send_ret (adapter (client s)) (xfer_index (client s)) 4 in
  (if sent =? 4 then 0 else - EIO,
   pm_runtime_put
     (set_client s
        (record_xfer (client s)
           (MasterSend (write_buf S5K3L6_REG_EXPOSURE S5K3L6_REG_VALUE_16BIT
                                  (u32 v)) sent)))).
Proof.
  intros Hd. unfold s5k3l6_set_ctrl_write.
  rewrite pm_runtime_get_if_in_use_disabled by assumption.
  change (- EINVAL =? 0) with false. cbv iota.
  rewrite dev_write_reg_eq by (unfold S5K3L6_REG_VALUE_16BIT; lia).
  reflexivity.
Qed.

Lemma s5k3l6_set_ctrl_write_vblank_disabled (s : s5k3l6) (v : Z) :
  disabled (pm s) = true ->
  s5k3l6_set_ctrl_write s V4L2_CID_VBLANK v =
  let sent := send_ret (adapter (client s)) (xfer_index (client s)) 4 in
  (if sent =? 4 then 0 else - EIO,
   pm_runtime_put
     (set_client s
        (record_xfer (client s)
           (MasterSend (write_buf S5K3L6_REG_VTS S5K3L6_REG_VALUE_16BIT
                                  (u32 (v + height (cur_mode s)))) sent)))).
Proof.
  intros Hd. unfold s5k3l6_set_ctrl_write.
  rewrite pm_runtime_get_if_in_use_disabled by assumption.
  change (- EINVAL =? 0) with false. cbv iota.
  rewrite dev_write_reg_eq by (unfold S5K3L6_REG_VALUE_16BIT; lia).
  reflexivity.
Qed.

(** The register write of the vertical blanking in every runtime PM
    state. *)
Lemma s5k3l6_set_ctrl_write_vblank_cases (s : s5k3l6) (v : Z) :
  let r := s5k3l6_set_ctrl_write s V4L2_CID_VBLANK v in
  let sent := send_ret (adapter (client s)) (xfer_index (client s)) 4 in
  exposure (snd r) = exposure s /\
  (disabled (pm s) = false -> pm (snd r) = pm s) /\
  (disabled (pm s) = false -> usage_count (pm s) = 0%nat -> r = (0, s)) /\
  (disabled (pm s) = true \/ (0 < usage_count (pm s))%nat ->
   fst r = (if sent =? 4 then 0 else - EIO) /\
   xfers (client (snd r))
   = xfers (client s)
     ++ [MasterSend (write_buf S5K3L6_REG_VTS S5K3L6_REG_VALUE_16BIT
                               (u32 (v + height (cur_mode s)))) sent]).
Proof.
  cbv zeta. destruct (disabled (pm s)) eqn:Hd.
  - rewrite s5k3l6_set_ctrl_write_vblank_disabled by assumption.
    cbv zeta. cbn [fst snd].
    split; [reflexivity|]. split; [discriminate|]. split; [discriminate|].
    intros _. split; reflexivity.
  - destruct (Nat.eq_dec (usage_count (pm s)) 0) as [Hz|Hnz].
    + rewrite s5k3l6_set_ctrl_write_idle by assumption. cbn [fst snd].
      split; [reflexivity|]. split; [reflexivity|]. split; [reflexivity|].
      intros [Hd'|Hu]; [discriminate|lia].
    + rewrite s5k3l6_set_ctrl_write_vblank by (assumption || lia).
      cbv zeta. cbn [fst snd].
      split; [reflexivity|]. split; [reflexivity|].
      split; [intros _ Hz; contradiction|].
      intros _. split; reflexivity.
Qed.

(** Changing the maximum of the exposure control in every runtime PM
    state: the new maximum is advertised, the exposure register is written
    at most once, and the mode, the link and whether runtime PM is enabled
    stay as they are. *)
Lemma modify_exposure_maximum_cases (s : s5k3l6) (max : Z) :
  is_menu (ctrl_type (exposure s)) = false ->
  step (exposure s) <> 0 ->
  minimum (exposure s) <= default_value (exposure s) <= max ->
  let s2 := snd (__v4l2_ctrl_modify_range exposure set_exposure
                   exposure_s_ctrl s (minimum (exposure s)) max
                   (step (exposure s)) (default_value (exposure s))) in
  maximum (exposure s2) = max /\
  cur_mode s2 = cur_mode s /\
  adapter (client s2) = adapter (client s) /\
  disabled (pm s2) = disabled (pm s) /\
  (disabled (pm s) = false -> pm s2 = pm s) /\
  exists pre : list i2c_event,
    xfers (client s2) = xfers (client s) ++ pre /\
    at_most_exposure_write pre /\
    (disabled (pm s) = false -> usage_count (pm s) = 0%nat -> pre = []).
Proof.
  intros Htype Hstep Hdef. cbv zeta.
  destruct (disabled (pm s)) eqn:Hd.
  - match goal with |- context [snd ?t] => set (res := t) end.
    pattern (snd res).
    match goal with |- ?P _ => set (Q := P) end.
    subst res.
    unfold __v4l2_ctrl_modify_range, check_range. rewrite Htype.
    apply Z.eqb_neq in Hstep. rewrite Hstep.
    assert (E1 : (minimum (exposure s) >? max) = false) by lia.
    assert (E2 : (default_value (exposure s) <? minimum (exposure s)) = false)
      by lia.
    assert (E3 : (default_value (exposure s) >? max) = false) by lia.
    rewrite E1, E2, E3. simpl orb. cbv iota. simpl negb. cbv iota zeta.
    set (e1 := set_range (exposure s) _ _ _ _).
    set (s1 := set_exposure s e1).
    assert (Hquiet : Q s1).
    { subst Q. cbv beta.
      split; [reflexivity|]. split; [reflexivity|]. split; [reflexivity|].
      split; [exact Hd|]. split; [discriminate|].
      exists []. split; [symmetry; apply app_nil_r|]. split; [now left|].
      discriminate. }
    change (exposure s1) with e1.
    unfold validate_new at 1.
    change (ctrl_type e1) with (ctrl_type (exposure s)).
    rewrite Htype. change (0 =? 0) with true. simpl negb. cbv iota.
    change (cur e1) with (cur (exposure s)).
    destruct (round_to_range e1 (cur (exposure s)) =? cur (exposure s));
      simpl negb; cbv iota; [exact Hquiet|].
    unfold set_ctrl. change (exposure s1) with e1.
    unfold validate_new. change (ctrl_type e1) with (ctrl_type (exposure s)).
    rewrite Htype. change (0 =? 0) with true. simpl negb. cbv iota.
    unfold try_or_set_cluster. change (exposure s1) with e1.
    change (cur e1) with (cur (exposure s)).
    set (new := round_to_range e1 (round_to_range e1 (cur (exposure s)))).
    destruct (new =? cur (exposure s)); [exact Hquiet|].
    unfold exposure_s_ctrl.
    rewrite s5k3l6_set_ctrl_write_exposure_disabled by exact Hd.
    cbv zeta. change (client s1) with (client s).
    set (sent := send_ret _ _ _). set (ev := MasterSend _ sent).
    destruct (sent =? 4); simpl negb; cbv iota; cbn [snd];
      subst Q; cbv beta;
      (split; [reflexivity|]; split; [reflexivity|]; split; [reflexivity|];
       split; [exact Hd|]; split; [discriminate|];
       exists [ev]; split; [reflexivity|]; split; [|discriminate];
       right; eexists _, _; reflexivity).
  - destruct (modify_exposure_maximum s max Hd Htype Hstep Hdef)
      as (pre & e & Hs & Hmax & Hpre & Hidle).
    rewrite Hs. cbn [exposure set_exposure cur_mode client set_client pm
                     adapter xfers extend].
    repeat split; try assumption.
    exists pre. split; [reflexivity|]. split; [exact Hpre|].
    intros _. exact Hidle.
Qed.

(** C6. [s5k3l6_set_ctrl] for a new vertical blanking [v], when the
    exposure control is an integer control of 32-bit quantities whose
    default fits under the new maximum: the maximum of the exposure
    control becomes [height + v - 4].  The frame length register 0x0340 is
    written exactly when [pm_runtime_get_if_in_use] does not answer 0, that
    is when the device holds a power reference or runtime PM is disabled
    for it: the write is the last transaction, carries [v + height] in 16
    bits (in front of it at most the exposure register, when the exposure
    had to be moved into its new range), and its result is the result of
    the call.  With runtime PM enabled and no reference held nothing is
    written and the result is 0.  With runtime PM enabled the usage count
    is as before. *)
Theorem s5k3l6_set_ctrl_vblank_effect :
  forall (s : s5k3l6) (v : Z),
    let h := height (cur_mode s) in
    is_menu (ctrl_type (exposure s)) = false ->
    0 < step (exposure s) < 2 ^ 32 ->
    - 2 ^ 31 <= minimum (exposure s) ->
    - 2 ^ 31 <= cur (exposure s) < 2 ^ 31 ->
    minimum (exposure s) <= default_value (exposure s) <= h + v - 4 ->
    0 <= h + v - 4 < 2 ^ 31 ->
    let r := s5k3l6_set_ctrl s V4L2_CID_VBLANK v in
    maximum (exposure (snd r)) = h + v - 4 /\
    (disabled (pm s) = false -> usage_count (pm s) = 0%nat ->
     fst r = 0 /\ client (snd r) = client s /\ pm (snd r) = pm s) /\
    (disabled (pm s) = true \/ (0 < usage_count (pm s))%nat ->
     exists pre : list i2c_event,
       let sent := send_ret (adapter (client s))
                            (length (xfers (client s) ++ pre)) 4 in
       xfers (client (snd r)) =
       xfers (client s) ++ pre
       ++ [MasterSend (write_buf S5K3L6_REG_VTS S5K3L6_REG_VALUE_16BIT
                                 (v + h)) sent] /\
       at_most_exposure_write pre /\
       fst r = if sent =? 4 then 0 else - EIO) /\
    (disabled (pm s) = false ->
     usage_count (pm (snd r)) = usage_count (pm s)).
Proof.
  intros s v h Htype Hstep Hmin Hcur Hdef Hmax r.
  subst r. unfold s5k3l6_set_ctrl. fold h.
  assert (Hmaxv : u32 (h + v - 4) = h + v - 4)
    by (unfold u32; apply Z.mod_small; lia).
  rewrite Hmaxv.
  assert (Hstep0 : step (exposure s) <> 0) by lia.
  destruct (modify_exposure_maximum_cases s (h + v - 4) Htype Hstep0 Hdef)
    as (Hm & Hmode & Had & Hdis & Hpm & pre & Hx & Hpre & Hidle).
  cbv zeta in Hm, Hmode, Had, Hdis, Hpm, Hx.
  set (s2 := snd (__v4l2_ctrl_modify_range _ _ _ _ _ _ _ _)) in *.
  destruct (s5k3l6_set_ctrl_write_vblank_cases s2 v)
    as (We & Wpm & Widle & Wlive).
  cbv zeta in We, Wpm, Widle, Wlive.
  assert (Hvts : u32 (v + h) = v + h)
    by (unfold u32; apply Z.mod_small; lia).
  rewrite Hmode in Wlive. fold h in Wlive. rewrite Hvts in Wlive.
  split; [now rewrite We|]. split; [|split].
  - intros Hen Hz.
    rewrite Widle by (rewrite ?Hdis, ?Hpm; assumption). cbn [fst snd].
    split; [reflexivity|]. split; [|now apply Hpm].
    specialize (Hidle Hen Hz). subst pre. rewrite app_nil_r in Hx.
    destruct (client s2) as [a2 x2], (client s) as [a0 x0].
    cbn [adapter xfers] in Had, Hx. now subst.
  - intros Hlive.
    assert (Hlive2 : disabled (pm s2) = true
                     \/ (0 < usage_count (pm s2))%nat).
    { destruct Hlive as [Hd|Hu]; [left; now rewrite Hdis|].
      destruct (disabled (pm s)) eqn:Hd; [left; exact Hdis|].
      right. now rewrite Hpm. }
    destruct (Wlive Hlive2) as (Wret & Wx).
    exists pre. cbv zeta.
    unfold xfer_index in Wret, Wx. rewrite Had, Hx in Wret, Wx.
    split; [|split; [exact Hpre|exact Wret]].
    rewrite Wx. now rewrite <- app_assoc.
  - intros Hen. rewrite Wpm by (now rewrite Hdis). now rewrite Hpm.
Qed.

Lemma s5k3l6_set_ctrl_vblank_effect_witness :
  let s := snd (pm_runtime_get_sync (s5k3l6_probe (ack_all []) board 0)) in
  maximum (exposure (snd (s5k3l6_set_ctrl s V4L2_CID_VBLANK 5000))) = 8116 /\
  xfers (client (snd (s5k3l6_set_ctrl s V4L2_CID_VBLANK 5000)))
  = [MasterSend [0x03; 0x40; 0x1f; 0xb8] 4].
Proof.
  intros s.
  destruct (s5k3l6_set_ctrl_vblank_effect s 5000) as (Hmax & _ & _ & _).
  - reflexivity.
  - vm_compute. split; reflexivity.
  - vm_compute. discriminate.
  - vm_compute. split; [discriminate|reflexivity].
  - vm_compute. split; discriminate.
  - vm_compute. split; [discriminate|reflexivity].
  - split; [rewrite Hmax; vm_compute; reflexivity|].
    vm_compute. reflexivity.
Defined.

(** C6 as stated fails while runtime PM is disabled for the device (after
    [pm_runtime_disable] in [s5k3l6_remove], before [pm_runtime_enable] in
    [s5k3l6_probe]): the usage count is 0, no power reference is held, yet
    [pm_runtime_get_if_in_use] answers [-EINVAL], the driver tests it
    against 0 only, and the frame length register is written. *)
Lemma s5k3l6_set_ctrl_vblank_written_without_reference :
  let s := set_pm (s5k3l6_probe (ack_all []) board 0)
                  {| disabled := true; usage_count := 0; resume_ret := 0 |} in
  let r := s5k3l6_set_ctrl s V4L2_CID_VBLANK 5000 in
  usage_count (pm s) = 0%nat /\
  fst (pm_runtime_get_if_in_use s) = - EINVAL /\
  xfers (client s) = [] /\
  fst r = 0 /\
  xfers (client (snd r)) = [MasterSend [0x03; 0x40; 0x1f; 0xb8] 4] /\
  usage_count (pm (snd r)) = 0%nat.
Proof. vm_compute. repeat split; reflexivity. Qed.

(** * The streaming-enable sequence *)

(** Once the register program and the replay of the controls have gone
    through, [__s5k3l6_start_stream] issues three one-byte writes, 0x3C1E
    to 1, 0x0100 to 1, 0x3C1E to 0, in this order, and returns 0 whatever
    the link reports for them. *)
Lemma start_stream_enable_sequence (s sa sb : s5k3l6) :
  dev_write_array (s5k3l6_set_power s 1)
                  (reg_list (cur_mode (s5k3l6_set_power s 1))) = (0, sa) ->
  v4l2_ctrl_handler_setup sa = (0, sb) ->
  exists r1 r2 r3 : Z,
    __s5k3l6_start_stream s =
    (0, set_client sb
          (extend (client sb)
             [MasterSend [0x3C; 0x1E; 0x01] r1;
              MasterSend [0x01; 0x00; 0x01] r2;
              MasterSend [0x3C; 0x1E; 0x00] r3])).
Proof.
  intros Hprog Hsetup. unfold __s5k3l6_start_stream. cbv zeta.
  rewrite Hprog. cbv beta iota. change (0 =? 0) with true. simpl negb.
  cbv iota. rewrite Hsetup. cbv beta iota. change (0 =? 0) with true.
  simpl negb. cbv iota.
  do 3 (rewrite dev_write_reg_eq by (unfold S5K3L6_REG_VALUE_08BIT; lia);
        cbv beta iota zeta).
  change (write_buf S5K3L6_REG_STREAM_ON S5K3L6_REG_VALUE_08BIT
                    S5K3L6_MODE_STREAMING) with [0x3C; 0x1E; 0x01].
  change (write_buf S5K3L6_REG_CTRL_MODE S5K3L6_REG_VALUE_08BIT
                    S5K3L6_MODE_STREAMING) with [0x01; 0x00; 0x01].
  change (write_buf S5K3L6_REG_STREAM_ON S5K3L6_REG_VALUE_08BIT
                    S5K3L6_MODE_SW_STANDBY) with [0x3C; 0x1E; 0x00].
  do 3 eexists. f_equal.
  unfold set_client, extend, record_xfer.
  cbn [client exposure anal_gain hblank vblank pixel_rate link_freq
       test_pattern power streaming power_on cur_mode pm hw adapter xfers].
  rewrite <- !app_assoc. reflexivity.
Qed.

(** C4 at a link that does not acknowledge transaction 133, the write of
    the mode-control register 0x0100: the three writes of the enable
    sequence are issued in the stated order, the second one fails, and
    [s5k3l6_s_stream] still returns 0 with the streaming flag set. *)
Theorem s5k3l6_s_stream_ignores_enable_failure :
  let s := s5k3l6_probe (nack_at 133) board 0 in
  fst (s5k3l6_s_stream s 1) = 0 /\
  streaming (snd (s5k3l6_s_stream s 1)) = true /\
  skipn 132 (xfers (client (snd (s5k3l6_s_stream s 1)))) =
  [MasterSend [0x3C; 0x1E; 0x01] 3;
   MasterSend [0x01; 0x00; 0x01] (-121);
   MasterSend [0x3C; 0x1E; 0x00] 3].
Proof. vm_compute. repeat split; reflexivity. Qed.

(** * The exposure limit across a mode change *)

(** C1 at the sequence: probe, vertical blanking set to 5000 (accepted in
    the 4208x3120 mode), active format set to 2104x1560.  The blanking
    stays 5000, which is inside the range of the new mode, so the
    framework has no change to report and the maximum of the exposure
    control stays 8116, the value computed for the old height; the limit
    for the new mode is 1560 + 5000 - 4 = 6556.  An exposure of 8000 is
    then accepted as it is. *)
Theorem exposure_maximum_stale_after_set_fmt :
  let s0 := s5k3l6_probe (ack_all []) board 0 in
  let s1 := snd (v4l2_s_ctrl_vblank s0 5000) in
  let s2 := snd (fst (fst (s5k3l6_set_fmt true s1 no_try
                             (request 2104 1560 V4L2_SUBDEV_FORMAT_ACTIVE)))) in
  let s3 := snd (v4l2_s_ctrl_exposure s2 8000) in
  minimum (vblank s0) <= 5000 <= maximum (vblank s0) /\
  cur_mode s2 = mode_2104x1560 /\
  cur (vblank s2) = 5000 /\
  minimum (vblank s2) <= cur (vblank s2) <= maximum (vblank s2) /\
  maximum (exposure s2) = 8116 /\
  height (cur_mode s2) + cur (vblank s2) - 4 = 6556 /\
  cur (exposure s3) = 8000.
Proof.
  vm_compute. repeat split; try reflexivity; discriminate.
Qed.

(** * Register encoding *)

Lemma lor_shiftl_byte (a b : Z) :
  0 <= b < 256 -> Z.lor (Z.shiftl a 8) b = a * 256 + b.
Proof.
  intros Hb. rewrite Z.shiftl_mul_pow2 by lia. change (2 ^ 8) with 256.
  assert (Hland : Z.land (a * 256) b = 0); [|
    now rewrite <- (Z.lxor_lor _ _ Hland), (Z.add_nocarry_lxor _ _ Hland)].
  apply Z.bits_inj'. intros n Hn. rewrite Z.land_spec, Z.bits_0.
  destruct (Z_lt_le_dec n 8) as [Hlow|Hhigh].
  - change 256 with (2 ^ 8). rewrite Z.mul_pow2_bits_low by lia. reflexivity.
  - replace b with (b mod 2 ^ 8) by (apply Z.mod_small; simpl; lia).
    rewrite Z.mod_pow2_bits_high by lia. apply andb_false_r.
Qed.

Lemma land_byte (x : Z) : Z.land x 0xff = x mod 256.
Proof. change 0xff with (Z.ones 8). now rewrite Z.land_ones by lia. Qed.

Lemma be32_to_cpu_be_value (bytes : list Z) :
  Forall (fun b => 0 <= b < 256) bytes ->
  be32_to_cpu bytes = be_value bytes.
Proof.
  intros Hb. unfold be32_to_cpu, be_value. generalize 0 as acc.
  induction Hb as [|b bytes Hb1 Hb2 IH]; intros acc; cbn [fold_left];
    [reflexivity|].
  rewrite (lor_shiftl_byte acc b Hb1). apply IH.
Qed.

Lemma be_value_bound (bytes : list Z) :
  Forall (fun b => 0 <= b < 256) bytes ->
  0 <= be_value bytes < 256 ^ Z.of_nat (length bytes).
Proof.
  unfold be_value.
  assert (G : forall acc n, 0 <= acc < 256 ^ Z.of_nat n ->
            Forall (fun b => 0 <= b < 256) bytes ->
            0 <= fold_left (fun acc b => acc * 256 + b) bytes acc
            < 256 ^ Z.of_nat (n + length bytes)).
  { induction bytes as [|b bytes IH]; intros acc n Hacc Hb;
      cbn [fold_left length].
    - now rewrite Nat.add_0_r.
    - inversion Hb as [|? ? Hb1 Hb2]; subst.
      replace (n + S (length bytes))%nat with (S n + length bytes)%nat by lia.
      apply IH; [|assumption].
      rewrite Nat2Z.inj_succ, Z.pow_succ_r by lia. lia. }
  intros Hb. apply (G 0 0%nat); [simpl; lia|assumption].
Qed.

(** The bytes of [cpu_to_be32] read back as the value, for a [u32]. *)
Lemma cpu_to_be32_value (v : Z) :
  0 <= v < 2 ^ 32 ->
  forall k : nat, (k <= 4)%nat ->
    be_value (skipn (4 - k) (cpu_to_be32 v)) = v mod 256 ^ Z.of_nat k.
Proof.
  intros Hv k Hk. unfold cpu_to_be32.
  rewrite !land_byte, !Z.shiftr_div_pow2 by lia.
  change (2 ^ 24) with (256 * 256 * 256). change (2 ^ 16) with (256 * 256).
  change (2 ^ 8) with 256.
  destruct k as [|[|[|[|[|k]]]]]; try lia; unfold be_value; simpl fold_left;
    simpl Z.of_nat.
  - now rewrite Z.mod_1_r.
  - replace (256 ^ 1) with 256 by reflexivity. lia.
  - replace (256 ^ 2) with (256 * 256) by reflexivity.
    rewrite (Z.rem_mul_r v 256 256) by lia. lia.
  - replace (256 ^ 3) with (256 * (256 * 256)) by reflexivity.
    rewrite (Z.rem_mul_r v 256 (256 * 256)) by lia.
    rewrite (Z.rem_mul_r (v / 256) 256 256) by lia.
    rewrite !Z.div_div by lia.
    replace (256 * 256) with 65536 by reflexivity. lia.
  - replace (256 ^ 4) with (256 * (256 * (256 * 256))) by reflexivity.
    rewrite (Z.rem_mul_r v 256 (256 * (256 * 256))) by lia.
    rewrite (Z.rem_mul_r (v / 256) 256 (256 * 256)) by lia.
    rewrite (Z.rem_mul_r (v / 256 / 256) 256 256) by lia.
    rewrite !Z.div_div by lia.
    replace (256 * 256 * 256) with 16777216 by reflexivity.
    replace (256 * 256) with 65536 by reflexivity. lia.
Qed.

Lemma cpu_to_be32_bytes (v : Z) :
  Forall (fun b => 0 <= b < 256) (cpu_to_be32 v).
Proof.
  unfold cpu_to_be32. repeat constructor; rewrite land_byte;
    apply Z.mod_pos_bound; lia.
Qed.

Lemma Forall_skipn {A : Type} (P : A -> Prop) (n : nat) (l : list A) :
  Forall P l -> Forall P (skipn n l).
Proof.
  intros H. rewrite <- (firstn_skipn n l) in H.
  now apply Forall_app in H.
Qed.

Lemma Forall_firstn {A : Type} (P : A -> Prop) (n : nat) (l : list A) :
  Forall P l -> Forall P (firstn n l).
Proof.
  intros H. rewrite <- (firstn_skipn n l) in H.
  now apply Forall_app in H.
Qed.

Lemma be_value_zeros (n : nat) (l : list Z) :
  be_value (repeat 0 n ++ l) = be_value l.
Proof.
  unfold be_value. induction n as [|n IH]; [reflexivity|].
  cbn [repeat app fold_left]. exact IH.
Qed.

(** X1. A write of [len <= 4] bytes puts one message of [len + 2] bytes on
    the link: the register address in the first two bytes and the low
    [len] bytes of the value behind it, both most significant byte first.
    The result is 0 when the I2C core reports all [len + 2] bytes sent and
    [-EIO] for every other answer of the core.  A longer write is refused
    with [-EINVAL] before anything is sent. *)
Theorem s5k3l6_write_reg_message :
  forall (c : i2c_client) (reg len val : Z),
    0 <= reg < 2 ^ 16 -> 0 <= val < 2 ^ 32 ->
    (4 < len -> s5k3l6_write_reg c reg len val = (- EINVAL, c)) /\
    (0 <= len <= 4 ->
     let sent := send_ret (adapter c) (xfer_index c) (len + 2) in
     (sent = len + 2 -> fst (s5k3l6_write_reg c reg len val) = 0) /\
     (sent <> len + 2 -> fst (s5k3l6_write_reg c reg len val) = - EIO) /\
     adapter (snd (s5k3l6_write_reg c reg len val)) = adapter c /\
     exists msg : list Z,
       xfers (snd (s5k3l6_write_reg c reg len val))
       = xfers c ++ [MasterSend msg sent] /\
       Z.of_nat (length msg) = len + 2 /\
       be_value (firstn 2 msg) = reg /\
       be_value (skipn 2 msg) = val mod 256 ^ len).
Proof.
  intros c reg len val Hreg Hval. split.
  - intros Hlen. unfold s5k3l6_write_reg.
    destruct (len >? 4) eqn:E; [reflexivity|lia].
  - intros Hlen. rewrite s5k3l6_write_reg_eq by assumption. cbv zeta.
    cbn [fst snd adapter record_xfer xfers].
    set (sent := send_ret _ _ _).
    split; [intros E; apply Z.eqb_eq in E; now rewrite E|].
    split; [intros E; apply Z.eqb_neq in E; now rewrite E|].
    split; [reflexivity|].
    eexists. split; [reflexivity|]. split; [|split].
    + now apply write_buf_length.
    + unfold write_buf, be_value. cbn [app firstn fold_left].
      rewrite land_byte, Z.shiftr_div_pow2 by lia.
      change (2 ^ 8) with 256. change (2 ^ 16) with (256 * 256) in Hreg.
      rewrite (Z.mod_small (reg / 256)) by
        (split; [apply Z.div_pos; lia|apply Z.div_lt_upper_bound; lia]).
      pose proof (Z.div_mod reg 256). lia.
    + unfold write_buf. cbn [app skipn].
      replace (Z.to_nat (4 - len)) with (4 - Z.to_nat len)%nat by lia.
      rewrite cpu_to_be32_value by (assumption || lia).
      now rewrite Z2Nat.id by lia.
Qed.

Lemma s5k3l6_write_reg_message_witness :
  fst (s5k3l6_write_reg {| adapter := ack_all []; xfers := [] |}
                        S5K3L6_REG_VTS 2 0x12345678) = 0 /\
  fst (s5k3l6_write_reg {| adapter := nack_at 0; xfers := [] |}
                        S5K3L6_REG_VTS 2 0x12345678) = - EIO /\
  xfers (snd (s5k3l6_write_reg {| adapter := ack_all []; xfers := [] |}
                               S5K3L6_REG_VTS 2 0x12345678))
  = [MasterSend [0x03; 0x40; 0x56; 0x78] 4] /\
  be_value [0x56; 0x78] = 0x12345678 mod 256 ^ 2.
Proof.
  destruct (s5k3l6_write_reg_message {| adapter := ack_all []; xfers := [] |}
              S5K3L6_REG_VTS 2 0x12345678) as [_ H].
  - unfold S5K3L6_REG_VTS. lia.
  - lia.
  - destruct (s5k3l6_write_reg_message {| adapter := nack_at 0; xfers := [] |}
                S5K3L6_REG_VTS 2 0x12345678) as [_ H'].
    + unfold S5K3L6_REG_VTS. lia.
    + lia.
    + destruct H as (Hok & _); [lia|].
      destruct H' as (_ & Hfail & _); [lia|].
      split; [apply Hok; reflexivity|].
      split; [apply Hfail; vm_compute; discriminate|].
      split; [vm_compute; reflexivity|vm_compute; reflexivity].
Defined.

(** X2. A read of [len] bytes: [len = 0] and [len > 4] are refused with
    [-EINVAL] without a transaction.  Otherwise exactly one transfer of two
    messages is issued, the register address most significant byte first
    and a read of [len] bytes.  When the I2C core reports both messages
    transferred the result is 0 and the value is the big-endian number
    made of the first [len] bytes received, which lies in
    [[0, 256^len)]; for every other answer of the core the result is
    [-EIO] and [*val] is left as it was. *)
Theorem s5k3l6_read_reg_result :
  forall (c : i2c_client) (reg len val0 : Z),
    let ret := fst (fst (s5k3l6_read_reg c reg len val0)) in
    let v := snd (fst (s5k3l6_read_reg c reg len val0)) in
    let c' := snd (s5k3l6_read_reg c reg len val0) in
    let done := transfer_ret (adapter c) (xfer_index c) in
    (len = 0 \/ 4 < len -> ret = - EINVAL /\ v = val0 /\ c' = c) /\
    (1 <= len <= 4 ->
     xfers c' = xfers c ++ [Transfer (cpu_to_be16 reg) len done] /\
     adapter c' = adapter c /\
     (done = 2 ->
      ret = 0 /\ 0 <= v < 256 ^ len /\
      v = be_value (firstn (Z.to_nat len)
                      (map u8 (rx_bytes (adapter c) (xfer_index c))
                       ++ repeat 0 (Z.to_nat len)))) /\
     (done <> 2 -> ret = - EIO /\ v = val0)).
Proof.
  intros c reg len val0. cbv zeta. unfold s5k3l6_read_reg. split.
  - intros H.
    assert (E : (len >? 4) || (len =? 0) = true).
    { apply orb_true_iff. destruct H; [right|left]; lia. }
    rewrite E. repeat split; reflexivity.
  - intros H.
    assert (E : (len >? 4) || (len =? 0) = false).
    { apply orb_false_iff. split; lia. }
    rewrite E. unfold i2c_transfer, transfer_ret.
    set (r := match xfer_result (adapter c) (xfer_index c) with
              | Some r => r | None => 2 end).
    destruct (r =? 2) eqn:Er; cbn [negb fst snd].
    + split; [reflexivity|]. split; [reflexivity|].
      split; [|intros Hne; apply Z.eqb_eq in Er; contradiction].
      intros _. split; [reflexivity|].
      set (bytes := place_be _ _).
      assert (Hb : Forall (fun b => 0 <= b < 256) bytes).
      { subst bytes. unfold place_be. apply Forall_app. split.
        - apply Forall_forall. intros x Hx. apply repeat_spec in Hx. lia.
        - apply Forall_firstn. apply Forall_app. split.
          + apply Forall_forall. intros x Hx. apply in_map_iff in Hx.
            destruct Hx as (y & <- & _). unfold u8.
            apply Z.mod_pos_bound. lia.
          + apply Forall_forall. intros x Hx. apply repeat_spec in Hx. lia. }
      rewrite (be32_to_cpu_be_value bytes Hb). subst bytes. unfold place_be.
      rewrite be_value_zeros.
      set (l := firstn _ _).
      assert (Hl : length l = Z.to_nat len).
      { subst l. rewrite length_firstn, length_app, repeat_length. lia. }
      assert (Hbl : Forall (fun b => 0 <= b < 256) l).
      { unfold place_be in Hb. apply Forall_app in Hb. apply Hb. }
      pose proof (be_value_bound l Hbl) as Hbound.
      rewrite Hl, Z2Nat.id in Hbound by lia. split; [exact Hbound|].
      reflexivity.
    + split; [reflexivity|]. split; [reflexivity|].
      split; [intros He; apply Z.eqb_neq in Er; contradiction|].
      intros _. split; reflexivity.
Qed.

Lemma s5k3l6_read_reg_result_witness :
  s5k3l6_read_reg {| adapter := ack_all [0x30; 0xc6]; xfers := [] |}
                  S5K3L6_REG_CHIP_ID 2 0
  = (0, CHIP_ID, {| adapter := ack_all [0x30; 0xc6];
                    xfers := [Transfer [0x00; 0x00] 2 2] |}) /\
  0 <= CHIP_ID < 256 ^ 2 /\
  fst (fst (s5k3l6_read_reg {| adapter := nack_at 0; xfers := [] |}
                            S5K3L6_REG_CHIP_ID 2 7)) = - EIO /\
  snd (fst (s5k3l6_read_reg {| adapter := nack_at 0; xfers := [] |}
                            S5K3L6_REG_CHIP_ID 2 7)) = 7.
Proof.
  split; [vm_compute; reflexivity|].
  destruct (proj2 (s5k3l6_read_reg_result
                     {| adapter := ack_all [0x30; 0xc6]; xfers := [] |}
                     S5K3L6_REG_CHIP_ID 2 0)) as (_ & _ & Hok & _); [lia|].
  destruct (proj2 (s5k3l6_read_reg_result
                     {| adapter := nack_at 0; xfers := [] |}
                     S5K3L6_REG_CHIP_ID 2 7)) as (_ & _ & _ & Hfail); [lia|].
  destruct (Hok eq_refl) as (_ & Hrange & _).
  destruct Hfail as (H1 & H2); [vm_compute; discriminate|].
  split; [exact Hrange|]. split; [exact H1|exact H2].
Defined.

(** X3. Round trip over the link: when the device answers a read of [len]
    bytes with the data bytes that a write of [val] with the same length
    carries, the read returns the low [len] bytes of [val]. *)
Theorem s5k3l6_write_read_round_trip :
  forall (c : i2c_client) (reg len val val0 : Z),
    1 <= len <= 4 -> 0 <= val < 2 ^ 32 ->
    xfer_result (adapter c) (xfer_index c) = None ->
    rx_bytes (adapter c) (xfer_index c) = skipn 2 (write_buf reg len val) ->
    fst (s5k3l6_read_reg c reg len val0) = (0, val mod 256 ^ len).
Proof.
  intros c reg len val val0 Hlen Hval Hok Hrx.
  unfold s5k3l6_read_reg.
  assert (E : (len >? 4) || (len =? 0) = false).
  { apply orb_false_iff. split; lia. }
  rewrite E. unfold i2c_transfer. rewrite Hok, Hrx.
  change (2 =? 2) with true. cbn [negb fst snd]. f_equal.
  unfold write_buf. cbn [app skipn].
  set (data := skipn (Z.to_nat (4 - len)) (cpu_to_be32 val)).
  assert (Hdata : Forall (fun b => 0 <= b < 256) data).
  { apply Forall_skipn, cpu_to_be32_bytes. }
  assert (Hu8 : map u8 data = data).
  { clear -Hdata. induction Hdata as [|b l Hb Hl IH]; [reflexivity|].
    cbn [map]. rewrite IH. unfold u8. now rewrite Z.mod_small by (simpl; lia). }
  assert (Hlen' : length data = Z.to_nat len).
  { subst data. rewrite length_skipn. unfold cpu_to_be32. simpl length. lia. }
  rewrite Hu8. unfold place_be.
  rewrite firstn_app, <- Hlen', firstn_all, Nat.sub_diag, firstn_O, app_nil_r.
  rewrite be32_to_cpu_be_value.
  - rewrite be_value_zeros. subst data.
    replace (Z.to_nat (4 - len)) with (4 - Z.to_nat len)%nat by lia.
    rewrite cpu_to_be32_value by (assumption || lia).
    now rewrite Z2Nat.id by lia.
  - apply Forall_app. split; [|assumption].
    apply Forall_forall. intros x Hx. apply repeat_spec in Hx. lia.
Qed.

Lemma s5k3l6_write_read_round_trip_witness :
  fst (s5k3l6_read_reg {| adapter := ack_all [0x0c; 0xb0]; xfers := [] |}
                       S5K3L6_REG_EXPOSURE 2 0)
  = (0, 0x0cb0).
Proof.
  exact (s5k3l6_write_read_round_trip
           {| adapter := ack_all [0x0c; 0xb0]; xfers := [] |}
           S5K3L6_REG_EXPOSURE 2 0x0cb0 0
           ltac:(lia) ltac:(lia) eq_refl eq_refl).
Defined.

(** * What control operations leave alone *)

Lemma ctrl_frame_refl (s : s5k3l6) : ctrl_frame s s.
Proof.
  unfold ctrl_frame. repeat split; try reflexivity.
  exists []. now rewrite app_nil_r.
Qed.

Lemma ctrl_frame_trans (s1 s2 s3 : s5k3l6) :
  ctrl_frame s1 s2 -> ctrl_frame s2 s3 -> ctrl_frame s1 s3.
Proof.
  unfold ctrl_frame.
  intros (A1 & A2 & A3 & A4 & A5 & A6 & A7 & A8 & A9 & A10 & A11 & A12 &
          A13 & A14 & A15 & es1 & A16)
         (B1 & B2 & B3 & B4 & B5 & B6 & B7 & B8 & B9 & B10 & B11 & B12 &
          B13 & B14 & B15 & es2 & B16).
  repeat split; try congruence.
  - intros Hd. rewrite B15, A15; congruence.
  - exists (es1 ++ es2). rewrite B16, A16. now rewrite app_assoc.
Qed.

Ltac frame_fields :=
  unfold ctrl_frame;
  cbn [client exposure anal_gain hblank vblank pixel_rate link_freq
       test_pattern power streaming power_on cur_mode pm hw
       set_client set_exposure set_pm set_usage_count pm_runtime_put
       disabled usage_count resume_ret adapter xfers record_xfer
       Nat.pred];
  repeat split; try reflexivity.

Lemma ctrl_frame_set_exposure (s : s5k3l6) (e : v4l2_ctrl) :
  ctrl_frame s (set_exposure s e).
Proof. frame_fields. exists []. now rewrite app_nil_r. Qed.

Lemma ctrl_frame_dev_write_reg (s : s5k3l6) (reg len v : Z) :
  0 <= len <= 4 -> ctrl_frame s (snd (dev_write_reg s reg len v)).
Proof.
  intros H. rewrite dev_write_reg_eq by assumption. cbv zeta. cbn [snd].
  frame_fields. eexists. reflexivity.
Qed.

Lemma ctrl_frame_enable_test_pattern (s : s5k3l6) (pattern : Z) :
  ctrl_frame s (snd (s5k3l6_enable_test_pattern s pattern)).
Proof.
  unfold s5k3l6_enable_test_pattern. apply ctrl_frame_dev_write_reg.
  unfold S5K3L6_REG_VALUE_08BIT. lia.
Qed.

(** The register write of a control: a usage count is taken for the
    duration of the write and given back. *)
Lemma ctrl_frame_set_ctrl_write (s : s5k3l6) (id : v4l2_cid) (v : Z) :
  ctrl_frame s (snd (s5k3l6_set_ctrl_write s id v)).
Proof.
  unfold s5k3l6_set_ctrl_write, pm_runtime_get_if_in_use.
  destruct (disabled (pm s)) eqn:Hd.
  - change (- EINVAL =? 0) with false. cbv iota.
    destruct id; unfold s5k3l6_enable_test_pattern;
      try rewrite dev_write_reg_eq
        by (unfold S5K3L6_REG_VALUE_16BIT, S5K3L6_REG_VALUE_08BIT; lia);
      cbv beta iota zeta; cbn [snd]; frame_fields;
      solve [ intros Hd'; congruence
            | eexists; reflexivity
            | exists []; now rewrite app_nil_r ].
  - destruct (0 <? usage_count (pm s))%nat.
    + change (1 =? 0) with false. cbv iota.
      destruct id; unfold s5k3l6_enable_test_pattern;
        try rewrite dev_write_reg_eq
          by (unfold S5K3L6_REG_VALUE_16BIT, S5K3L6_REG_VALUE_08BIT; lia);
        cbv beta iota zeta; cbn [snd]; frame_fields;
        solve [ eexists; reflexivity
              | exists []; now rewrite app_nil_r ].
    + change (0 =? 0) with true. cbv iota. cbn [snd]. apply ctrl_frame_refl.
Qed.

Lemma ctrl_frame_set_exposure_value (s : s5k3l6) (v : Z) :
  ctrl_frame s (snd (set_ctrl exposure set_exposure exposure_s_ctrl s v)).
Proof.
  unfold set_ctrl. destruct (validate_new (exposure s) v) as [ret new].
  destruct (negb (ret =? 0)); cbn [snd]; [apply ctrl_frame_refl|].
  unfold try_or_set_cluster.
  destruct (new =? cur (exposure s)); cbn [snd]; [apply ctrl_frame_refl|].
  unfold exposure_s_ctrl.
  pose proof (ctrl_frame_set_ctrl_write s V4L2_CID_EXPOSURE new) as Hw.
  destruct (s5k3l6_set_ctrl_write s V4L2_CID_EXPOSURE new) as [r s'].
  cbn [snd] in Hw.
  destruct (negb (r =? 0)); cbn [snd]; [exact Hw|].
  eapply ctrl_frame_trans; [exact Hw|apply ctrl_frame_set_exposure].
Qed.

Lemma ctrl_frame_modify_exposure (s : s5k3l6) (min max stp def : Z) :
  ctrl_frame s
    (snd (__v4l2_ctrl_modify_range exposure set_exposure exposure_s_ctrl s
            min max stp def)).
Proof.
  unfold __v4l2_ctrl_modify_range.
  destruct (negb (check_range _ min max stp def =? 0)); cbn [snd];
    [apply ctrl_frame_refl|].
  set (s1 := set_exposure s _).
  assert (H1 : ctrl_frame s s1) by apply ctrl_frame_set_exposure.
  destruct (validate_new (exposure s1) (cur (exposure s1))) as [err new].
  destruct (negb (_ =? cur (exposure s1))); cbn [snd]; [|exact H1].
  eapply ctrl_frame_trans; [exact H1|apply ctrl_frame_set_exposure_value].
Qed.

Lemma ctrl_frame_set_ctrl (s : s5k3l6) (id : v4l2_cid) (v : Z) :
  ctrl_frame s (snd (s5k3l6_set_ctrl s id v)).
Proof.
  unfold s5k3l6_set_ctrl. cbv zeta.
  destruct id; try apply ctrl_frame_set_ctrl_write.
  eapply ctrl_frame_trans; [apply ctrl_frame_modify_exposure|].
  apply ctrl_frame_set_ctrl_write.
Qed.

Lemma ctrl_frame_handler_setup (s : s5k3l6) :
  ctrl_frame s (snd (v4l2_ctrl_handler_setup s)).
Proof.
  unfold v4l2_ctrl_handler_setup.
  pose proof (ctrl_frame_set_ctrl s V4L2_CID_VBLANK (cur (vblank s))) as H1.
  destruct (s5k3l6_set_ctrl s V4L2_CID_VBLANK (cur (vblank s))) as [r1 s1].
  cbn [snd] in H1. destruct (negb (r1 =? 0)); [exact H1|].
  pose proof (ctrl_frame_set_ctrl s1 V4L2_CID_EXPOSURE (cur (exposure s1)))
    as H2.
  destruct (s5k3l6_set_ctrl s1 V4L2_CID_EXPOSURE (cur (exposure s1)))
    as [r2 s2].
  cbn [snd] in H2. destruct (negb (r2 =? 0));
    [eapply ctrl_frame_trans; eassumption|].
  pose proof (ctrl_frame_set_ctrl s2 V4L2_CID_ANALOGUE_GAIN
                (cur (anal_gain s2))) as H3.
  destruct (s5k3l6_set_ctrl s2 V4L2_CID_ANALOGUE_GAIN (cur (anal_gain s2)))
    as [r3 s3].
  cbn [snd] in H3. destruct (negb (r3 =? 0));
    [eapply ctrl_frame_trans; [eapply ctrl_frame_trans|]; eassumption|].
  eapply ctrl_frame_trans; [|apply ctrl_frame_set_ctrl].
  eapply ctrl_frame_trans; [eapply ctrl_frame_trans|]; eassumption.
Qed.

(** * The stream state machine *)

Lemma write_array_xfers (regs : list regval) (c : i2c_client) :
  exists es, xfers (snd (s5k3l6_write_array c regs)) = xfers c ++ es.
Proof.
  revert c; induction regs as [|r regs IH]; intros c; simpl.
  - exists []. now rewrite app_nil_r.
  - destruct (addr r =? REG_NULL); [exists []; now rewrite app_nil_r|].
    rewrite s5k3l6_write_reg_eq by (unfold S5K3L6_REG_VALUE_16BIT; lia).
    cbv zeta. set (sent := send_ret _ _ _). set (c' := record_xfer _ _).
    destruct (sent =? S5K3L6_REG_VALUE_16BIT + 2).
    + change (0 =? 0) with true. cbv iota.
      destruct (IH c') as [es Hes].
      eexists. rewrite Hes. subst c'. cbn [xfers record_xfer].
      rewrite <- app_assoc. reflexivity.
    + change (- EIO =? 0) with false. cbv iota. cbn [snd].
      eexists. reflexivity.
Qed.

Lemma ctrl_frame_dev_write_array (s : s5k3l6) (regs : list regval) :
  ctrl_frame s (snd (dev_write_array s regs)).
Proof.
  unfold dev_write_array.
  pose proof (write_array_adapter regs (client s)) as Ha.
  pose proof (write_array_xfers regs (client s)) as Hx.
  destruct (s5k3l6_write_array (client s) regs) as [ret c]. cbn [snd] in *.
  frame_fields; assumption.
Qed.

(** Behind [s5k3l6_set_power], the start sequence only adds transactions
    and adjusts the exposure control. *)
Lemma ctrl_frame_start_stream (s : s5k3l6) :
  ctrl_frame (s5k3l6_set_power s 1) (snd (__s5k3l6_start_stream s)).
Proof.
  unfold __s5k3l6_start_stream. cbv zeta.
  set (s0 := s5k3l6_set_power s 1).
  pose proof (ctrl_frame_dev_write_array s0 (reg_list (cur_mode s0))) as H1.
  destruct (dev_write_array s0 (reg_list (cur_mode s0))) as [r1 s1].
  cbn [snd] in H1. destruct (negb (r1 =? 0)); [exact H1|].
  pose proof (ctrl_frame_handler_setup s1) as H2.
  destruct (v4l2_ctrl_handler_setup s1) as [r2 s2]. cbn [snd] in H2.
  destruct (negb (r2 =? 0)); [eapply ctrl_frame_trans; eassumption|].
  assert (Hlen : 0 <= S5K3L6_REG_VALUE_08BIT <= 4)
    by (unfold S5K3L6_REG_VALUE_08BIT; lia).
  pose proof (ctrl_frame_dev_write_reg s2 S5K3L6_REG_STREAM_ON
                S5K3L6_REG_VALUE_08BIT S5K3L6_MODE_STREAMING Hlen) as H3.
  destruct (dev_write_reg s2 S5K3L6_REG_STREAM_ON S5K3L6_REG_VALUE_08BIT
                          S5K3L6_MODE_STREAMING) as [r3 s3]. cbn [snd] in H3.
  pose proof (ctrl_frame_dev_write_reg s3 S5K3L6_REG_CTRL_MODE
                S5K3L6_REG_VALUE_08BIT S5K3L6_MODE_STREAMING Hlen) as H4.
  destruct (dev_write_reg s3 S5K3L6_REG_CTRL_MODE S5K3L6_REG_VALUE_08BIT
                          S5K3L6_MODE_STREAMING) as [r4 s4]. cbn [snd] in H4.
  pose proof (ctrl_frame_dev_write_reg s4 S5K3L6_REG_STREAM_ON
                S5K3L6_REG_VALUE_08BIT S5K3L6_MODE_SW_STANDBY Hlen) as H5.
  destruct (dev_write_reg s4 S5K3L6_REG_STREAM_ON S5K3L6_REG_VALUE_08BIT
                          S5K3L6_MODE_SW_STANDBY) as [r5 s5]. cbn [snd] in H5.
  cbn [snd].
  repeat (eapply ctrl_frame_trans; [eassumption|]). apply ctrl_frame_refl.
Qed.

(** The start sequence seen from outside: flags and usage count as before,
    power status on. *)
Lemma start_stream_outcome (s : s5k3l6) :
  let s' := snd (__s5k3l6_start_stream s) in
  streaming s' = streaming s /\ power_on s' = power_on s /\
  cur_mode s' = cur_mode s /\ status (power s') = 1 /\
  disabled (pm s') = disabled (pm s) /\
  (disabled (pm s) = false -> usage_count (pm s') = usage_count (pm s)).
Proof.
  cbv zeta.
  destruct (ctrl_frame_start_stream s)
    as (B1 & _ & _ & _ & _ & _ & _ & B8 & B9 & B10 & _ & _ & B13 & _ & B15 & _).
  destruct (set_power_frame s 1) as (_ & Hm & Hpm & Hst & Hpo & _).
  cbv zeta in Hm, Hpm, Hst, Hpo.
  rewrite B9, B10, B1, B8, B13, Hst, Hpo, Hm, Hpm.
  repeat split; try reflexivity.
  - apply set_power_status.
  - intros Hd. rewrite B15 by (rewrite Hpm; exact Hd). now rewrite Hpm.
Qed.

(** The stop sequence: one write of the mode-control register, whatever
    it results in, then the power pins off. *)
Lemma stop_stream_outcome (s : s5k3l6) :
  let s' := __s5k3l6_stop_stream s in
  streaming s' = streaming s /\ power_on s' = power_on s /\
  cur_mode s' = cur_mode s /\ pm s' = pm s /\ status (power s') = 0 /\
  client s' = record_xfer (client s)
                (MasterSend [0x01; 0x00; 0x00]
                   (send_ret (adapter (client s)) (xfer_index (client s)) 3)).
Proof.
  cbv zeta. unfold __s5k3l6_stop_stream.
  rewrite dev_write_reg_eq by (unfold S5K3L6_REG_VALUE_08BIT; lia).
  cbv beta iota zeta.
  set (s1 := set_client s _).
  destruct (set_power_frame s1 0) as (Hc & Hm & Hpm & Hst & Hpo & _).
  cbv zeta in Hc, Hm, Hpm, Hst, Hpo.
  rewrite Hc, Hm, Hpm, Hst, Hpo.
  repeat split; try reflexivity. apply set_power_status.
Qed.

(** X4. Whatever the control and the value, [s5k3l6_set_ctrl] changes
    nothing of the device but the exposure control and the link, on which
    it only adds transactions: the current mode, the other controls, the
    power pins, the power and streaming flags stay, and with runtime PM
    enabled the usage count is the one it found. *)
Theorem s5k3l6_set_ctrl_leaves_device :
  forall (s : s5k3l6) (id : v4l2_cid) (v : Z),
    ctrl_frame s (snd (s5k3l6_set_ctrl s id v)).
Proof. intros s id v. apply ctrl_frame_set_ctrl. Qed.

(** X5. A request for the stream state the device is in is answered with 0
    and changes nothing. *)
Theorem s5k3l6_s_stream_same_state :
  forall (s : s5k3l6) (on : Z),
    streaming s = negb (on =? 0) -> s5k3l6_s_stream s on = (0, s).
Proof.
  intros s on H. unfold s5k3l6_s_stream. cbv zeta.
  rewrite H, Bool.eqb_reflx. reflexivity.
Qed.

Lemma s5k3l6_s_stream_same_state_witness :
  s5k3l6_s_stream (s5k3l6_probe (nack_at 0) board 0) 0
  = (0, s5k3l6_probe (nack_at 0) board 0).
Proof.
  apply (s5k3l6_s_stream_same_state (s5k3l6_probe (nack_at 0) board 0) 0).
  vm_compute. reflexivity.
Defined.

(** X6. Stopping a stream never fails: the mode-control register is
    written to standby once, and whatever the link answers the result is
    0, the streaming flag is cleared, the power pins are switched off and
    one usage count is given back. *)
Theorem s5k3l6_s_stream_stop :
  forall (s : s5k3l6),
    streaming s = true ->
    let r := s5k3l6_s_stream s 0 in
    fst r = 0 /\
    streaming (snd r) = false /\
    status (power (snd r)) = 0 /\
    usage_count (pm (snd r)) = Nat.pred (usage_count (pm s)) /\
    exists ret, xfers (client (snd r))
                = xfers (client s) ++ [MasterSend [0x01; 0x00; 0x00] ret].
Proof.
  intros s Hst. cbv zeta. unfold s5k3l6_s_stream. cbv zeta.
  change (negb (0 =? 0)) with false. rewrite Hst. cbn [Bool.eqb].
  destruct (stop_stream_outcome s) as (_ & _ & _ & Hpm & Hpw & Hc).
  cbv zeta in Hpm, Hpw, Hc. cbn [fst snd]. unfold pm_runtime_put.
  cbn [streaming set_streaming power set_pm pm usage_count set_usage_count
       client].
  rewrite Hpm, Hpw, Hc. repeat split; try reflexivity.
  eexists. reflexivity.
Qed.

Lemma s5k3l6_s_stream_stop_witness :
  let s := snd (s5k3l6_s_stream (s5k3l6_probe (nack_at 135) board 0) 1) in
  fst (s5k3l6_s_stream s 0) = 0 /\
  streaming (snd (s5k3l6_s_stream s 0)) = false /\
  skipn 135 (xfers (client (snd (s5k3l6_s_stream s 0))))
  = [MasterSend [0x01; 0x00; 0x00] (-121)].
Proof.
  intros s.
  destruct (s5k3l6_s_stream_stop s) as (H1 & H2 & _).
  - vm_compute. reflexivity.
  - split; [exact H1|]. split; [exact H2|]. vm_compute. reflexivity.
Defined.

(** The two ways a start can end, once the device is not streaming. *)
Lemma s_stream_start_cases (s : s5k3l6) (on : Z) :
  on <> 0 -> streaming s = false ->
  let r := s5k3l6_s_stream s on in
  (fst r = 0 /\ streaming (snd r) = true /\
   usage_count (pm (snd r)) = S (usage_count (pm s)) /\
   status (power (snd r)) = 1 /\ disabled (pm s) = false)
  \/
  (fst r <> 0 /\ streaming (snd r) = false /\
   usage_count (pm (snd r)) = usage_count (pm s)).
Proof.
  intros Hon Hidle. cbv zeta. unfold s5k3l6_s_stream. cbv zeta.
  apply Z.eqb_neq in Hon. rewrite Hon, Hidle. cbn [negb Bool.eqb].
  unfold pm_runtime_get_sync.
  set (s1 := set_pm s _).
  destruct (disabled (pm s)) eqn:Hd.
  - right. change (- EACCES <? 0) with true. cbv iota. cbn [fst snd].
    repeat split; [unfold EACCES; lia|exact Hidle].
  - destruct (resume_ret (pm s) <? 0) eqn:Hres.
    + right. cbn [fst snd]. repeat split; [lia|exact Hidle].
    + destruct (start_stream_outcome s1) as (Hst & _ & _ & Hpw & _ & Hus).
      cbv zeta in Hst, Hpw, Hus. specialize (Hus Hd).
      destruct (__s5k3l6_start_stream s1) as [ret s2]. cbn [snd] in *.
      destruct (ret =? 0) eqn:Hret; cbn [negb fst snd].
      * left. apply Z.eqb_eq in Hret.
        cbn [streaming set_streaming pm power].
        rewrite Hus, Hpw. repeat split; assumption || reflexivity.
      * right. apply Z.eqb_neq in Hret. unfold pm_runtime_put.
        cbn [streaming set_pm pm usage_count set_usage_count].
        rewrite Hus, Hst. repeat split; assumption || reflexivity.
Qed.

(** X7. A stream start is all or nothing for the streaming flag and the
    power reference: when [s5k3l6_s_stream] returns 0 the flag is set, one
    usage count is held and the power pins are on; when it returns an
    error, from the power request, the register program or the replay of
    the controls, the flag stays clear and the usage count is the one
    before the call. *)
Theorem s5k3l6_s_stream_start_all_or_nothing :
  forall (s : s5k3l6) (on : Z),
    on <> 0 -> streaming s = false ->
    let r := s5k3l6_s_stream s on in
    (fst r = 0 ->
     streaming (snd r) = true /\
     usage_count (pm (snd r)) = S (usage_count (pm s)) /\
     status (power (snd r)) = 1) /\
    (fst r <> 0 ->
     streaming (snd r) = false /\
     usage_count (pm (snd r)) = usage_count (pm s)).
Proof.
  intros s on Hon Hidle. cbv zeta.
  destruct (s_stream_start_cases s on Hon Hidle)
    as [(H0 & H1 & H2 & H3 & _)|(H0 & H1 & H2)]; split; intros H;
    solve [ repeat split; assumption | contradiction ].
Qed.

Lemma s5k3l6_s_stream_start_all_or_nothing_witness :
  let s := s5k3l6_probe (nack_at 130) board 0 in
  fst (s5k3l6_s_stream s 1) = - EIO /\
  streaming (snd (s5k3l6_s_stream s 1)) = false /\
  usage_count (pm (snd (s5k3l6_s_stream s 1))) = 0%nat.
Proof.
  intros s. split; [vm_compute; reflexivity|].
  destruct (proj2 (s5k3l6_s_stream_start_all_or_nothing s 1
                     ltac:(lia) ltac:(vm_compute; reflexivity)))
    as (H1 & H2).
  - vm_compute. discriminate.
  - split; [exact H1|]. rewrite H2. vm_compute. reflexivity.
Defined.

(** No stream request changes the current mode. *)
Lemma s_stream_cur_mode (s : s5k3l6) (on : Z) :
  cur_mode (snd (s5k3l6_s_stream s on)) = cur_mode s.
Proof.
  unfold s5k3l6_s_stream. cbv zeta.
  destruct (Bool.eqb _ _); [reflexivity|].
  destruct (negb (on =? 0)).
  - unfold pm_runtime_get_sync. set (s1 := set_pm s _).
    destruct (_ <? 0); [reflexivity|].
    destruct (start_stream_outcome s1) as (_ & _ & Hm & _).
    cbv zeta in Hm.
    destruct (__s5k3l6_start_stream s1) as [ret s2]. cbn [snd] in Hm.
    destruct (negb (ret =? 0)); cbn [snd]; exact Hm.
  - destruct (stop_stream_outcome s) as (_ & _ & Hm & _).
    cbv zeta in Hm. cbn [snd]. exact Hm.
Qed.

(** X8. Start followed by stop is a round trip for the power reference: a
    start that succeeded and the stop behind it leave the usage count where
    it was before the start, the streaming flag clear, the power pins off
    and the current mode unchanged. *)
Theorem s5k3l6_s_stream_start_stop :
  forall (s : s5k3l6) (on : Z),
    on <> 0 -> streaming s = false ->
    fst (s5k3l6_s_stream s on) = 0 ->
    let s2 := snd (s5k3l6_s_stream (snd (s5k3l6_s_stream s on)) 0) in
    fst (s5k3l6_s_stream (snd (s5k3l6_s_stream s on)) 0) = 0 /\
    streaming s2 = false /\
    usage_count (pm s2) = usage_count (pm s) /\
    status (power s2) = 0 /\
    cur_mode s2 = cur_mode s.
Proof.
  intros s on Hon Hidle Hok. cbv zeta.
  destruct (s_stream_start_cases s on Hon Hidle)
    as [(_ & H1 & H2 & _)|(H0 & _)]; [|contradiction].
  pose proof (s_stream_cur_mode s on) as Hm1.
  set (s1 := snd (s5k3l6_s_stream s on)) in *.
  pose proof (s_stream_cur_mode s1 0) as Hm2.
  rewrite Hm1 in Hm2. split; [|split; [|split; [|split; [|exact Hm2]]]];
    clear Hm2; unfold s5k3l6_s_stream; cbv zeta;
    change (negb (0 =? 0)) with false; rewrite H1; cbn [Bool.eqb];
    destruct (stop_stream_outcome s1) as (_ & _ & _ & Hpm & Hpw & _);
    cbv zeta in Hpm, Hpw; cbn [fst snd]; unfold pm_runtime_put;
    cbn [streaming set_streaming power set_pm pm usage_count set_usage_count];
    rewrite ?Hpm, ?Hpw, ?H2; reflexivity.
Qed.

Lemma s5k3l6_s_stream_start_stop_witness :
  let s := s5k3l6_probe (ack_all []) board 0 in
  usage_count (pm (snd (s5k3l6_s_stream (snd (s5k3l6_s_stream s 1)) 0)))
  = usage_count (pm s) /\
  status (power (snd (s5k3l6_s_stream (snd (s5k3l6_s_stream s 1)) 0))) = 0 /\
  cur_mode (snd (s5k3l6_s_stream (snd (s5k3l6_s_stream s 1)) 0))
  = cur_mode s.
Proof.
  intros s.
  destruct (s5k3l6_s_stream_start_stop s 1) as (_ & _ & H3 & H4 & H5).
  - lia.
  - vm_compute. reflexivity.
  - vm_compute. reflexivity.
  - split; [exact H3|]. split; [exact H4|exact H5].
Defined.

(** * Runtime PM callbacks and power requests *)

Lemma send_ret_all_ack (a : i2c_adapter) (n : nat) (count : Z) :
  all_ack a -> send_ret a n count = count.
Proof. intros H. unfold send_ret. now rewrite H. Qed.

(** On a link where everything goes through, the whole program is
    written. *)
Lemma write_array_all_ack (regs : list regval) :
  forall c : i2c_client,
    all_ack (adapter c) ->
    s5k3l6_write_array c regs
    = (0, extend c (map (fun r => regval_xfer r 4) (until_null regs))).
Proof.
  induction regs as [|r regs IH]; intros c Hack; simpl.
  - now rewrite extend_nil.
  - destruct (addr r =? REG_NULL); [simpl; now rewrite extend_nil|].
    rewrite s5k3l6_write_reg_eq by (unfold S5K3L6_REG_VALUE_16BIT; lia).
    cbv zeta. rewrite send_ret_all_ack by assumption.
    change (S5K3L6_REG_VALUE_16BIT + 2 =? S5K3L6_REG_VALUE_16BIT + 2)
      with true.
    cbv iota. change (0 =? 0) with true. cbv iota.
    rewrite IH by exact Hack. simpl map. now rewrite extend_record.
Qed.

Lemma ctrl_frame_adapter (s s' : s5k3l6) :
  ctrl_frame s s' -> adapter (client s') = adapter (client s).
Proof.
  intros (_ & _ & _ & _ & _ & _ & _ & _ & _ & _ & _ & H & _). exact H.
Qed.

Lemma ctrl_frame_xfers (s s' : s5k3l6) :
  ctrl_frame s s' -> exists es, xfers (client s') = xfers (client s) ++ es.
Proof.
  intros (_ & _ & _ & _ & _ & _ & _ & _ & _ & _ & _ & _ & _ & _ & _ & H).
  exact H.
Qed.

(** On such a link no control write fails. *)
Lemma set_ctrl_write_all_ack (s : s5k3l6) (id : v4l2_cid) (v : Z) :
  all_ack (adapter (client s)) -> fst (s5k3l6_set_ctrl_write s id v) = 0.
Proof.
  intros Hack. unfold s5k3l6_set_ctrl_write, pm_runtime_get_if_in_use.
  assert (H16 : 0 <= S5K3L6_REG_VALUE_16BIT <= 4)
    by (unfold S5K3L6_REG_VALUE_16BIT; lia).
  assert (H08 : 0 <= S5K3L6_REG_VALUE_08BIT <= 4)
    by (unfold S5K3L6_REG_VALUE_08BIT; lia).
  destruct (disabled (pm s)); [|destruct (0 <? usage_count (pm s))%nat];
    cbv beta iota;
    try (change (- EINVAL =? 0) with false);
    try (change (1 =? 0) with false);
    try (change (0 =? 0) with true); cbv iota; try reflexivity;
    destruct id; unfold s5k3l6_enable_test_pattern;
    rewrite ?dev_write_reg_eq by assumption;
    cbv beta iota zeta; cbn [fst client set_pm];
    rewrite ?send_ret_all_ack by assumption;
    rewrite ?Z.eqb_refl; reflexivity.
Qed.

Lemma set_ctrl_all_ack (s : s5k3l6) (id : v4l2_cid) (v : Z) :
  all_ack (adapter (client s)) -> fst (s5k3l6_set_ctrl s id v) = 0.
Proof.
  intros Hack. unfold s5k3l6_set_ctrl. cbv zeta.
  destruct id; try (apply set_ctrl_write_all_ack; exact Hack).
  apply set_ctrl_write_all_ack.
  rewrite (ctrl_frame_adapter _ _ (ctrl_frame_modify_exposure s _ _ _ _)).
  exact Hack.
Qed.

Lemma handler_setup_all_ack (s : s5k3l6) :
  all_ack (adapter (client s)) -> fst (v4l2_ctrl_handler_setup s) = 0.
Proof.
  intros Hack. unfold v4l2_ctrl_handler_setup.
  pose proof (set_ctrl_all_ack s V4L2_CID_VBLANK (cur (vblank s)) Hack) as R1.
  pose proof (ctrl_frame_adapter _ _
                (ctrl_frame_set_ctrl s V4L2_CID_VBLANK (cur (vblank s))))
    as A1.
  destruct (s5k3l6_set_ctrl s V4L2_CID_VBLANK (cur (vblank s))) as [r1 s1].
  cbn [fst snd] in R1, A1. subst r1. change (0 =? 0) with true. cbv iota.
  simpl negb. cbv iota.
  assert (Hack1 : all_ack (adapter (client s1))) by (now rewrite A1).
  pose proof (set_ctrl_all_ack s1 V4L2_CID_EXPOSURE (cur (exposure s1)) Hack1)
    as R2.
  pose proof (ctrl_frame_adapter _ _
                (ctrl_frame_set_ctrl s1 V4L2_CID_EXPOSURE
                   (cur (exposure s1)))) as A2.
  destruct (s5k3l6_set_ctrl s1 V4L2_CID_EXPOSURE (cur (exposure s1)))
    as [r2 s2].
  cbn [fst snd] in R2, A2. subst r2. change (0 =? 0) with true.
  simpl negb. cbv iota.
  assert (Hack2 : all_ack (adapter (client s2))) by (now rewrite A2).
  pose proof (set_ctrl_all_ack s2 V4L2_CID_ANALOGUE_GAIN (cur (anal_gain s2))
                Hack2) as R3.
  pose proof (ctrl_frame_adapter _ _
                (ctrl_frame_set_ctrl s2 V4L2_CID_ANALOGUE_GAIN
                   (cur (anal_gain s2)))) as A3.
  destruct (s5k3l6_set_ctrl s2 V4L2_CID_ANALOGUE_GAIN (cur (anal_gain s2)))
    as [r3 s3].
  cbn [fst snd] in R3, A3. subst r3. change (0 =? 0) with true.
  simpl negb. cbv iota.
  apply set_ctrl_all_ack. now rewrite A3.
Qed.

(** The start sequence on such a link: the register program of the
    current mode, the replay of the controls, and the three writes that
    enable the stream; the result is 0. *)
Lemma start_stream_all_ack (s : s5k3l6) :
  all_ack (adapter (client s)) ->
  fst (__s5k3l6_start_stream s) = 0 /\
  exists replay : list i2c_event,
    xfers (client (snd (__s5k3l6_start_stream s)))
    = xfers (client s)
      ++ map (fun r => regval_xfer r 4) (until_null (reg_list (cur_mode s)))
      ++ replay
      ++ [MasterSend [0x3C; 0x1E; 0x01] 3;
          MasterSend [0x01; 0x00; 0x01] 3;
          MasterSend [0x3C; 0x1E; 0x00] 3].
Proof.
  intros Hack. unfold __s5k3l6_start_stream. cbv zeta.
  set (s0 := s5k3l6_set_power s 1).
  destruct (set_power_frame s 1) as (Hc & Hm & _).
  cbv zeta in Hc, Hm. fold s0 in Hc, Hm.
  unfold dev_write_array. rewrite Hc, Hm.
  rewrite write_array_all_ack by exact Hack. cbv beta iota.
  change (0 =? 0) with true. simpl negb. cbv iota.
  set (prog := map _ (until_null _)).
  set (sa := set_client s0 (extend (client s) prog)).
  assert (Hacka : all_ack (adapter (client sa))) by exact Hack.
  pose proof (handler_setup_all_ack sa Hacka) as R.
  pose proof (ctrl_frame_handler_setup sa) as F.
  destruct (v4l2_ctrl_handler_setup sa) as [r2 sb]. cbn [fst snd] in R, F.
  subst r2. change (0 =? 0) with true. simpl negb. cbv iota.
  pose proof (ctrl_frame_adapter _ _ F) as Ab.
  destruct (ctrl_frame_xfers _ _ F) as [replay Hx].
  change (adapter (client sa)) with (adapter (client s)) in Ab.
  change (xfers (client sa)) with (xfers (client s) ++ prog) in Hx.
  do 3 (rewrite dev_write_reg_eq by (unfold S5K3L6_REG_VALUE_08BIT; lia);
        cbv beta iota zeta).
  cbn [fst snd client set_client adapter record_xfer xfers].
  rewrite Ab. rewrite !send_ret_all_ack by exact Hack.
  split; [reflexivity|]. exists replay. rewrite Hx.
  rewrite <- !app_assoc. reflexivity.
Qed.

(** X9. Resuming a device that was not streaming does nothing.  Resuming a
    streaming device runs the start sequence again.  On a link where
    every transaction goes through the resume returns 0; its transactions
    begin with the register program of the current mode and end with the
    three writes that enable the stream, the transactions of the control
    replay lying in between.  When the register program fails, its error
    is returned and nothing but the standby write of the stop sequence
    follows the failing entry.  Whenever the resume returns 0 the flag
    stays set and the power pins are on; whenever it returns an error the
    flag is cleared and the power pins are off.  With runtime PM enabled
    the usage count is not changed. *)
Theorem s5k3l6_runtime_resume_outcome :
  forall s : s5k3l6,
    let r := s5k3l6_runtime_resume s in
    (streaming s = false -> r = (0, s)) /\
    (streaming s = true -> all_ack (adapter (client s)) ->
     fst r = 0 /\
     exists replay : list i2c_event,
       xfers (client (snd r))
       = xfers (client s)
         ++ map (fun e => regval_xfer e 4)
                (until_null (reg_list (cur_mode s)))
         ++ replay
         ++ [MasterSend [0x3C; 0x1E; 0x01] 3;
             MasterSend [0x01; 0x00; 0x01] 3;
             MasterSend [0x3C; 0x1E; 0x00] 3]) /\
    (streaming s = true ->
     forall (ret : Z) (c' : i2c_client),
       s5k3l6_write_array (client s) (reg_list (cur_mode s)) = (ret, c') ->
       ret <> 0 ->
       fst r = ret /\
       xfers (client (snd r))
       = xfers c'
         ++ [MasterSend [0x01; 0x00; 0x00]
               (send_ret (adapter (client s)) (length (xfers c')) 3)]) /\
    (streaming s = true ->
     (fst r = 0 ->
      streaming (snd r) = true /\ status (power (snd r)) = 1) /\
     (fst r <> 0 ->
      streaming (snd r) = false /\ status (power (snd r)) = 0)) /\
    (disabled (pm s) = false ->
     usage_count (pm (snd r)) = usage_count (pm s)).
Proof.
  intros s. cbv zeta. unfold s5k3l6_runtime_resume.
  destruct (streaming s) eqn:Hst.
  - split; [discriminate|]. split; [|split; [|split]].
    + intros _ Hack.
      destruct (start_stream_all_ack s Hack) as (Hret & replay & Hx).
      destruct (__s5k3l6_start_stream s) as [ret s1]. cbn [fst snd] in Hret, Hx.
      subst ret. change (negb (0 =? 0)) with false. cbv iota. cbn [fst snd].
      split; [reflexivity|]. exists replay. exact Hx.
    + intros _ ret c' Hprog Hret.
      unfold __s5k3l6_start_stream. cbv zeta.
      destruct (set_power_frame s 1) as (Hc & Hm & _).
      cbv zeta in Hc, Hm.
      unfold dev_write_array. rewrite Hc, Hm, Hprog. cbv beta iota.
      apply Z.eqb_neq in Hret. rewrite Hret. simpl negb. cbv beta iota.
      rewrite Hret. simpl negb. cbv beta iota. cbn [fst snd].
      split; [reflexivity|].
      set (s1 := set_client _ c').
      destruct (stop_stream_outcome s1) as (_ & _ & _ & _ & _ & Hcl).
      cbv zeta in Hcl. cbn [client set_streaming]. rewrite Hcl.
      subst s1. cbn [client set_client xfers record_xfer adapter].
      unfold xfer_index.
      pose proof (write_array_adapter (reg_list (cur_mode s)) (client s))
        as Ha.
      rewrite Hprog in Ha. cbn [snd] in Ha. rewrite Ha. reflexivity.
    + intros _.
      destruct (start_stream_outcome s) as (Hst1 & _ & _ & Hpw & _).
      cbv zeta in Hst1, Hpw.
      destruct (__s5k3l6_start_stream s) as [ret s1]. cbn [snd] in *.
      destruct (ret =? 0) eqn:Hret; cbn [negb fst snd].
      * split; [|intros H; contradiction]. intros _.
        rewrite Hst1, Hst, Hpw. split; reflexivity.
      * apply Z.eqb_neq in Hret. split; [intros H; contradiction|].
        intros _.
        destruct (stop_stream_outcome s1) as (_ & _ & _ & _ & Hpw0 & _).
        cbv zeta in Hpw0. cbn [streaming set_streaming power].
        split; [reflexivity|exact Hpw0].
    + destruct (start_stream_outcome s) as (_ & _ & _ & _ & _ & Hus).
      cbv zeta in Hus.
      destruct (__s5k3l6_start_stream s) as [ret s1]. cbn [snd] in *.
      destruct (ret =? 0); cbn [negb fst snd]; [exact Hus|].
      destruct (stop_stream_outcome s1) as (_ & _ & _ & Hpm & _).
      cbv zeta in Hpm. cbn [pm set_streaming]. intros Hd.
      rewrite Hpm. now apply Hus.
  - cbn [fst snd]. split; [reflexivity|].
    split; [discriminate|]. split; [discriminate|].
    split; [discriminate|reflexivity].
Qed.

Lemma s5k3l6_runtime_resume_outcome_witness :
  let s := set_streaming (s5k3l6_probe (nack_at 0) board 0) true in
  let t := set_streaming (s5k3l6_probe (ack_all []) board 0) true in
  (fst (s5k3l6_runtime_resume s) = - EIO /\
   length (xfers (client (snd (s5k3l6_runtime_resume s)))) = 2%nat /\
   streaming (snd (s5k3l6_runtime_resume s)) = false) /\
  (fst (s5k3l6_runtime_resume t) = 0 /\
   streaming (snd (s5k3l6_runtime_resume t)) = true).
Proof.
  intros s t. split.
  - destruct (s5k3l6_runtime_resume_outcome s) as (_ & _ & Hprog & Hflag & _).
    destruct (Hprog eq_refl (- EIO)
                (snd (s5k3l6_write_array (client s) (reg_list (cur_mode s)))))
      as (Hret & Hx).
    + vm_compute. reflexivity.
    + vm_compute. discriminate.
    + split; [exact Hret|]. split; [rewrite Hx; vm_compute; reflexivity|].
      apply (proj2 (Hflag eq_refl)). rewrite Hret. vm_compute. discriminate.
  - destruct (s5k3l6_runtime_resume_outcome t) as (_ & Hack & _ & Hflag & _).
    destruct (Hack eq_refl) as (Hret & _); [intros n; reflexivity|].
    split; [exact Hret|]. apply (proj1 (Hflag eq_refl)). exact Hret.
Defined.

(** X10. Suspending never fails and never touches the streaming flag, so
    that a later resume restarts the stream.  For a streaming device the
    stop sequence runs: one standby write to the mode-control register and
    the power pins off; a device that is not streaming is left as it
    is. *)
Theorem s5k3l6_runtime_suspend_outcome :
  forall s : s5k3l6,
    let r := s5k3l6_runtime_suspend s in
    fst r = 0 /\
    streaming (snd r) = streaming s /\
    pm (snd r) = pm s /\
    (streaming s = false -> snd r = s) /\
    (streaming s = true ->
     status (power (snd r)) = 0 /\
     exists ret, xfers (client (snd r))
                 = xfers (client s) ++ [MasterSend [0x01; 0x00; 0x00] ret]).
Proof.
  intros s. cbv zeta. unfold s5k3l6_runtime_suspend.
  destruct (streaming s) eqn:Hst; cbn [fst snd].
  - destruct (stop_stream_outcome s) as (Hst1 & _ & _ & Hpm & Hpw & Hc).
    cbv zeta in Hst1, Hpm, Hpw, Hc.
    rewrite Hst1, Hpm, Hpw, Hc. repeat split; try assumption; try discriminate.
    eexists. reflexivity.
  - repeat split; try assumption; discriminate.
Qed.

Lemma s5k3l6_runtime_suspend_outcome_witness :
  let s := set_streaming (s5k3l6_probe (ack_all []) board 0) true in
  let r := s5k3l6_runtime_suspend s in
  status (power (snd r)) = 0 /\
  xfers (client (snd r)) = [MasterSend [0x01; 0x00; 0x00] 3].
Proof.
  intros s r.
  destruct (proj2 (proj2 (proj2 (proj2 (s5k3l6_runtime_suspend_outcome s)))))
    as (H & _).
  - vm_compute. reflexivity.
  - split; [exact H|vm_compute; reflexivity].
Defined.

(** X11. [s5k3l6_s_power] works on the usage count and the [power_on] flag
    only: it issues no transaction and drives no pin.  Switching on returns
    what the runtime PM resume request answers ([-EACCES] when runtime PM
    is disabled, the result of the resume otherwise): when that is
    negative, count and flag are as before; otherwise one usage count is
    taken and the flag is set, and switching off afterwards returns 0,
    clears the flag and restores the usage count.  Switching off gives one
    count back and clears the flag. *)
Theorem s5k3l6_s_power_effect :
  forall (s : s5k3l6) (on : Z),
    let r := s5k3l6_s_power s on in
    let req := if disabled (pm s) then - EACCES else resume_ret (pm s) in
    (client (snd r) = client s /\ hw (snd r) = hw s /\
     power (snd r) = power s /\ streaming (snd r) = streaming s /\
     cur_mode (snd r) = cur_mode s) /\
    (on <> 0 -> power_on s = false ->
     fst r = req /\
     (req < 0 ->
      power_on (snd r) = false /\
      usage_count (pm (snd r)) = usage_count (pm s)) /\
     (0 <= req ->
      power_on (snd r) = true /\
      usage_count (pm (snd r)) = S (usage_count (pm s)) /\
      fst (s5k3l6_s_power (snd r) 0) = 0 /\
      power_on (snd (s5k3l6_s_power (snd r) 0)) = false /\
      usage_count (pm (snd (s5k3l6_s_power (snd r) 0)))
      = usage_count (pm s))) /\
    (on = 0 -> power_on s = true ->
     fst r = 0 /\ power_on (snd r) = false /\
     usage_count (pm (snd r)) = Nat.pred (usage_count (pm s))).
Proof.
  intros s on. cbv zeta. split; [|split].
  - unfold s5k3l6_s_power.
    destruct (Bool.eqb _ _); [repeat split; reflexivity|].
    destruct (negb (on =? 0)); [|repeat split; reflexivity].
    unfold pm_runtime_get_sync.
    destruct (_ <? 0); repeat split; reflexivity.
  - intros Hon Hoff.
    set (ret := if disabled (pm s) then - EACCES else resume_ret (pm s)).
    set (s1 := set_pm s (set_usage_count (pm s) (S (usage_count (pm s))))).
    assert (E : s5k3l6_s_power s on =
                if ret <? 0 then (ret, pm_runtime_put_noidle s1)
                else (ret, set_power_on s1 true)).
    { unfold s5k3l6_s_power. apply Z.eqb_neq in Hon.
      rewrite Hon, Hoff. reflexivity. }
    rewrite E. destruct (ret <? 0) eqn:Hret; cbn [fst snd].
    + split; [reflexivity|]. split; [|intros H; lia].
      intros _. split; [assumption|reflexivity].
    + split; [reflexivity|]. split; [intros H; lia|]. intros _.
      unfold s5k3l6_s_power. change (negb (0 =? 0)) with false.
      cbn [power_on set_power_on Bool.eqb fst snd].
      repeat split; reflexivity.
  - intros Hon Hpo. subst on. unfold s5k3l6_s_power.
    change (negb (0 =? 0)) with false. rewrite Hpo. cbn [Bool.eqb fst snd].
    repeat split; reflexivity.
Qed.

Lemma s5k3l6_s_power_effect_witness :
  let s := s5k3l6_probe (ack_all []) board 0 in
  fst (s5k3l6_s_power s 1) = 0 /\
  usage_count (pm (snd (s5k3l6_s_power s 1))) = 1%nat /\
  usage_count (pm (snd (s5k3l6_s_power (snd (s5k3l6_s_power s 1)) 0)))
  = usage_count (pm s) /\
  fst (s5k3l6_s_power (s5k3l6_probe (ack_all []) board (-13)) 1) = -13 /\
  power_on (snd (s5k3l6_s_power (s5k3l6_probe (ack_all []) board (-13)) 1))
  = false.
Proof.
  intros s.
  destruct (proj1 (proj2 (s5k3l6_s_power_effect s 1)))
    as (Hret & _ & Hon).
  - lia.
  - vm_compute. reflexivity.
  - destruct Hon as (_ & H1 & _ & _ & H2); [vm_compute; discriminate|].
    destruct (proj1 (proj2 (s5k3l6_s_power_effect
                              (s5k3l6_probe (ack_all []) board (-13)) 1)))
      as (Hret' & Hfail & _).
    + lia.
    + vm_compute. reflexivity.
    + destruct Hfail as (H3 & _); [vm_compute; reflexivity|].
      split; [exact Hret|]. split; [exact H1|]. split; [exact H2|].
      split; [exact Hret'|exact H3].
Defined.

(** X12. The quick-stream ioctl writes the mode-control register, 1 for a
    non-zero argument and 0 otherwise, and returns the result of that
    write; it does so whatever the power and stream state, and changes
    neither the streaming flag nor the usage count nor the power pins.  An
    unknown command is answered with [-ENOIOCTLCMD] and nothing is
    done. *)
Theorem s5k3l6_ioctl_quick_stream :
  forall (s : s5k3l6) (stream : Z),
    let r := s5k3l6_ioctl s RKMODULE_SET_QUICK_STREAM stream in
    let sent := send_ret (adapter (client s)) (xfer_index (client s)) 3 in
    fst r = (if sent =? 3 then 0 else - EIO) /\
    xfers (client (snd r))
    = xfers (client s)
      ++ [MasterSend [0x01; 0x00; if stream =? 0 then 0x00 else 0x01] sent] /\
    streaming (snd r) = streaming s /\ pm (snd r) = pm s /\
    power (snd r) = power s /\ hw (snd r) = hw s /\
    forall cmd, s5k3l6_ioctl s (RKMODULE_OTHER cmd) stream
                = (- ENOIOCTLCMD, s).
Proof.
  intros s stream. cbv zeta. unfold s5k3l6_ioctl.
  destruct (stream =? 0); cbn [negb];
    rewrite dev_write_reg_eq by (unfold S5K3L6_REG_VALUE_08BIT; lia);
    cbv zeta; cbn [fst snd]; repeat split; reflexivity.
Qed.

(** * Facts about the control framework *)

Lemma round_to_range_bounds (c : v4l2_ctrl) (v : Z) :
  0 < step c -> minimum c <= maximum c ->
  minimum c <= round_to_range c v <= maximum c.
Proof.
  intros Hstep Hrange. unfold round_to_range. cbv zeta.
  match goal with
  | |- context [Z.min (Z.max ?x (minimum c)) (maximum c)] => set (v1 := x)
  end.
  set (v2 := Z.min (Z.max v1 (minimum c)) (maximum c)).
  assert (Hv2 : minimum c <= v2 <= maximum c) by (subst v2; lia).
  pose proof (Z.mul_div_le (v2 - minimum c) (step c) Hstep).
  assert (0 <= (v2 - minimum c) / step c) by (apply Z.div_pos; lia).
  nia.
Qed.

Lemma round_to_range_id (c : v4l2_ctrl) (v : Z) :
  step c = 1 -> minimum c <= v <= maximum c -> round_to_range c v = v.
Proof.
  intros Hstep Hv. unfold round_to_range. cbv zeta. rewrite Hstep.
  change (1 / 2) with 0. rewrite Z.sub_0_r, Z.add_0_r, Z.div_1_r, Z.mul_1_l.
  destruct ((maximum c >=? 0) && (v >=? maximum c)) eqn:E.
  - apply andb_true_iff in E. lia.
  - lia.
Qed.

(** The range of a control: type, bounds, step and default. *)
Lemma set_cur_range (c : v4l2_ctrl) (v : Z) :
  ctrl_type (set_cur c v) = ctrl_type c /\
  minimum (set_cur c v) = minimum c /\ maximum (set_cur c v) = maximum c /\
  step (set_cur c v) = step c /\
  default_value (set_cur c v) = default_value c.
Proof. repeat split; reflexivity. Qed.

Section FrameworkFrame.
Context {S : Type}.
Variable get : S -> v4l2_ctrl.
Variable put : S -> v4l2_ctrl -> S.
Variable s_ctrl : option (S -> Z -> Z * S).

(** A relation between the state before and after that the callback and
    the update of the control respect. *)
Variable R : S -> S -> Prop.
Hypothesis R_refl : forall s, R s s.
Hypothesis R_trans : forall s1 s2 s3, R s1 s2 -> R s2 s3 -> R s1 s3.
Hypothesis R_put : forall s c, R s (put s c).
Hypothesis R_op : forall op s v, s_ctrl = Some op -> R s (snd (op s v)).

Lemma try_or_set_cluster_R (s : S) (v : Z) :
  R s (snd (try_or_set_cluster get put s_ctrl s v)).
Proof.
  unfold try_or_set_cluster. destruct (v =? cur (get s)); [apply R_refl|].
  destruct s_ctrl as [op|] eqn:Hop; [|apply R_put].
  pose proof (R_op op s v eq_refl) as H.
  destruct (op s v) as [ret s']. cbn [snd] in H.
  destruct (negb (ret =? 0)); cbn [snd]; [exact H|].
  eapply R_trans; [exact H|apply R_put].
Qed.

Lemma set_ctrl_R (s : S) (v : Z) :
  R s (snd (set_ctrl get put s_ctrl s v)).
Proof.
  unfold set_ctrl. destruct (validate_new (get s) v) as [ret new].
  destruct (negb (ret =? 0)); [apply R_refl|apply try_or_set_cluster_R].
Qed.

Lemma modify_range_R (s : S) (min max stp def : Z) :
  R s (snd (__v4l2_ctrl_modify_range get put s_ctrl s min max stp def)).
Proof.
  unfold __v4l2_ctrl_modify_range.
  destruct (negb (check_range _ min max stp def =? 0)); [apply R_refl|].
  set (s1 := put s _).
  destruct (validate_new (get s1) (cur (get s1))) as [err new].
  destruct (negb (_ =? cur (get s1))); cbn [snd]; [|apply R_put].
  eapply R_trans; [apply R_put|apply set_ctrl_R].
Qed.

End FrameworkFrame.

Section FrameworkRange.
Context {S : Type}.
Variable get : S -> v4l2_ctrl.
Variable put : S -> v4l2_ctrl -> S.
Variable s_ctrl : option (S -> Z -> Z * S).

(** The control is stored where it is read, and the callback does not
    touch it. *)
Hypothesis get_put : forall s c, get (put s c) = c.
Hypothesis op_get :
  forall op s v, s_ctrl = Some op -> get (snd (op s v)) = get s.

(** Setting a value never changes the range of the control. *)
Lemma try_or_set_cluster_range (s : S) (v : Z) :
  let c' := get (snd (try_or_set_cluster get put s_ctrl s v)) in
  ctrl_type c' = ctrl_type (get s) /\
  minimum c' = minimum (get s) /\ maximum c' = maximum (get s) /\
  step c' = step (get s) /\ default_value c' = default_value (get s).
Proof.
  cbv zeta. unfold try_or_set_cluster.
  destruct (v =? cur (get s)); [repeat split; reflexivity|].
  destruct s_ctrl as [op|] eqn:Hop.
  - pose proof (op_get op s v eq_refl) as H.
    destruct (op s v) as [ret s']. cbn [snd] in H.
    destruct (negb (ret =? 0)); cbn [snd].
    + rewrite H. repeat split; reflexivity.
    + rewrite get_put, H. apply set_cur_range.
  - cbn [snd]. rewrite get_put. apply set_cur_range.
Qed.

Lemma set_ctrl_range (s : S) (v : Z) :
  let c' := get (snd (set_ctrl get put s_ctrl s v)) in
  ctrl_type c' = ctrl_type (get s) /\
  minimum c' = minimum (get s) /\ maximum c' = maximum (get s) /\
  step c' = step (get s) /\ default_value c' = default_value (get s).
Proof.
  cbv zeta. unfold set_ctrl. destruct (validate_new (get s) v) as [ret new].
  destruct (negb (ret =? 0)); [repeat split; reflexivity|].
  apply try_or_set_cluster_range.
Qed.

(** An accepted range is the range of the control afterwards, whatever
    becomes of its value. *)
Lemma modify_range_range (s : S) (min max stp def : Z) :
  check_range (ctrl_type (get s)) min max stp def = 0 ->
  let c' := get (snd (__v4l2_ctrl_modify_range get put s_ctrl s
                        min max stp def)) in
  ctrl_type c' = ctrl_type (get s) /\
  minimum c' = min /\ maximum c' = max /\
  step c' = stp /\ default_value c' = def.
Proof.
  intros Hcheck. cbv zeta. unfold __v4l2_ctrl_modify_range.
  rewrite Hcheck. change (negb (0 =? 0)) with false. cbv iota.
  set (s1 := put s _).
  assert (H1 : get s1 = set_range (get s) min max stp def)
    by (subst s1; apply get_put).
  destruct (validate_new (get s1) (cur (get s1))) as [err new].
  destruct (negb (_ =? cur (get s1))); cbn [snd].
  - destruct (set_ctrl_range s1 (if negb (err =? 0) then def else new))
      as (A & B & C & D & E).
    cbv zeta in A, B, C, D, E. rewrite A, B, C, D, E, H1.
    repeat split; reflexivity.
  - rewrite H1. repeat split; reflexivity.
Qed.

(** When the callback, if there is one, reports success, a new range for
    an integer control leaves the value inside that range. *)
Lemma modify_range_value (s : S) (min max stp def : Z) :
  is_menu (ctrl_type (get s)) = false ->
  check_range (ctrl_type (get s)) min max stp def = 0 ->
  0 < stp ->
  (forall op c v, s_ctrl = Some op -> fst (op (put s c) v) = 0) ->
  min <= cur (get (snd (__v4l2_ctrl_modify_range get put s_ctrl s
                          min max stp def))) <= max.
Proof.
  intros Hint Hcheck Hstep Hok. unfold __v4l2_ctrl_modify_range.
  rewrite Hcheck. change (negb (0 =? 0)) with false. cbv iota.
  set (c1 := set_range (get s) min max stp def).
  set (s1 := put s c1).
  assert (H1 : get s1 = c1) by (subst s1; apply get_put).
  assert (Hrange : min <= max).
  { unfold check_range in Hcheck. rewrite Hint in Hcheck.
    destruct ((stp =? 0) || (min >? max) || (def <? min) || (def >? max))
      eqn:E; [unfold ERANGE in Hcheck; lia|].
    repeat (apply orb_false_iff in E; destruct E as [E ?]). lia. }
  assert (Hround : forall x, min <= round_to_range c1 x <= max).
  { intros x. apply (round_to_range_bounds c1 x); assumption. }
  match goal with
  | |- _ <= cur ?g <= _ =>
      enough (Hex : exists x, cur g = round_to_range c1 x)
        by (destruct Hex as [x ->]; apply Hround)
  end.
  rewrite H1. unfold validate_new at 1.
  change (ctrl_type c1) with (ctrl_type (get s)). rewrite Hint.
  cbv beta iota zeta. change (negb (0 =? 0)) with false. cbv iota.
  destruct (round_to_range c1 (cur c1) =? cur c1) eqn:Esame;
    cbn [negb snd].
  - rewrite H1. apply Z.eqb_eq in Esame. exists (cur c1). now rewrite Esame.
  - unfold set_ctrl. rewrite H1. unfold validate_new.
    change (ctrl_type c1) with (ctrl_type (get s)). rewrite Hint.
    cbv beta iota zeta. change (negb (0 =? 0)) with false. cbv iota.
    unfold try_or_set_cluster. rewrite H1.
    set (new := round_to_range c1 (round_to_range c1 (cur c1))).
    destruct (new =? cur c1) eqn:Esame2.
    + cbn [snd]. rewrite H1. apply Z.eqb_eq in Esame2.
      exists (round_to_range c1 (cur c1)). symmetry. exact Esame2.
    + destruct s_ctrl as [op|] eqn:Hop.
      * pose proof (Hok op c1 new eq_refl) as Hret. fold s1 in Hret.
        pose proof (op_get op s1 new eq_refl) as Hget.
        destruct (op s1 new) as [ret s']. cbn [fst snd] in Hret, Hget.
        subst ret. change (negb (0 =? 0)) with false. cbv iota. cbn [snd].
        rewrite get_put. cbn [cur set_cur]. eexists. reflexivity.
      * cbn [snd]. rewrite get_put. cbn [cur set_cur]. eexists. reflexivity.
Qed.

(** For a control without callback an accepted value is the value
    afterwards. *)
Lemma set_ctrl_value (s : S) (v : Z) :
  s_ctrl = None ->
  fst (validate_new (get s) v) = 0 ->
  cur (get (snd (set_ctrl get put s_ctrl s v))) = snd (validate_new (get s) v).
Proof.
  intros Hnone Hval. unfold set_ctrl.
  destruct (validate_new (get s) v) as [ret new]. cbn [fst snd] in *.
  subst ret. change (negb (0 =? 0)) with false. cbv iota.
  unfold try_or_set_cluster. rewrite Hnone.
  destruct (new =? cur (get s)) eqn:E; cbn [snd].
  - apply Z.eqb_eq in E. now rewrite E.
  - now rewrite get_put.
Qed.

End FrameworkRange.

(** * Mode changes *)

Lemma vblank_op_frame (op : s5k3l6 -> Z -> Z * s5k3l6) (s : s5k3l6) (v : Z) :
  vblank_s_ctrl = Some op -> ctrl_frame s (snd (op s v)).
Proof.
  unfold vblank_s_ctrl, s5k3l6_ctrl_ops. intros H. injection H as <-.
  apply ctrl_frame_set_ctrl.
Qed.

(** While the device holds no power reference every control is accepted
    without a transaction. *)
Lemma set_ctrl_idle_ok (s : s5k3l6) (id : v4l2_cid) (v : Z) :
  disabled (pm s) = false -> usage_count (pm s) = 0%nat ->
  fst (s5k3l6_set_ctrl s id v) = 0.
Proof.
  intros Hen Hidle. unfold s5k3l6_set_ctrl. cbv zeta.
  destruct id; try (rewrite s5k3l6_set_ctrl_write_idle by assumption;
                    reflexivity).
  match goal with
  | |- fst (s5k3l6_set_ctrl_write ?t _ _) = 0 =>
      pose proof (ctrl_frame_modify_exposure s (minimum (exposure s))
                    (u32 (height (cur_mode s) + v - 4)) (step (exposure s))
                    (default_value (exposure s))) as F;
      set (s1 := t) in *
  end.
  destruct F as (_ & _ & _ & _ & _ & _ & _ & _ & _ & _ & _ & _ & F13 & _ &
                 F15 & _).
  rewrite s5k3l6_set_ctrl_write_idle; [reflexivity|congruence|].
  rewrite F15 by assumption. assumption.
Qed.

Ltac keep_op :=
  let op := fresh "op" in
  let s0 := fresh "s0" in
  let v0 := fresh "v0" in
  let Hop := fresh "Hop" in
  intros op s0 v0 Hop;
  first
    [ discriminate Hop
    | let F := fresh "F" in
      pose proof (vblank_op_frame op s0 v0 Hop) as F;
      unfold ctrl_frame in F; unfold keeps; intuition congruence ].

Ltac keep_step :=
  unfold __v4l2_ctrl_s_ctrl, __v4l2_ctrl_s_ctrl_int64;
  match goal with
  | |- keeps ?f _ (snd (__v4l2_ctrl_modify_range ?g ?p ?o _ _ _ _ _)) =>
      apply (modify_range_R g p o (keeps f))
  | |- keeps ?f _ (snd (set_ctrl ?g ?p ?o _ _)) =>
      apply (set_ctrl_R g p o (keeps f))
  end;
  [ intros; reflexivity
  | unfold keeps; intros; congruence
  | intros; reflexivity
  | keep_op ].

Lemma best_fit_cases (fmt : v4l2_subdev_format) :
  s5k3l6_find_best_fit fmt = mode_4208x3120 \/
  s5k3l6_find_best_fit fmt = mode_2104x1560.
Proof.
  unfold s5k3l6_find_best_fit.
  pose proof (best_fit_index_in_catalog fmt) as H.
  destruct (best_fit_index fmt) as [|[|n]]; simpl in H; [now left|now right|lia].
Qed.

(** X13. An active format request makes the best-fit mode current and
    brings the controls derived from the mode in line with it: the
    horizontal blanking is pinned to [hts_def - width], the range of the
    vertical blanking becomes [[vts_def - height, VTS_MAX - height]] with
    the lower bound as default, the pixel rate becomes
    [link_freq / bpp * 2 * lanes] and the link frequency control points at
    the mode's entry.  The controls keep the shape they were created
    with. *)
Theorem s5k3l6_set_fmt_active_controls :
  forall (CONFIG_VIDEO_V4L2_SUBDEV_API : bool) (s : s5k3l6)
         (sd_state : v4l2_subdev_state) (fmt : v4l2_subdev_format),
    which fmt = V4L2_SUBDEV_FORMAT_ACTIVE ->
    mode_controls_ok s ->
    let m := s5k3l6_find_best_fit fmt in
    let s' := snd (fst (fst (s5k3l6_set_fmt CONFIG_VIDEO_V4L2_SUBDEV_API
                               s sd_state fmt))) in
    cur_mode s' = m /\
    (minimum (hblank s') = hts_def m - width m /\
     maximum (hblank s') = hts_def m - width m /\
     cur (hblank s') = hts_def m - width m) /\
    (minimum (vblank s') = vts_def m - height m /\
     maximum (vblank s') = S5K3L6_VTS_MAX - height m /\
     default_value (vblank s') = vts_def m - height m /\
     step (vblank s') = 1) /\
    cur (pixel_rate s')
    = nth (Z.to_nat (link_freq_idx m)) link_freq_items 0 / bpp m * 2
      * S5K3L6_LANES /\
    cur (link_freq s') = link_freq_idx m /\
    mode_controls_ok s'.
Proof.
  intros cfg s st fmt Hact (Hhb & Hvb & (Hpr1 & Hpr2 & Hpr3 & Hpr4) &
                            (Hlf1 & Hlf2 & Hlf3)).
  cbv zeta. unfold s5k3l6_set_fmt. cbv zeta. simpl which. rewrite Hact.
  cbn [fst snd].
  set (m := s5k3l6_find_best_fit fmt).
  set (hb := u32 (hts_def m - width m)).
  set (vmin := u32 (vts_def m - height m)).
  set (vmax := u32 (S5K3L6_VTS_MAX - height m)).
  set (pr := u32 (u32 (u32 (nth (Z.to_nat (link_freq_idx m))
                                link_freq_items 0) / bpp m * 2)
                  * S5K3L6_LANES)).
  assert (Hnum : hb = hts_def m - width m /\ 0 < hb /\
                 vmin = vts_def m - height m /\
                 vmax = S5K3L6_VTS_MAX - height m /\ vmin <= vmax /\
                 pr = nth (Z.to_nat (link_freq_idx m)) link_freq_items 0
                      / bpp m * 2 * S5K3L6_LANES /\
                 0 <= pr <= S5K3L6_PIXEL_RATE /\
                 0 <= link_freq_idx m <= 1).
  { subst hb vmin vmax pr.
    destruct (best_fit_cases fmt) as [E|E]; fold m in E; rewrite E;
      vm_compute; repeat split; congruence. }
  destruct Hnum as (Ehb & Hhbpos & Evmin & Evmax & Hvrange & Epr & Hprr & Hlfr).
  set (s1 := set_cur_mode s m).
  set (s2 := snd (__v4l2_ctrl_modify_range hblank set_hblank None s1
                    hb hb 1 hb)).
  set (s3 := snd (__v4l2_ctrl_modify_range vblank set_vblank vblank_s_ctrl
                    s2 vmin vmax 1 vmin)).
  set (s4 := snd (__v4l2_ctrl_s_ctrl_int64 pixel_rate set_pixel_rate None
                    s3 pr)).
  set (s5 := snd (__v4l2_ctrl_s_ctrl link_freq set_link_freq None s4
                    (link_freq_idx m))).
  (* what each step keeps *)
  assert (K2m : keeps cur_mode s1 s2) by (subst s2; keep_step).
  assert (K2v : keeps vblank s1 s2) by (subst s2; keep_step).
  assert (K2p : keeps pixel_rate s1 s2) by (subst s2; keep_step).
  assert (K2l : keeps link_freq s1 s2) by (subst s2; keep_step).
  assert (K3m : keeps cur_mode s2 s3) by (subst s3; keep_step).
  assert (K3h : keeps hblank s2 s3) by (subst s3; keep_step).
  assert (K3p : keeps pixel_rate s2 s3) by (subst s3; keep_step).
  assert (K3l : keeps link_freq s2 s3) by (subst s3; keep_step).
  assert (K4m : keeps cur_mode s3 s4) by (subst s4; keep_step).
  assert (K4h : keeps hblank s3 s4) by (subst s4; keep_step).
  assert (K4v : keeps vblank s3 s4) by (subst s4; keep_step).
  assert (K4l : keeps link_freq s3 s4) by (subst s4; keep_step).
  assert (K5m : keeps cur_mode s4 s5) by (subst s5; keep_step).
  assert (K5h : keeps hblank s4 s5) by (subst s5; keep_step).
  assert (K5v : keeps vblank s4 s5) by (subst s5; keep_step).
  assert (K5p : keeps pixel_rate s4 s5) by (subst s5; keep_step).
  unfold keeps in *.
  (* the horizontal blanking *)
  assert (Chb : check_range (ctrl_type (hblank s1)) hb hb 1 hb = 0).
  { unfold check_range. change (hblank s1) with (hblank s). rewrite Hhb.
    replace ((1 =? 0) || (hb >? hb) || (hb <? hb) || (hb >? hb)) with false
      by (symmetry; repeat (apply orb_false_iff; split); lia).
    reflexivity. }
  assert (H2 : minimum (hblank s2) = hb /\ maximum (hblank s2) = hb /\
               cur (hblank s2) = hb /\
               is_menu (ctrl_type (hblank s2)) = false).
  { destruct (modify_range_range hblank set_hblank None
                (fun s c => eq_refl) ltac:(intros; discriminate)
                s1 hb hb 1 hb Chb) as (T & A & B & _ & _).
    cbv zeta in T, A, B. fold s2 in T, A, B.
    pose proof (modify_range_value hblank set_hblank None
                  (fun s c => eq_refl) ltac:(intros; discriminate)
                  s1 hb hb 1 hb Hhb Chb ltac:(lia)
                  ltac:(intros; discriminate)) as V.
    fold s2 in V. rewrite T. repeat split; try assumption. lia. }
  (* the vertical blanking *)
  assert (Cvb : check_range (ctrl_type (vblank s2)) vmin vmax 1 vmin = 0).
  { unfold check_range. rewrite K2v. change (vblank s1) with (vblank s).
    rewrite Hvb.
    replace ((1 =? 0) || (vmin >? vmax) || (vmin <? vmin) || (vmin >? vmax))
      with false
      by (symmetry; repeat (apply orb_false_iff; split); lia).
    reflexivity. }
  assert (H3 : minimum (vblank s3) = vmin /\ maximum (vblank s3) = vmax /\
               step (vblank s3) = 1 /\ default_value (vblank s3) = vmin /\
               is_menu (ctrl_type (vblank s3)) = false).
  { destruct (modify_range_range vblank set_vblank vblank_s_ctrl
                (fun s c => eq_refl)
                ltac:(intros op s0 v0 Hop;
                      apply (vblank_op_frame op s0 v0 Hop))
                s2 vmin vmax 1 vmin Cvb) as (T & A & B & C & D).
    cbv zeta in T, A, B, C, D. fold s3 in T, A, B, C, D.
    rewrite T, K2v. repeat split; assumption. }
  (* the pixel rate *)
  assert (Ppr : pixel_rate s3 = pixel_rate s) by (rewrite K3p, K2p; reflexivity).
  assert (Vpr : validate_new (pixel_rate s3) pr = (0, pr)).
  { unfold validate_new. rewrite Ppr, Hpr1. f_equal.
    apply round_to_range_id; [assumption|]. rewrite Hpr2, Hpr3. assumption. }
  assert (H4 : cur (pixel_rate s4) = pr /\
               is_menu (ctrl_type (pixel_rate s4)) = false /\
               minimum (pixel_rate s4) = 0 /\
               maximum (pixel_rate s4) = S5K3L6_PIXEL_RATE /\
               step (pixel_rate s4) = 1).
  { subst s4. unfold __v4l2_ctrl_s_ctrl_int64.
    rewrite (set_ctrl_value pixel_rate set_pixel_rate None
               (fun s c => eq_refl) s3 pr eq_refl)
      by (rewrite Vpr; reflexivity).
    rewrite Vpr.
    destruct (set_ctrl_range pixel_rate set_pixel_rate None
                (fun s c => eq_refl) ltac:(intros; discriminate) s3 pr)
      as (T & A & B & C & _).
    cbv zeta in T, A, B, C. rewrite T, A, B, C, Ppr.
    repeat split; assumption || reflexivity. }
  (* the link frequency *)
  assert (Plf : link_freq s4 = link_freq s)
    by (rewrite K4l, K3l, K2l; reflexivity).
  assert (Vlf : validate_new (link_freq s4) (link_freq_idx m)
                = (0, link_freq_idx m)).
  { unfold validate_new. rewrite Plf, Hlf1, Hlf2, Hlf3.
    replace ((link_freq_idx m <? 0) || (link_freq_idx m >? 1)) with false
      by (symmetry; apply orb_false_iff; split; lia).
    reflexivity. }
  assert (H5 : cur (link_freq s5) = link_freq_idx m /\
               is_menu (ctrl_type (link_freq s5)) = true /\
               minimum (link_freq s5) = 0 /\ maximum (link_freq s5) = 1).
  { subst s5. unfold __v4l2_ctrl_s_ctrl.
    rewrite (set_ctrl_value link_freq set_link_freq None
               (fun s c => eq_refl) s4 (link_freq_idx m) eq_refl)
      by (rewrite Vlf; reflexivity).
    rewrite Vlf.
    destruct (set_ctrl_range link_freq set_link_freq None
                (fun s c => eq_refl) ltac:(intros; discriminate) s4
                (link_freq_idx m)) as (T & A & B & _ & _).
    cbv zeta in T, A, B. rewrite T, A, B, Plf.
    repeat split; assumption || reflexivity. }
  destruct H2 as (A2 & B2 & C2 & T2). destruct H3 as (A3 & B3 & C3 & D3 & T3).
  destruct H4 as (A4 & T4 & B4 & C4 & D4). destruct H5 as (A5 & T5 & B5 & C5).
  unfold mode_controls_ok.
  rewrite K5m, K4m, K3m, K2m, K5h, K4h, K3h, K5v, K4v, K5p.
  change (cur_mode s1) with m.
  rewrite A2, B2, C2, A3, B3, C3, D3, A4, A5, T2, T3, T4, T5, B4, C4, D4,
    B5, C5.
  rewrite <- Ehb, <- Evmin, <- Evmax, <- Epr.
  repeat split; reflexivity.
Qed.

Lemma probe_mode_controls_ok (a : i2c_adapter) (pw : s5k3l6_power_ctrl)
                             (resume : Z) :
  mode_controls_ok (s5k3l6_probe a pw resume).
Proof.
  unfold mode_controls_ok. vm_compute. repeat split; reflexivity.
Qed.

Lemma s5k3l6_set_fmt_active_controls_witness :
  let s' := snd (fst (fst (s5k3l6_set_fmt true
                             (s5k3l6_probe (ack_all []) board 0) no_try
                             (request 2200 1600 V4L2_SUBDEV_FORMAT_ACTIVE)))) in
  cur_mode s' = mode_2104x1560 /\
  cur (hblank s') = 2792 /\
  minimum (vblank s') = 1700 /\ maximum (vblank s') = 63967 /\
  cur (pixel_rate s') = 227200000 /\ cur (link_freq s') = 1.
Proof.
  destruct (s5k3l6_set_fmt_active_controls true
              (s5k3l6_probe (ack_all []) board 0) no_try
              (request 2200 1600 V4L2_SUBDEV_FORMAT_ACTIVE) eq_refl
              (probe_mode_controls_ok (ack_all []) board 0))
    as (H1 & (_ & _ & H2) & (H3 & H4 & _) & H5 & H6 & _).
  cbv zeta. rewrite H1, H2, H3, H4, H5, H6. vm_compute.
  repeat split; reflexivity.
Defined.

Lemma set_ctrl_write_keeps_exposure (s : s5k3l6) (id : v4l2_cid) (v : Z) :
  exposure (snd (s5k3l6_set_ctrl_write s id v)) = exposure s.
Proof.
  unfold s5k3l6_set_ctrl_write, pm_runtime_get_if_in_use.
  destruct (disabled (pm s)); [|destruct (0 <? usage_count (pm s))%nat];
    cbv beta iota; try reflexivity;
    destruct id; unfold s5k3l6_enable_test_pattern;
    try rewrite dev_write_reg_eq
      by (unfold S5K3L6_REG_VALUE_16BIT, S5K3L6_REG_VALUE_08BIT; lia);
    reflexivity.
Qed.

Lemma exposure_op_keeps (op : s5k3l6 -> Z -> Z * s5k3l6) (s : s5k3l6) (v : Z) :
  exposure_s_ctrl = Some op -> exposure (snd (op s v)) = exposure s.
Proof.
  unfold exposure_s_ctrl. intros H. injection H as <-.
  apply set_ctrl_write_keeps_exposure.
Qed.

(** The exposure range after a change of its maximum while the device is
    idle: the new maximum is in force and the value is inside the range. *)
Lemma modify_exposure_idle (s : s5k3l6) (max : Z) :
  disabled (pm s) = false -> usage_count (pm s) = 0%nat ->
  is_menu (ctrl_type (exposure s)) = false ->
  0 < step (exposure s) ->
  minimum (exposure s) <= default_value (exposure s) <= max ->
  let s' := snd (__v4l2_ctrl_modify_range exposure set_exposure
                   exposure_s_ctrl s (minimum (exposure s)) max
                   (step (exposure s)) (default_value (exposure s))) in
  ctrl_frame s s' /\
  maximum (exposure s') = max /\
  minimum (exposure s') = minimum (exposure s) /\
  step (exposure s') = step (exposure s) /\
  default_value (exposure s') = default_value (exposure s) /\
  ctrl_type (exposure s') = ctrl_type (exposure s) /\
  minimum (exposure s) <= cur (exposure s') <= max.
Proof.
  intros Hen Hidle Htype Hstep Hdef. cbv zeta.
  assert (Hcheck : check_range (ctrl_type (exposure s))
                     (minimum (exposure s)) max (step (exposure s))
                     (default_value (exposure s)) = 0).
  { unfold check_range. rewrite Htype.
    match goal with
    | |- (if ?c then _ else _) = 0 =>
        replace c with false
          by (symmetry; repeat (apply orb_false_iff; split); lia)
    end. reflexivity. }
  split; [apply ctrl_frame_modify_exposure|].
  destruct (modify_range_range exposure set_exposure exposure_s_ctrl
              (fun s c => eq_refl) exposure_op_keeps s _ _ _ _ Hcheck)
    as (T & A & B & C & D).
  cbv zeta in T, A, B, C, D.
  repeat split; try assumption;
    apply (modify_range_value exposure set_exposure exposure_s_ctrl
             (fun s c => eq_refl) exposure_op_keeps s _ _ _ _
             Htype Hcheck Hstep);
    intros op c v Hop; unfold exposure_s_ctrl in Hop; injection Hop as <-;
    rewrite s5k3l6_set_ctrl_write_idle by assumption; reflexivity.
Qed.

(** X14. Setting the vertical blanking while the device is idle keeps the
    exposure within its limit.  The value is rounded into the range of the
    control and accepted without a transaction; when this changes the
    blanking, the maximum of the exposure control becomes
    [height + vblank - 4] for the new blanking and the exposure value does
    not exceed it; when the rounded value is the current one nothing
    changes. *)
Theorem v4l2_s_ctrl_vblank_idle :
  forall (s : s5k3l6) (v : Z),
    let h := height (cur_mode s) in
    let v' := round_to_range (vblank s) v in
    let r := v4l2_s_ctrl_vblank s v in
    disabled (pm s) = false -> usage_count (pm s) = 0%nat ->
    is_menu (ctrl_type (vblank s)) = false ->
    0 < step (vblank s) -> minimum (vblank s) <= maximum (vblank s) ->
    is_menu (ctrl_type (exposure s)) = false -> 0 < step (exposure s) ->
    minimum (exposure s) <= default_value (exposure s)
                         <= h + minimum (vblank s) - 4 ->
    0 <= h + minimum (vblank s) - 4 -> h + maximum (vblank s) < 2 ^ 32 ->
    fst r = 0 /\
    client (snd r) = client s /\
    cur (vblank (snd r)) = v' /\
    minimum (vblank s) <= v' <= maximum (vblank s) /\
    (v' = cur (vblank s) -> snd r = s) /\
    (v' <> cur (vblank s) ->
     maximum (exposure (snd r)) = h + v' - 4 /\
     cur (exposure (snd r)) <= h + v' - 4).
Proof.
  intros s v h v' r Hen Hidle Hvt Hvs Hvr Het Hes Hed Hlo Hhi. subst r.
  pose proof (round_to_range_bounds (vblank s) v Hvs Hvr) as Hv'.
  fold v' in Hv'.
  unfold v4l2_s_ctrl_vblank, set_ctrl, validate_new. rewrite Hvt.
  fold v'. change (negb (0 =? 0)) with false. cbv iota.
  unfold try_or_set_cluster.
  destruct (v' =? cur (vblank s)) eqn:Esame.
  - apply Z.eqb_eq in Esame. cbn [fst snd].
    repeat split; try reflexivity; try lia; try (symmetry; exact Esame).
  - apply Z.eqb_neq in Esame. unfold s5k3l6_ctrl_ops.
    pose proof (set_ctrl_idle_ok s V4L2_CID_VBLANK v' Hen Hidle) as Hret.
    unfold s5k3l6_set_ctrl in Hret |- *. cbv zeta in Hret |- *. fold h in Hret |- *.
    assert (Hmax : u32 (h + v' - 4) = h + v' - 4)
      by (unfold u32; apply Z.mod_small; lia).
    rewrite Hmax in Hret |- *.
    destruct (modify_exposure_idle s (h + v' - 4) Hen Hidle Het Hes
                ltac:(lia)) as (F & A & _ & _ & _ & _ & V).
    cbv zeta in F, A, V.
    set (s1 := snd (__v4l2_ctrl_modify_range exposure set_exposure
                      exposure_s_ctrl s (minimum (exposure s)) (h + v' - 4)
                      (step (exposure s)) (default_value (exposure s)))) in *.
    destruct F as (_ & _ & _ & F4 & _ & _ & _ & _ & _ & _ & _ & F12 & F13 & _
                   & F15 & es & F16).
    assert (Hidle1 : usage_count (pm s1) = 0%nat) by (rewrite F15; assumption).
    assert (Hen1 : disabled (pm s1) = false) by congruence.
    rewrite s5k3l6_set_ctrl_write_idle by assumption.
    change (negb (0 =? 0)) with false. cbv iota. cbn [fst snd].
    cbn [client vblank exposure set_vblank cur set_cur].
    assert (Hc : client s1 = client s).
    { subst s1. unfold __v4l2_ctrl_modify_range.
      destruct (negb (check_range _ _ _ _ _ =? 0)); [reflexivity|].
      cbv zeta.
      match goal with
      | |- context [validate_new ?c ?x] => destruct (validate_new c x)
      end.
      match goal with
      | |- context [if ?c then _ else _] => destruct c
      end; [|reflexivity].
      unfold set_ctrl.
      match goal with
      | |- context [validate_new ?c ?x] => destruct (validate_new c x)
      end.
      match goal with
      | |- context [if ?c then _ else _] => destruct c
      end; [reflexivity|].
      unfold try_or_set_cluster.
      match goal with
      | |- context [if ?c then _ else _] => destruct c
      end; [reflexivity|].
      unfold exposure_s_ctrl.
      rewrite s5k3l6_set_ctrl_write_idle by assumption. reflexivity. }
    repeat split; try assumption; try lia.
Qed.

Lemma v4l2_s_ctrl_vblank_idle_witness :
  let s := s5k3l6_probe (ack_all []) board 0 in
  cur (vblank (snd (v4l2_s_ctrl_vblank s 70000))) = 62407 /\
  maximum (exposure (snd (v4l2_s_ctrl_vblank s 70000))) = 65523 /\
  cur (exposure (snd (v4l2_s_ctrl_vblank s 70000))) <= 65523.
Proof.
  intros s.
  destruct (v4l2_s_ctrl_vblank_idle s 70000) as (_ & _ & H1 & _ & _ & H2).
  - reflexivity.
  - reflexivity.
  - reflexivity.
  - vm_compute. reflexivity.
  - vm_compute. discriminate.
  - reflexivity.
  - vm_compute. reflexivity.
  - vm_compute. split; discriminate.
  - vm_compute. discriminate.
  - vm_compute. reflexivity.
  - destruct H2 as (H2 & H3); [vm_compute; discriminate|].
    rewrite H1. split; [vm_compute; reflexivity|].
    split; [rewrite H2; vm_compute; reflexivity|].
    etransitivity; [exact H3|]. vm_compute. discriminate.
Defined.

Lemma pm_eq (p q : dev_pm_info) :
  disabled q = disabled p -> usage_count q = usage_count p ->
  resume_ret q = resume_ret p -> q = p.
Proof. destruct p, q; simpl; intros; congruence. Qed.

(** While the device is idle a control call is silent: no transaction, the
    usage count untouched, result 0. *)
Lemma set_ctrl_idle_quiet (s : s5k3l6) (id : v4l2_cid) (v : Z) :
  disabled (pm s) = false -> usage_count (pm s) = 0%nat ->
  client (snd (s5k3l6_set_ctrl s id v)) = client s /\
  pm (snd (s5k3l6_set_ctrl s id v)) = pm s.
Proof.
  intros Hen Hidle.
  destruct (ctrl_frame_set_ctrl s id v)
    as (_ & _ & _ & _ & _ & _ & _ & _ & _ & _ & _ & _ & F13 & F14 & F15 & _).
  split; [|apply pm_eq; auto].
  unfold s5k3l6_set_ctrl. cbv zeta.
  destruct id; try (rewrite s5k3l6_set_ctrl_write_idle by assumption;
                    reflexivity).
  match goal with
  | |- client (snd (s5k3l6_set_ctrl_write ?t _ _)) = _ => set (s1 := t)
  end.
  assert (H1 : client s1 = client s /\ pm s1 = pm s).
  { subst s1. unfold __v4l2_ctrl_modify_range.
    destruct (negb (check_range _ _ _ _ _ =? 0)); [split; reflexivity|].
    cbv zeta.
    match goal with
    | |- context [validate_new ?c ?x] => destruct (validate_new c x)
    end.
    match goal with
    | |- context [if ?c then _ else _] => destruct c
    end; [|split; reflexivity].
    unfold set_ctrl.
    match goal with
    | |- context [validate_new ?c ?x] => destruct (validate_new c x)
    end.
    match goal with
    | |- context [if ?c then _ else _] => destruct c
    end; [split; reflexivity|].
    unfold try_or_set_cluster.
    match goal with
    | |- context [if ?c then _ else _] => destruct c
    end; [split; reflexivity|].
    unfold exposure_s_ctrl.
    rewrite s5k3l6_set_ctrl_write_idle by assumption. split; reflexivity. }
  destruct H1 as [Hc Hp].
  rewrite s5k3l6_set_ctrl_write_idle by (rewrite Hp; assumption).
  exact Hc.
Qed.

(** X15. An active format request on an idle device is silent and leaves
    the vertical blanking inside the range of the new mode: no transaction
    is issued, the usage count is untouched, the result is 0, and the
    blanking value lies between the new bounds. *)
Theorem s5k3l6_set_fmt_active_idle :
  forall (CONFIG_VIDEO_V4L2_SUBDEV_API : bool) (s : s5k3l6)
         (sd_state : v4l2_subdev_state) (fmt : v4l2_subdev_format),
    which fmt = V4L2_SUBDEV_FORMAT_ACTIVE ->
    is_menu (ctrl_type (vblank s)) = false ->
    disabled (pm s) = false -> usage_count (pm s) = 0%nat ->
    let m := s5k3l6_find_best_fit fmt in
    let r := s5k3l6_set_fmt CONFIG_VIDEO_V4L2_SUBDEV_API s sd_state fmt in
    let s' := snd (fst (fst r)) in
    fst (fst (fst r)) = 0 /\
    client s' = client s /\ pm s' = pm s /\
    vts_def m - height m <= cur (vblank s') <= S5K3L6_VTS_MAX - height m.
Proof.
  intros cfg s st fmt Hact Hvb Hen Hidle. cbv zeta.
  unfold s5k3l6_set_fmt. cbv zeta. simpl which. rewrite Hact.
  cbn [fst snd].
  set (m := s5k3l6_find_best_fit fmt).
  set (hb := u32 (hts_def m - width m)).
  set (vmin := u32 (vts_def m - height m)).
  set (vmax := u32 (S5K3L6_VTS_MAX - height m)).
  set (pr := u32 (u32 (u32 (nth (Z.to_nat (link_freq_idx m))
                                link_freq_items 0) / bpp m * 2)
                  * S5K3L6_LANES)).
  assert (Hnum : vmin = vts_def m - height m /\
                 vmax = S5K3L6_VTS_MAX - height m /\ vmin <= vmax).
  { subst vmin vmax.
    destruct (best_fit_cases fmt) as [E|E]; fold m in E; rewrite E;
      vm_compute; repeat split; congruence. }
  destruct Hnum as (Evmin & Evmax & Hvrange).
  set (s1 := set_cur_mode s m).
  set (s2 := snd (__v4l2_ctrl_modify_range hblank set_hblank None s1
                    hb hb 1 hb)).
  set (s3 := snd (__v4l2_ctrl_modify_range vblank set_vblank vblank_s_ctrl
                    s2 vmin vmax 1 vmin)).
  set (s4 := snd (__v4l2_ctrl_s_ctrl_int64 pixel_rate set_pixel_rate None
                    s3 pr)).
  set (s5 := snd (__v4l2_ctrl_s_ctrl link_freq set_link_freq None s4
                    (link_freq_idx m))).
  assert (K2v : keeps vblank s1 s2) by (subst s2; keep_step).
  assert (K2c : keeps client s1 s2) by (subst s2; keep_step).
  assert (K2p : keeps pm s1 s2) by (subst s2; keep_step).
  assert (K4v : keeps vblank s3 s4) by (subst s4; keep_step).
  assert (K4c : keeps client s3 s4) by (subst s4; keep_step).
  assert (K4p : keeps pm s3 s4) by (subst s4; keep_step).
  assert (K5v : keeps vblank s4 s5) by (subst s5; keep_step).
  assert (K5c : keeps client s4 s5) by (subst s5; keep_step).
  assert (K5p : keeps pm s4 s5) by (subst s5; keep_step).
  unfold keeps in *.
  assert (Hpm2 : pm s2 = pm s) by (rewrite K2p; reflexivity).
  (* the step on the vertical blanking, with an idle device *)
  assert (K3 : client s3 = client s2 /\ pm s3 = pm s2).
  { subst s3.
    apply (modify_range_R vblank set_vblank vblank_s_ctrl
             (fun a b => pm a = pm s -> client b = client a /\ pm b = pm a)).
    - intros a _. split; reflexivity.
    - intros a b c Hab Hbc Ha. destruct (Hab Ha) as [Hc1 Hp1].
      destruct (Hbc ltac:(congruence)) as [Hc2 Hp2].
      split; congruence.
    - intros a c _. split; reflexivity.
    - intros op a v0 Hop Ha. unfold vblank_s_ctrl, s5k3l6_ctrl_ops in Hop.
      injection Hop as <-.
      apply set_ctrl_idle_quiet; rewrite Ha; assumption.
    - exact Hpm2. }
  destruct K3 as [K3c K3p].
  assert (Cvb : check_range (ctrl_type (vblank s2)) vmin vmax 1 vmin = 0).
  { unfold check_range. rewrite K2v. change (vblank s1) with (vblank s).
    rewrite Hvb.
    replace ((1 =? 0) || (vmin >? vmax) || (vmin <? vmin) || (vmin >? vmax))
      with false
      by (symmetry; repeat (apply orb_false_iff; split); lia).
    reflexivity. }
  assert (V3 : vmin <= cur (vblank s3) <= vmax).
  { subst s3.
    apply (modify_range_value vblank set_vblank vblank_s_ctrl
             (fun s c => eq_refl)
             ltac:(intros op s0 v0 Hop;
                   apply (vblank_op_frame op s0 v0 Hop))).
    - rewrite K2v. exact Hvb.
    - exact Cvb.
    - lia.
    - intros op c v0 Hop. unfold vblank_s_ctrl, s5k3l6_ctrl_ops in Hop.
      injection Hop as <-.
      apply set_ctrl_idle_ok; change (pm (set_vblank s2 c)) with (pm s2);
        rewrite Hpm2; assumption. }
  rewrite K5c, K4c, K3c, K2c, K5p, K4p, K3p, K2p, K5v, K4v.
  rewrite <- Evmin, <- Evmax.
  repeat split; try reflexivity; apply V3.
Qed.

Lemma s5k3l6_set_fmt_active_idle_witness :
  let s := s5k3l6_probe (nack_at 0) board 0 in
  let s' := snd (fst (fst (s5k3l6_set_fmt true s no_try
                             (request 2104 1560 V4L2_SUBDEV_FORMAT_ACTIVE)))) in
  xfers (client s') = [] /\ 1700 <= cur (vblank s') <= 63967.
Proof.
  intros s s'. 
  destruct (s5k3l6_set_fmt_active_idle true s no_try
              (request 2104 1560 V4L2_SUBDEV_FORMAT_ACTIVE))
    as (_ & H1 & _ & H2).
  - reflexivity.
  - reflexivity.
  - reflexivity.
  - reflexivity.
  - fold s' in H1, H2. rewrite H1. split; [reflexivity|].
    vm_compute in H2. vm_compute. exact H2.
Defined.

(** * Enumeration and format queries *)

Lemma is_sensor_code_iff (code : option mbus_code) :
  is_sensor_code code = true <-> code = Some S5K3L6_MEDIA_BUS_FMT.
Proof.
  unfold is_sensor_code, S5K3L6_MEDIA_BUS_FMT.
  destruct code as [[]|]; simpl; split; congruence.
Qed.

(** Asking for the size of a catalog entry selects that entry. *)
Lemma best_fit_of_catalog_size (i : nat) (m : s5k3l6_mode)
                               (wh : v4l2_subdev_format_whence) :
  nth_error supported_modes i = Some m ->
  s5k3l6_find_best_fit (request (width m) (height m) wh) = m.
Proof.
  destruct i as [|[|i]]; simpl; intros H.
  - injection H as <-. reflexivity.
  - injection H as <-. reflexivity.
  - destruct i; discriminate.
Qed.

Lemma catalog_index (idx : Z) :
  0 <= idx -> (idx >=? ARRAY_SIZE supported_modes) = false ->
  nth_error supported_modes (Z.to_nat idx)
  = Some (nth (Z.to_nat idx) supported_modes mode_4208x3120).
Proof.
  intros H0 H. apply nth_error_nth'.
  unfold ARRAY_SIZE in H. rewrite Z.geb_leb in H. apply Z.leb_gt in H. lia.
Qed.

(** X16. Frame sizes are enumerated for the indices of the mode catalog
    and the sensor's media bus code only; every other request is refused
    with [-EINVAL] and the caller's structure is left alone.  An enumerated
    size has equal minimum and maximum, and requesting it as a format
    selects exactly the enumerated entry. *)
Theorem s5k3l6_enum_frame_sizes_selectable :
  forall (fse : v4l2_subdev_frame_size_enum)
         (wh : v4l2_subdev_format_whence),
    0 <= fse_index fse ->
    let r := s5k3l6_enum_frame_sizes fse in
    (fst r = 0 <->
     fse_index fse < 2 /\ fse_code fse = Some S5K3L6_MEDIA_BUS_FMT) /\
    (fst r <> 0 -> fst r = - EINVAL /\ snd r = fse) /\
    (fst r = 0 ->
     min_width (snd r) = max_width (snd r) /\
     min_height (snd r) = max_height (snd r) /\
     nth_error supported_modes (Z.to_nat (fse_index fse))
     = Some (s5k3l6_find_best_fit
               (request (max_width (snd r)) (max_height (snd r)) wh))).
Proof.
  intros fse wh Hidx. cbv zeta. unfold s5k3l6_enum_frame_sizes.
  destruct (fse_index fse >=? ARRAY_SIZE supported_modes) eqn:Ei.
  - cbn [fst snd]. apply Z.geb_le in Ei. change (ARRAY_SIZE supported_modes)
      with 2 in Ei.
    split; [split; [unfold EINVAL; lia|intros [H1 _]; lia]|].
    split; [intros _; split; reflexivity|unfold EINVAL; lia].
  - pose proof (catalog_index _ Hidx Ei) as Hnth.
    rewrite Z.geb_leb in Ei. change (ARRAY_SIZE supported_modes) with 2 in Ei.
    apply Z.leb_gt in Ei.
    destruct (is_sensor_code (fse_code fse)) eqn:Ec; cbn [negb fst snd].
    + apply is_sensor_code_iff in Ec.
      split; [split; [intros _; split; assumption|reflexivity]|].
      split; [intros H; contradiction|]. intros _.
      cbn [min_width max_width min_height max_height].
      split; [reflexivity|]. split; [reflexivity|].
      rewrite (best_fit_of_catalog_size _ _ wh Hnth). exact Hnth.
    + assert (Hne : fse_code fse <> Some S5K3L6_MEDIA_BUS_FMT).
      { intros H. apply is_sensor_code_iff in H. congruence. }
      split; [split; [unfold EINVAL; lia|intros [_ H]; contradiction]|].
      split; [intros _; split; reflexivity|unfold EINVAL; lia].
Qed.

Lemma s5k3l6_enum_frame_sizes_selectable_witness :
  let fse := {| fse_index := 1; fse_code := Some MEDIA_BUS_FMT_SGRBG10_1X10;
                min_width := 0; max_width := 0; min_height := 0;
                max_height := 0 |} in
  nth_error supported_modes 1
  = Some (s5k3l6_find_best_fit
            (request (max_width (snd (s5k3l6_enum_frame_sizes fse)))
                     (max_height (snd (s5k3l6_enum_frame_sizes fse)))
                     V4L2_SUBDEV_FORMAT_ACTIVE)).
Proof.
  intros fse.
  destruct (s5k3l6_enum_frame_sizes_selectable fse V4L2_SUBDEV_FORMAT_ACTIVE)
    as (_ & _ & H).
  - simpl. lia.
  - destruct H as (_ & _ & H); [reflexivity|exact H].
Defined.

(** An active format request makes the best-fit mode the current mode,
    in every state. *)
Lemma set_fmt_active_cur_mode (cfg : bool) (s : s5k3l6)
                              (st : v4l2_subdev_state)
                              (fmt : v4l2_subdev_format) :
  which fmt = V4L2_SUBDEV_FORMAT_ACTIVE ->
  cur_mode (snd (fst (fst (s5k3l6_set_fmt cfg s st fmt))))
  = s5k3l6_find_best_fit fmt.
Proof.
  intros Hact. unfold s5k3l6_set_fmt. cbv zeta. simpl which. rewrite Hact.
  cbn [fst snd].
  set (m := s5k3l6_find_best_fit fmt).
  match goal with
  | |- cur_mode (snd (__v4l2_ctrl_s_ctrl _ _ _ ?s4 _)) = _ =>
      assert (K5 : keeps cur_mode s4
                     (snd (__v4l2_ctrl_s_ctrl link_freq set_link_freq None s4
                             (link_freq_idx m)))) by keep_step;
      unfold keeps in K5; rewrite K5
  end.
  match goal with
  | |- cur_mode (snd (__v4l2_ctrl_s_ctrl_int64 _ _ _ ?s3 ?pr)) = _ =>
      assert (K4 : keeps cur_mode s3
                     (snd (__v4l2_ctrl_s_ctrl_int64 pixel_rate set_pixel_rate
                             None s3 pr))) by keep_step;
      unfold keeps in K4; rewrite K4
  end.
  match goal with
  | |- cur_mode (snd (__v4l2_ctrl_modify_range _ _ _ ?s2 ?a ?b ?c ?d)) = _ =>
      assert (K3 : keeps cur_mode s2
                     (snd (__v4l2_ctrl_modify_range vblank set_vblank
                             vblank_s_ctrl s2 a b c d))) by keep_step;
      unfold keeps in K3; rewrite K3
  end.
  match goal with
  | |- cur_mode (snd (__v4l2_ctrl_modify_range _ _ _ ?s1 ?a ?b ?c ?d)) = _ =>
      assert (K2 : keeps cur_mode s1
                     (snd (__v4l2_ctrl_modify_range hblank set_hblank
                             None s1 a b c d))) by keep_step;
      unfold keeps in K2; rewrite K2
  end.
  reflexivity.
Qed.

(** X17. Frame intervals are enumerated under the conditions of frame
    sizes: for an index inside the mode catalog together with the sensor's
    media bus code, and then the size and the interval of the mode at that
    index are reported; every other request is refused with [-EINVAL] and
    the caller's structure is left alone.  After an active format request
    for an enumerated size, the size of the current mode is the enumerated
    one and [s5k3l6_g_frame_interval] reports the enumerated interval,
    whatever the state the request was made in. *)
Theorem s5k3l6_enum_frame_interval_agrees :
  forall (CONFIG_VIDEO_V4L2_SUBDEV_API : bool) (s : s5k3l6)
         (sd_state : v4l2_subdev_state)
         (fie : v4l2_subdev_frame_interval_enum),
    0 <= fie_index fie ->
    let r := s5k3l6_enum_frame_interval fie in
    let fse := {| fse_index := fie_index fie; fse_code := fie_code fie;
                  min_width := 0; max_width := 0; min_height := 0;
                  max_height := 0 |} in
    (fst r = 0 <->
     fie_index fie < 2 /\ fie_code fie = Some S5K3L6_MEDIA_BUS_FMT) /\
    (fst r = 0 <-> fst (s5k3l6_enum_frame_sizes fse) = 0) /\
    (fst r <> 0 -> fst r = - EINVAL /\ snd r = fie) /\
    (fst r = 0 ->
     (exists m : s5k3l6_mode,
        nth_error supported_modes (Z.to_nat (fie_index fie)) = Some m /\
        snd r = {| fie_index := fie_index fie; fie_code := fie_code fie;
                   fie_width := width m; fie_height := height m;
                   fie_interval := max_fps m |}) /\
     fie_width (snd r) = max_width (snd (s5k3l6_enum_frame_sizes fse)) /\
     fie_height (snd r) = max_height (snd (s5k3l6_enum_frame_sizes fse)) /\
     let s' := snd (fst (fst (s5k3l6_set_fmt CONFIG_VIDEO_V4L2_SUBDEV_API
                                s sd_state
                                (request (fie_width (snd r))
                                         (fie_height (snd r))
                                         V4L2_SUBDEV_FORMAT_ACTIVE)))) in
     width (cur_mode s') = fie_width (snd r) /\
     height (cur_mode s') = fie_height (snd r) /\
     s5k3l6_g_frame_interval s' = (0, fie_interval (snd r))).
Proof.
  intros cfg s st fie Hidx. cbv zeta.
  unfold s5k3l6_enum_frame_interval, s5k3l6_enum_frame_sizes.
  cbn [fse_index fse_code].
  destruct (fie_index fie >=? ARRAY_SIZE supported_modes) eqn:Ei.
  - cbn [fst snd]. apply Z.geb_le in Ei.
    change (ARRAY_SIZE supported_modes) with 2 in Ei.
    split; [split; [unfold EINVAL; lia|intros [H1 _]; lia]|].
    split; [split; intros H; exact H|].
    split; [intros _; split; reflexivity|unfold EINVAL; lia].
  - pose proof (catalog_index _ Hidx Ei) as Hnth.
    rewrite Z.geb_leb in Ei. change (ARRAY_SIZE supported_modes) with 2 in Ei.
    apply Z.leb_gt in Ei.
    destruct (is_sensor_code (fie_code fie)) eqn:Ec; cbn [negb fst snd].
    + apply is_sensor_code_iff in Ec.
      split; [split; [intros _; split; assumption|reflexivity]|].
      split; [split; reflexivity|].
      split; [intros H; contradiction|]. intros _.
      cbn [fie_width fie_height fie_interval max_width max_height].
      split; [eexists; split; [exact Hnth|reflexivity]|].
      split; [reflexivity|]. split; [reflexivity|].
      rewrite set_fmt_active_cur_mode by reflexivity.
      unfold s5k3l6_g_frame_interval.
      rewrite set_fmt_active_cur_mode by reflexivity.
      rewrite (best_fit_of_catalog_size _ _ V4L2_SUBDEV_FORMAT_ACTIVE Hnth).
      repeat split; reflexivity.
    + assert (Hne : fie_code fie <> Some S5K3L6_MEDIA_BUS_FMT).
      { intros H. apply is_sensor_code_iff in H. congruence. }
      split; [split; [unfold EINVAL; lia|intros [_ H]; contradiction]|].
      split; [split; intros H; exact H|].
      split; [intros _; split; reflexivity|unfold EINVAL; lia].
Qed.

Lemma s5k3l6_enum_frame_interval_agrees_witness :
  let fie := {| fie_index := 0; fie_code := Some MEDIA_BUS_FMT_SGRBG10_1X10;
                fie_width := 0; fie_height := 0;
                fie_interval := {| numerator := 0; denominator := 0 |} |} in
  let s := snd (fst (fst (s5k3l6_set_fmt true
                            (s5k3l6_probe (ack_all []) board 0) no_try
                            (request 4208 3120 V4L2_SUBDEV_FORMAT_ACTIVE)))) in
  fst (s5k3l6_enum_frame_interval fie) = 0 /\
  s5k3l6_g_frame_interval s
  = (0, {| numerator := 10000; denominator := 300000 |}).
Proof.
  intros fie s.
  destruct (s5k3l6_enum_frame_interval_agrees true
              (s5k3l6_probe (ack_all []) board 0) no_try fie)
    as (Hiff & _ & _ & H).
  - simpl. lia.
  - assert (Hok : fst (s5k3l6_enum_frame_interval fie) = 0).
    { apply Hiff. split; [simpl; lia|reflexivity]. }
    split; [exact Hok|].
    destruct (H Hok) as (_ & _ & _ & _ & _ & Hg). exact Hg.
Defined.

(** The answer of [s5k3l6_set_fmt] to the caller. *)
Lemma set_fmt_answer (cfg : bool) (s : s5k3l6) (st : v4l2_subdev_state)
                     (fmt : v4l2_subdev_format) :
  snd (s5k3l6_set_fmt cfg s st fmt)
  = {| which := which fmt; pad := pad fmt;
       format := {| fmt_width := width (s5k3l6_find_best_fit fmt);
                    fmt_height := height (s5k3l6_find_best_fit fmt);
                    fmt_code := Some S5K3L6_MEDIA_BUS_FMT;
                    fmt_field := V4L2_FIELD_NONE |} |}.
Proof.
  unfold s5k3l6_set_fmt. cbv zeta. cbn [which].
  destruct (which fmt); [destruct cfg|]; reflexivity.
Qed.

Lemma set_fmt_try_state (s : s5k3l6) (st : v4l2_subdev_state)
                        (fmt : v4l2_subdev_format) :
  which fmt = V4L2_SUBDEV_FORMAT_TRY ->
  snd (fst (s5k3l6_set_fmt true s st fmt))
  = {| try_fmt := format (snd (s5k3l6_set_fmt true s st fmt)) |} /\
  fst (fst (fst (s5k3l6_set_fmt false s st fmt))) = - ENOTTY.
Proof.
  intros Hw. unfold s5k3l6_set_fmt. cbv zeta. cbn [which]. rewrite Hw.
  split; reflexivity.
Qed.

(** X18. What [s5k3l6_set_fmt] answers is what [s5k3l6_get_fmt] reports
    afterwards, for the active format as for the try format of the file
    handle, and the answer is stable: requesting the answered format again
    selects the same mode. *)
Theorem s5k3l6_set_get_fmt :
  forall (CONFIG_VIDEO_V4L2_SUBDEV_API : bool) (s : s5k3l6)
         (sd_state : v4l2_subdev_state) (fmt : v4l2_subdev_format),
    let r := s5k3l6_set_fmt CONFIG_VIDEO_V4L2_SUBDEV_API s sd_state fmt in
    let s' := snd (fst (fst r)) in
    let st' := snd (fst r) in
    let fmt' := snd r in
    s5k3l6_find_best_fit fmt' = s5k3l6_find_best_fit fmt /\
    (fst (fst (fst r)) = 0 ->
     s5k3l6_get_fmt CONFIG_VIDEO_V4L2_SUBDEV_API s' st' fmt' = (0, fmt')).
Proof.
  intros cfg s st fmt. cbv zeta.
  assert (Hfix : s5k3l6_find_best_fit (snd (s5k3l6_set_fmt cfg s st fmt))
                 = s5k3l6_find_best_fit fmt).
  { rewrite set_fmt_answer.
    destruct (best_fit_cases fmt) as [E|E]; rewrite E; reflexivity. }
  split; [exact Hfix|]. intros Hret.
  unfold s5k3l6_get_fmt.
  destruct (which fmt) eqn:Hw.
  - (* try *)
    destruct (set_fmt_try_state s st fmt Hw) as [Ht Hn].
    destruct cfg; [|rewrite Hn in Hret; unfold ENOTTY in Hret; lia].
    rewrite Ht. rewrite set_fmt_answer. cbn [which pad format try_fmt].
    rewrite Hw. reflexivity.
  - (* active *)
    rewrite (set_fmt_active_cur_mode cfg s st fmt Hw).
    rewrite set_fmt_answer. cbn [which pad]. rewrite Hw. reflexivity.
Qed.

Lemma s5k3l6_set_get_fmt_witness :
  let r := s5k3l6_set_fmt true (s5k3l6_probe (ack_all []) board 0) no_try
             (request 2200 1600 V4L2_SUBDEV_FORMAT_ACTIVE) in
  s5k3l6_get_fmt true (snd (fst (fst r))) (snd (fst r)) (snd r)
  = (0, request_answer 2104 1560 V4L2_SUBDEV_FORMAT_ACTIVE).
Proof.
  intros r. subst r.
  rewrite (proj2 (s5k3l6_set_get_fmt true
                    (s5k3l6_probe (ack_all []) board 0) no_try
                    (request 2200 1600 V4L2_SUBDEV_FORMAT_ACTIVE)));
    [|vm_compute; reflexivity].
  rewrite set_fmt_answer. reflexivity.
Defined.

(** X19. A new file handle starts with the format of the freshly probed
    device: the try format installed by [s5k3l6_open] is the active format
    reported right after probe, whatever the link and the board. *)
Theorem s5k3l6_open_matches_probe :
  forall (a : i2c_adapter) (pw : s5k3l6_power_ctrl) (resume : Z)
         (s : s5k3l6) (p : Z),
    let dev := s5k3l6_probe a pw resume in
    fst (s5k3l6_open s) = 0 /\
    format (snd (s5k3l6_get_fmt true s (snd (s5k3l6_open s))
                   {| which := V4L2_SUBDEV_FORMAT_TRY; pad := p;
                      format := format (request 0 0 V4L2_SUBDEV_FORMAT_TRY) |}))
    = format (snd (s5k3l6_get_fmt true dev no_try
                     {| which := V4L2_SUBDEV_FORMAT_ACTIVE; pad := p;
                        format := format (request 0 0
                                            V4L2_SUBDEV_FORMAT_TRY) |})).
Proof.
  intros a pw resume s p. cbv zeta. split; [reflexivity|].
  unfold s5k3l6_get_fmt. cbn [which snd format try_fmt s5k3l6_open].
  assert (Hm : cur_mode (s5k3l6_probe a pw resume) = mode_4208x3120)
    by (vm_compute; reflexivity).
  rewrite Hm. reflexivity.
Qed.

(** * Crop bounds *)

Lemma crop_start_bounds (src dst : Z) :
  0 <= dst <= src -> src < 2 ^ 31 ->
  let c := s32 (CROP_START src dst) in
  0 <= c /\ c + dst <= src /\ c mod 4 = 0 /\ 2 * c <= src - dst.
Proof.
  intros Hd Hs. cbv zeta. unfold CROP_START, u32.
  rewrite (Z.mod_small (src - dst)) by lia.
  set (x := src - dst).
  assert (Hx : 0 <= x < 2 ^ 31) by (subst x; lia).
  pose proof (Z.mul_div_le x 2 ltac:(lia)) as H2.
  assert (H0 : 0 <= x / 2) by (apply Z.div_pos; lia).
  pose proof (Z.mul_div_le (x / 2) 4 ltac:(lia)) as H4.
  assert (H00 : 0 <= x / 2 / 4) by (apply Z.div_pos; lia).
  rewrite (Z.mod_small (x / 2 / 4 * 4)) by lia.
  rewrite s32_small by lia.
  repeat split; try lia.
  apply Z.mod_mul. lia.
Qed.

(** [CROP_START] without the 32-bit wrap, for a destination that fits
    the source. *)
Lemma crop_start_value (src dst : Z) :
  0 <= dst <= src -> src < 2 ^ 31 ->
  s32 (CROP_START src dst) = (src - dst) / 2 / 4 * 4.
Proof.
  intros Hd Hs. unfold CROP_START, u32.
  rewrite (Z.mod_small (src - dst)) by lia.
  set (x := src - dst).
  assert (Hx : 0 <= x < 2 ^ 31) by (subst x; lia).
  pose proof (Z.mul_div_le x 2 ltac:(lia)) as H2.
  assert (H0 : 0 <= x / 2) by (apply Z.div_pos; lia).
  pose proof (Z.mul_div_le (x / 2) 4 ltac:(lia)) as H4.
  assert (H00 : 0 <= x / 2 / 4) by (apply Z.div_pos; lia).
  rewrite (Z.mod_small (x / 2 / 4 * 4)) by lia.
  apply s32_small. lia.
Qed.

(** X20. The crop bounds of the current mode, for a mode whose frame holds
    the reported rectangle (any mode, and at least 1560 lines for a 2104
    wide one).  A 2104 wide mode reports the rectangle 2096 x 1560 at
    column 4 and row [(height - 1560) / 2 / 4 * 4]: centred in the width,
    and in the height up to the rounding of the row down to a multiple of
    4.  Every other mode reports its full frame at the origin.  In both
    cases the rectangle starts at non-negative offsets that are multiples
    of 4 and ends inside the frame.  Every other selection target is
    refused with [-EINVAL] and the caller's structure is left alone. *)
Theorem s5k3l6_get_selection_inside :
  forall (s : s5k3l6) (sel : v4l2_subdev_selection),
    let m := cur_mode s in
    let res := s5k3l6_get_selection s sel in
    0 <= width m < 2 ^ 31 -> 0 <= height m < 2 ^ 31 ->
    (width m = 2104 -> 1560 <= height m) ->
    (target sel = V4L2_SEL_TGT_CROP_BOUNDS ->
     fst res = 0 /\
     target (snd res) = V4L2_SEL_TGT_CROP_BOUNDS /\
     0 <= left (r (snd res)) /\ 0 <= top (r (snd res)) /\
     left (r (snd res)) mod 4 = 0 /\ top (r (snd res)) mod 4 = 0 /\
     left (r (snd res)) + r_width (r (snd res)) <= width m /\
     top (r (snd res)) + r_height (r (snd res)) <= height m /\
     (width m = 2104 ->
      r (snd res) = {| left := 4; top := (height m - 1560) / 2 / 4 * 4;
                       r_width := 2096; r_height := 1560 |} /\
      2 * left (r (snd res)) = width m - r_width (r (snd res)) /\
      2 * top (r (snd res)) <= height m - r_height (r (snd res))
        < 2 * top (r (snd res)) + 8) /\
     (width m <> 2104 ->
      r (snd res) = {| left := 0; top := 0; r_width := width m;
                       r_height := height m |})) /\
    (target sel <> V4L2_SEL_TGT_CROP_BOUNDS -> res = (- EINVAL, sel)).
Proof.
  intros s sel m res Hw Hh H2104. subst res. unfold s5k3l6_get_selection.
  fold m. split.
  - intros Ht. rewrite Ht.
    destruct (width m =? 2104) eqn:E; cbn [fst snd r left top r_width r_height
                                          target].
    + apply Z.eqb_eq in E. specialize (H2104 E).
      destruct (crop_start_bounds (width m) DST_WIDTH_2096)
        as (A1 & A2 & A3 & _); [unfold DST_WIDTH_2096; lia|lia|].
      destruct (crop_start_bounds (height m) DST_HEIGHT_1560)
        as (B1 & B2 & B3 & _); [unfold DST_HEIGHT_1560; lia|lia|].
      cbv zeta in A1, A2, A3, B1, B2, B3.
      split; [reflexivity|]. split; [reflexivity|].
      split; [exact A1|]. split; [exact B1|]. split; [exact A3|].
      split; [exact B3|]. split; [exact A2|]. split; [exact B2|].
      split; [|intros Hne; contradiction]. intros _.
      rewrite (crop_start_value (width m) DST_WIDTH_2096)
        by (unfold DST_WIDTH_2096; lia).
      rewrite (crop_start_value (height m) DST_HEIGHT_1560)
        by (unfold DST_HEIGHT_1560; lia).
      rewrite E. unfold DST_WIDTH_2096, DST_HEIGHT_1560.
      change ((2104 - 2096) / 2 / 4 * 4) with 4.
      split; [reflexivity|]. split; [reflexivity|].
      set (x := height m - 1560).
      assert (Hx : 0 <= x) by (subst x; lia).
      pose proof (Z.div_mod x 2 ltac:(lia)) as D2.
      pose proof (Z.mod_pos_bound x 2 ltac:(lia)) as M2.
      pose proof (Z.div_mod (x / 2) 4 ltac:(lia)) as D4.
      pose proof (Z.mod_pos_bound (x / 2) 4 ltac:(lia)) as M4.
      lia.
    + apply Z.eqb_neq in E.
      destruct (crop_start_bounds (width m) (width m))
        as (A1 & A2 & A3 & A4); [lia|lia|].
      destruct (crop_start_bounds (height m) (height m))
        as (B1 & B2 & B3 & B4); [lia|lia|].
      cbv zeta in A1, A2, A3, A4, B1, B2, B3, B4.
      split; [reflexivity|]. split; [reflexivity|].
      split; [exact A1|]. split; [exact B1|]. split; [exact A3|].
      split; [exact B3|]. split; [exact A2|]. split; [exact B2|].
      split; [intros He; contradiction|].
      intros _. f_equal; lia.
  - intros Ht. destruct (target sel); [contradiction|reflexivity].
Qed.

Lemma s5k3l6_get_selection_inside_witness :
  let s := snd (fst (fst (s5k3l6_set_fmt true
                            (s5k3l6_probe (ack_all []) board 0) no_try
                            (request 2104 1560 V4L2_SUBDEV_FORMAT_ACTIVE)))) in
  let sel := {| target := V4L2_SEL_TGT_CROP_BOUNDS;
                r := {| left := 0; top := 0; r_width := 0; r_height := 0 |} |} in
  r (snd (s5k3l6_get_selection s sel))
  = {| left := 4; top := 0; r_width := 2096; r_height := 1560 |} /\
  left (r (snd (s5k3l6_get_selection s sel)))
  + r_width (r (snd (s5k3l6_get_selection s sel))) <= 2104.
Proof.
  intros s sel.
  destruct (s5k3l6_get_selection_inside s sel) as [H _].
  - vm_compute. split; [discriminate|reflexivity].
  - vm_compute. split; [discriminate|reflexivity].
  - intros _. vm_compute. discriminate.
  - destruct (H eq_refl) as (_ & _ & _ & _ & _ & _ & H1 & _ & H2 & _).
    destruct H2 as (Hr & _); [vm_compute; reflexivity|].
    split; [rewrite Hr; vm_compute; reflexivity|].
    etransitivity; [exact H1|]. vm_compute. discriminate.
Defined.

(** * Clock and rail sequences *)

(** X21. The settle delay is the cycle count divided by the clock rate in
    MHz, rounded up: for a cycle count up to 2^32 - 24 the delay [d]
    satisfies [24 * (d - 1) < cycles <= 24 * d] (342 microseconds for the
    8192 cycles the sensor asks for).  Above that the 32-bit addition of
    the rounding term wraps and the delay comes out as 0. *)
Theorem s5k3l6_cal_delay_ceiling :
  forall cycles : Z,
    (0 <= cycles <= 2 ^ 32 - 24 ->
     24 * (Rails.s5k3l6_cal_delay cycles - 1) < cycles
       <= 24 * Rails.s5k3l6_cal_delay cycles) /\
    (2 ^ 32 - 24 < cycles < 2 ^ 32 -> Rails.s5k3l6_cal_delay cycles = 0).
Proof.
  intros cycles. unfold Rails.s5k3l6_cal_delay. cbv zeta.
  change (Rails.S5K3L6_XVCLK_FREQ / 1000 / 1000) with 24. unfold u32. split.
  - intros H. rewrite (Z.mod_small (cycles + 24 - 1)) by lia.
    assert (Hq : 0 <= (cycles + 24 - 1) / 24 < 2 ^ 32).
    { split; [apply Z.div_pos; lia|apply Z.div_lt_upper_bound; lia]. }
    rewrite (Z.mod_small _ _ Hq).
    pose proof (Z.div_mod (cycles + 24 - 1) 24 ltac:(lia)).
    pose proof (Z.mod_pos_bound (cycles + 24 - 1) 24 ltac:(lia)). lia.
  - intros H.
    assert (E : (cycles + 24 - 1) mod 2 ^ 32 = cycles + 24 - 1 - 2 ^ 32).
    { symmetry. apply Z.mod_unique with (q := 1); lia. }
    rewrite E. rewrite (Z.div_small (cycles + 24 - 1 - 2 ^ 32)) by lia.
    reflexivity.
Qed.

Lemma s5k3l6_cal_delay_ceiling_witness :
  Rails.s5k3l6_cal_delay 8192 = 342 /\
  24 * (Rails.s5k3l6_cal_delay 8192 - 1) < 8192
    <= 24 * Rails.s5k3l6_cal_delay 8192 /\
  Rails.s5k3l6_cal_delay 4294967295 = 0.
Proof.
  split; [reflexivity|]. split.
  - apply (proj1 (s5k3l6_cal_delay_ceiling 8192)). lia.
  - apply (proj2 (s5k3l6_cal_delay_ceiling 4294967295)). lia.
Defined.

Lemma skipn_app_length {A : Type} (l x : list A) :
  skipn (length l) (l ++ x) = x.
Proof. induction l as [|a l IH]; [reflexivity|exact IH]. Qed.

(** Run both sequences once the board is known; the answers of the clock
    and of the regulators stay symbolic. *)
Ltac rails_run :=
  cbv beta iota zeta delta
    [Rails.__s5k3l6_power_on Rails.do
     Rails.power_gpio Rails.reset_gpio Rails.pwdn_gpio Rails.pins_default
     Rails.pins_sleep Rails.clk_prepare_enable_ret
     Rails.regulator_bulk_enable_ret Rails.calls];
  repeat match goal with
         | H : ?b = _ |- context [if ?b then _ else _] =>
             rewrite H; cbv beta iota
         end;
  cbv beta iota zeta delta
    [Rails.added Rails.__s5k3l6_power_off Rails.do
     Rails.power_gpio Rails.reset_gpio Rails.pwdn_gpio Rails.pins_default
     Rails.pins_sleep Rails.clk_prepare_enable_ret
     Rails.regulator_bulk_enable_ret Rails.calls fst snd];
  rewrite <- ?app_assoc; rewrite ?skipn_app_length.

(** X22. [__s5k3l6_power_on] fails only when the clock or the regulators
    cannot be enabled, whichever pins and pin control states are missing.
    When the clock fails its error is returned and neither the regulators
    nor a clock disable are called; when the regulators fail their error is
    returned and the last call disables the clock that was enabled; when
    both succeed the result is 0, the clock is enabled once and not
    disabled, every pin that is present was last driven high, and the last
    call is the wait of 342 to 684 microseconds. *)
Theorem s5k3l6_power_on_outcome :
  forall s : Rails.s5k3l6,
    let r := Rails.__s5k3l6_power_on s in
    let cs := Rails.added s (snd r) in
    let clk := Rails.clk_prepare_enable_ret s in
    let reg := Rails.regulator_bulk_enable_ret s in
    (clk < 0 ->
     fst r = clk /\
     filter Rails.is_clk_disable cs = [] /\
     filter Rails.is_regulator_enable cs = []) /\
    (0 <= clk -> reg < 0 ->
     fst r = reg /\
     last cs Rails.clk_prepare_enable = Rails.clk_disable_unprepare /\
     length (filter Rails.is_clk_enable cs) = 1%nat /\
     length (filter Rails.is_clk_disable cs) = 1%nat) /\
    (0 <= clk -> 0 <= reg ->
     fst r = 0 /\
     length (filter Rails.is_clk_enable cs) = 1%nat /\
     filter Rails.is_clk_disable cs = [] /\
     length (filter Rails.is_regulator_enable cs) = 1%nat /\
     Rails.last_level Rails.POWER cs
     = (if Rails.power_gpio s then Some 1 else None) /\
     Rails.last_level Rails.RESET cs
     = (if Rails.reset_gpio s then Some 1 else None) /\
     Rails.last_level Rails.PWDN cs
     = (if Rails.pwdn_gpio s then Some 1 else None) /\
     last cs Rails.clk_prepare_enable = Rails.usleep_range 342 684).
Proof.
  intros [pg rg dg pd ps clk reg cs0]. cbv zeta.
  cbn [Rails.clk_prepare_enable_ret Rails.regulator_bulk_enable_ret
       Rails.power_gpio Rails.reset_gpio Rails.pwdn_gpio].
  split; [|split].
  - intros Hclk. assert (E : (clk <? 0) = true) by lia.
    destruct pg, rg, dg, pd, ps; rails_run; repeat split; reflexivity.
  - intros Hclk Hreg.
    assert (E1 : (clk <? 0) = false) by lia.
    assert (E2 : (reg <? 0) = true) by lia.
    destruct pg, rg, dg, pd, ps; rails_run; repeat split; reflexivity.
  - intros Hclk Hreg.
    assert (E1 : (clk <? 0) = false) by lia.
    assert (E2 : (reg <? 0) = false) by lia.
    destruct pg, rg, dg, pd, ps; rails_run; repeat split; reflexivity.
Qed.

Lemma s5k3l6_power_on_outcome_witness :
  let r := Rails.__s5k3l6_power_on (quiet_board 0 (-5)) in
  fst r = -5 /\
  last (Rails.calls (snd r)) Rails.clk_prepare_enable
  = Rails.clk_disable_unprepare.
Proof.
  intros r.
  destruct (proj1 (proj2 (s5k3l6_power_on_outcome (quiet_board 0 (-5)))))
    as (H1 & H2 & _).
  - cbn. lia.
  - cbn. lia.
  - split; [exact H1|exact H2].
Defined.

(** X23. A successful [__s5k3l6_power_on] followed by
    [__s5k3l6_power_off] is balanced: between them the clock is enabled
    once and disabled once, the regulators are enabled once and disabled
    once, every pin that is present was last driven low, and the
    regulators are released last. *)
Theorem s5k3l6_power_on_off_balanced :
  forall s : Rails.s5k3l6,
    let r := Rails.__s5k3l6_power_on s in
    let cs := Rails.added s (Rails.__s5k3l6_power_off (snd r)) in
    fst r = 0 ->
    length (filter Rails.is_clk_enable cs) = 1%nat /\
    length (filter Rails.is_clk_disable cs) = 1%nat /\
    length (filter Rails.is_regulator_enable cs) = 1%nat /\
    length (filter Rails.is_regulator_disable cs) = 1%nat /\
    Rails.last_level Rails.POWER cs
    = (if Rails.power_gpio s then Some 0 else None) /\
    Rails.last_level Rails.RESET cs
    = (if Rails.reset_gpio s then Some 0 else None) /\
    Rails.last_level Rails.PWDN cs
    = (if Rails.pwdn_gpio s then Some 0 else None) /\
    last cs Rails.clk_prepare_enable = Rails.regulator_bulk_disable.
Proof.
  intros [pg rg dg pd ps clk reg cs0]. cbv zeta.
  cbn [Rails.power_gpio Rails.reset_gpio Rails.pwdn_gpio].
  destruct (clk <? 0) eqn:E1; [|destruct (reg <? 0) eqn:E2].
  - destruct pg, rg, dg, pd, ps; rails_run; intros; lia.
  - destruct pg, rg, dg, pd, ps; rails_run; intros; lia.
  - intros _. destruct pg, rg, dg, pd, ps; rails_run; repeat split; reflexivity.
Qed.

Lemma s5k3l6_power_on_off_balanced_witness :
  let r := Rails.__s5k3l6_power_on (quiet_board 0 0) in
  Rails.last_level Rails.RESET
    (Rails.calls (Rails.__s5k3l6_power_off (snd r))) = Some 0 /\
  Rails.last_level Rails.PWDN
    (Rails.calls (Rails.__s5k3l6_power_off (snd r))) = None.
Proof.
  intros r.
  destruct (s5k3l6_power_on_off_balanced (quiet_board 0 0))
    as (_ & _ & _ & _ & _ & H1 & H2 & _).
  - reflexivity.
  - split; [exact H1|exact H2].
Defined.

(** * Control creation *)

(** X24. For a device in one of the catalog modes,
    [s5k3l6_initialize_controls] creates the mode-dependent controls with
    the values an active format request would give them: horizontal
    blanking pinned to [hts_def - width], vertical blanking in
    [[vts_def - height, VTS_MAX - height]] starting at the lower bound,
    pixel rate [link_freq / bpp * 2 * lanes], link frequency at the mode's
    entry.  The exposure starts at the mode's default inside
    [[EXPOSURE_MIN, vts_def - 4]], and that upper bound is the one the
    vertical blanking handler computes, [height + vblank - 4].  Nothing
    but the controls is touched. *)
Theorem s5k3l6_initialize_controls_invariant :
  forall s : s5k3l6,
    In (cur_mode s) supported_modes ->
    let m := cur_mode s in
    let s' := s5k3l6_initialize_controls s in
    mode_controls_ok s' /\
    (minimum (hblank s') = hts_def m - width m /\
     maximum (hblank s') = hts_def m - width m /\
     cur (hblank s') = hts_def m - width m) /\
    (minimum (vblank s') = vts_def m - height m /\
     maximum (vblank s') = S5K3L6_VTS_MAX - height m /\
     cur (vblank s') = vts_def m - height m) /\
    (minimum (exposure s') = S5K3L6_EXPOSURE_MIN /\
     maximum (exposure s') = height m + cur (vblank s') - 4 /\
     cur (exposure s') = exp_def m /\
     minimum (exposure s') <= cur (exposure s') <= maximum (exposure s')) /\
    cur (pixel_rate s')
    = nth (Z.to_nat (link_freq_idx m)) link_freq_items 0 / bpp m * 2
      * S5K3L6_LANES /\
    cur (link_freq s') = link_freq_idx m /\
    (client s' = client s /\ power s' = power s /\ pm s' = pm s /\
     cur_mode s' = m /\ streaming s' = streaming s /\
     power_on s' = power_on s /\ hw s' = hw s).
Proof.
  intros s Hin. cbv zeta. unfold mode_controls_ok, s5k3l6_initialize_controls.
  cbv zeta.
  assert (Hm : cur_mode s = mode_4208x3120 \/ cur_mode s = mode_2104x1560).
  { destruct Hin as [H|[H|[]]]; [left|right]; symmetry; exact H. }
  destruct Hm as [Hm|Hm]; rewrite Hm; vm_compute;
    repeat split; try reflexivity; try discriminate; exact Hm.
Qed.

Lemma s5k3l6_initialize_controls_invariant_witness :
  let s := set_cur_mode (s5k3l6_probe (ack_all []) board 0) mode_2104x1560 in
  let s' := s5k3l6_initialize_controls s in
  cur (hblank s') = 2792 /\ cur (vblank s') = 1700 /\
  maximum (exposure s') = 3256.
Proof.
  intros s s'.
  destruct (s5k3l6_initialize_controls_invariant s)
    as (_ & (_ & _ & H1) & (_ & _ & H2) & (_ & H3 & _) & _).
  - right. left. reflexivity.
  - split; [exact H1|]. split; [exact H2|].
    unfold s'. rewrite H3. vm_compute. reflexivity.
Defined.

(** * The media bus code *)

(** X25. One media bus code is enumerated, at index 0; any other index is
    refused with [-EINVAL] and the caller's structure is left alone.  The
    enumerated code is the code of every answer of [s5k3l6_set_fmt] and of
    the active format [s5k3l6_get_fmt] reports, and it is the code, and the
    only one, for which frame sizes are enumerated. *)
Theorem s5k3l6_enum_mbus_code_agrees :
  forall code : v4l2_subdev_mbus_code_enum,
    let r := s5k3l6_enum_mbus_code code in
    (mce_index code <> 0 -> r = (- EINVAL, code)) /\
    (mce_index code = 0 ->
     fst r = 0 /\
     mce_index (snd r) = 0 /\
     (forall (cfg : bool) (s : s5k3l6) (st : v4l2_subdev_state)
             (fmt : v4l2_subdev_format),
        fmt_code (format (snd (s5k3l6_set_fmt cfg s st fmt)))
        = mce_code (snd r)) /\
     (forall (cfg : bool) (s : s5k3l6) (st : v4l2_subdev_state)
             (fmt : v4l2_subdev_format),
        which fmt = V4L2_SUBDEV_FORMAT_ACTIVE ->
        fmt_code (format (snd (s5k3l6_get_fmt cfg s st fmt)))
        = mce_code (snd r)) /\
     (forall fse : v4l2_subdev_frame_size_enum,
        0 <= fse_index fse < ARRAY_SIZE supported_modes ->
        (fst (s5k3l6_enum_frame_sizes fse) = 0
         <-> fse_code fse = mce_code (snd r)))).
Proof.
  intros code. cbv zeta. unfold s5k3l6_enum_mbus_code.
  destruct (mce_index code =? 0) eqn:Ei; cbn [negb fst snd mce_code mce_index].
  - apply Z.eqb_eq in Ei. split; [intros H; contradiction|]. intros _.
    split; [reflexivity|]. split; [exact Ei|]. split; [|split].
    + intros cfg s st fmt. rewrite set_fmt_answer. reflexivity.
    + intros cfg s st fmt Hw. unfold s5k3l6_get_fmt. rewrite Hw. reflexivity.
    + intros fse [_ Hi]. unfold s5k3l6_enum_frame_sizes.
      assert (E : (fse_index fse >=? ARRAY_SIZE supported_modes) = false).
      { rewrite Z.geb_leb. apply Z.leb_gt. exact Hi. }
      rewrite E.
      destruct (is_sensor_code (fse_code fse)) eqn:Ec; cbn [negb fst].
      * apply is_sensor_code_iff in Ec. split; [intros _; exact Ec|reflexivity].
      * split; [unfold EINVAL; lia|].
        intros H. apply is_sensor_code_iff in H. congruence.
  - apply Z.eqb_neq in Ei. split; [reflexivity|]. intros H; contradiction.
Qed.

Lemma s5k3l6_enum_mbus_code_agrees_witness :
  let r := s5k3l6_enum_mbus_code {| mce_index := 0; mce_code := None |} in
  fst r = 0 /\
  fst (s5k3l6_enum_frame_sizes
         {| fse_index := 1; fse_code := mce_code (snd r); min_width := 0;
            max_width := 0; min_height := 0; max_height := 0 |}) = 0.
Proof.
  intros r.
  destruct (proj2 (s5k3l6_enum_mbus_code_agrees
                     {| mce_index := 0; mce_code := None |}))
    as (H1 & _ & _ & _ & H2).
  - reflexivity.
  - split; [exact H1|]. apply H2; [cbn; lia|reflexivity].
Defined.
